(** * Inventory management backend: product controller and router

    A shallow embedding of the product controller (createProduct,
    updateProduct, deleteProduct, getNewArrivals and the category handlers),
    of the router that mounts it, of the relational schema the ORM client
    works on, and of the two pages that call the router (the create-product
    dialog and the category page, up to the requests they send), followed by
    the properties proved about them.

    Conventions.
    - The database is a record of tables (lists of rows, in storage order).
      A query fails when the schema says so: a duplicate primary key, a
      missing required value, a missing row to connect or to change, a
      product still referred to by a sale or a purchase.  Failures of the
      connection are not modelled.
    - The media host, the clock and the time zone are inputs of a request:
      the host is an oracle saying, for each call, whether it resolves or
      rejects; the zone gives the offset of local time for each time, less
      than a day either way; every call made is appended to a log carried by
      the state, and so is every query.
    - A handler is a computation in a small reader, state and exception
      monad; the JavaScript try/catch blocks are the [try_catch] and
      [attempt] combinators.  Writing to the console is not modelled.
    - Form fields are strings or undefined; a string is the sequence of its
      characters; numbers are IEEE doubles, and the two numeric parsers of
      the language are parameters of a run.
    - The router is mounted on [/products], where the pages address it; a
      path is the list of its segments below that, matched as the framework
      matches by default: without regard to the case of letters or to a
      slash at the end. *)

From Stdlib Require Import ZArith List String Ascii Bool Lia.
From Stdlib Require Import Sorting.Permutation Sorting.Sorted.
From Stdlib Require Import Floats.PrimFloat.
From Stdlib Require Strings.Byte.
Import ListNotations.

Local Open Scope string_scope.
Local Open Scope Z_scope.

(** ** JavaScript values and built-ins used by the controller *)

Module Js.

(** A form field or optional column: [None] is [undefined] / [null]. *)
Definition value := option string.

(** Truthiness of a string-or-undefined value: the empty string and
    [undefined] are falsy. *)
Definition truthy (v : value) : bool :=
  match v with
  | Some s => negb (s =? "")%string
  | None => false
  end.

(** [ToString]: what a template literal or [parseFloat] sees. *)
Definition to_string (v : value) : string :=
  match v with
  | Some s => s
  | None => "undefined"
  end.

(** [String.prototype.split] with a one-character separator. The result is
    never empty: the empty string splits into one empty piece. *)
Fixpoint split (sep : ascii) (s : string) : list string :=
  match s with
  | EmptyString => [EmptyString]
  | String c rest =>
      if Ascii.eqb c sep then EmptyString :: split sep rest
      else match split sep rest with
           | [] => [String c EmptyString]
           | piece :: pieces => String c piece :: pieces
           end
  end.

(** [Array.prototype.pop]: the last element, [undefined] on an empty
    array. *)
Fixpoint pop (l : list string) : value :=
  match l with
  | [] => None
  | [x] => Some x
  | _ :: tl => pop tl
  end.

(** [arr[0]]. *)
Definition first (l : list string) : value := nth_error l 0%nat.

(** [startsWith]. *)
Definition startsWith (s pre : string) : bool := String.prefix pre s.

(** [Buffer.prototype.toString('base64')]: standard alphabet, padded. *)
Definition b64_alphabet : string :=
  "ABCDEFGHIJKLMNOPQRSTUVWXYZabcdefghijklmnopqrstuvwxyz0123456789+/".

Definition b64_char (n : N) : ascii :=
  match String.get (N.to_nat n) b64_alphabet with
  | Some c => c
  | None => "="%char
  end.

Fixpoint base64 (bs : list Byte.byte) : string :=
  match bs with
  | [] => EmptyString
  | [a] =>
      let x := Byte.to_N a in
      String (b64_char (x / 4))
        (String (b64_char ((x mod 4) * 16)) "==")
  | [a; b] =>
      let x := Byte.to_N a in
      let y := Byte.to_N b in
      String (b64_char (x / 4))
        (String (b64_char ((x mod 4) * 16 + y / 16))
           (String (b64_char ((y mod 16) * 4)) "="))
  | a :: b :: c :: rest =>
      let x := Byte.to_N a in
      let y := Byte.to_N b in
      let z := Byte.to_N c in
      String (b64_char (x / 4))
        (String (b64_char ((x mod 4) * 16 + y / 16))
           (String (b64_char ((y mod 16) * 4 + z / 64))
              (String (b64_char (z mod 64)) (base64 rest))))
  end%N.

End Js.

(** ** Calendar arithmetic of the JavaScript [Date] object

    Time values are milliseconds since the epoch.  The local time zone
    gives an offset for each time, so that a zone with daylight saving reads
    a date of the winter and a date of the summer with different offsets. *)

Module JsDate.

Definition msPerDay : Z := 86400000.

Definition Day (t : Z) : Z := t / msPerDay.
Definition TimeWithinDay (t : Z) : Z := t mod msPerDay.

(** The calendar repeats every 400 years, 146097 days.  Within a cycle
    that starts on a first of March, [days_of_cycle] numbers the days and
    [civil_of_cycle] reads a day number back: year of the cycle, month
    (1..12) and day of month. *)
Definition days_of_cycle (yoe m d : Z) : Z :=
  let mp := if m >? 2 then m - 3 else m + 9 in
  let doy := (153 * mp + 2) / 5 + d - 1 in
  yoe * 365 + yoe / 4 - yoe / 100 + doy.

Definition civil_of_cycle (doe : Z) : Z * Z * Z :=
  let yoe := (doe - doe / 1460 + doe / 36524 - doe / 146096) / 365 in
  let doy := doe - (365 * yoe + yoe / 4 - yoe / 100) in
  let mp := (5 * doy + 2) / 153 in
  let d := doy - (153 * mp + 2) / 5 + 1 in
  let m := if mp <? 10 then mp + 3 else mp - 9 in
  (if m <=? 2 then yoe + 1 else yoe, m, d).

(** Day number (days since the epoch) of a civil date. *)
Definition days_from_civil (y m d : Z) : Z :=
  let y' := if m <=? 2 then y - 1 else y in
  (y' / 400) * 146097 + days_of_cycle (y' mod 400) m d - 719468.

(** Year, month (1..12) and day of month of a day number. *)
Definition civil_from_days (z : Z) : Z * Z * Z :=
  let z' := z + 719468 in
  let c := civil_of_cycle (z' mod 146097) in
  (fst (fst c) + 400 * (z' / 146097), snd (fst c), snd c).

Definition YearFromTime (t : Z) : Z := fst (fst (civil_from_days (Day t))).
(** 0-based, as [getMonth] returns it. *)
Definition MonthFromTime (t : Z) : Z := snd (fst (civil_from_days (Day t))) - 1.
Definition DateFromTime (t : Z) : Z := snd (civil_from_days (Day t)).

(** Day number of the first day of [month] (0-based, any integer) of
    [year], plus [date - 1]: months outside 0..11 are carried into the
    year. *)
Definition MakeDay (year month date : Z) : Z :=
  let ym := year + month / 12 in
  let mn := month mod 12 in
  days_from_civil ym (mn + 1) 1 + date - 1.

Definition MakeDate (day time : Z) : Z := day * msPerDay + time.

(** The local time zone: [LocalTZA t true] is the offset of local time from
    UTC at the instant [t]; [LocalTZA t false] is the offset the zone gives to
    the local time [t] (its choice, when a change of offset makes that local
    time occur twice or not at all).  An offset is less than a day, either
    way. *)
Record TimeZone := mkTimeZone {
  LocalTZA : Z -> bool -> Z;
  LocalTZA_range :
    forall (t : Z) (isUTC : bool), - msPerDay < LocalTZA t isUTC < msPerDay
}.

(** The zone of a server that runs on UTC. *)
Definition utc : TimeZone :=
  mkTimeZone (fun _ _ => 0) (fun _ _ => conj eq_refl eq_refl).

Definition LocalTime (tza : TimeZone) (t : Z) : Z := t + LocalTZA tza t true.
Definition UTC (tza : TimeZone) (t : Z) : Z := t - LocalTZA tza t false.

Definition getMonth (tza : TimeZone) (t : Z) : Z :=
  MonthFromTime (LocalTime tza t).

(** [Date.prototype.setMonth(month)]: the day of month is kept as a
    number, so a day the target month does not have runs over into the
    following month. *)
Definition setMonth (tza : TimeZone) (t month : Z) : Z :=
  let lt := LocalTime tza t in
  UTC tza (MakeDate (MakeDay (YearFromTime lt) month (DateFromTime lt))
                    (TimeWithinDay lt)).

End JsDate.

(** ** The relational schema

    One record per model of the schema, one list per table.  The
    many-to-many relation between products and categories is the implicit
    join table, a list of (category id, product id) pairs. *)

Module Products.
Record t := mk {
  productId : string;
  name : string;
  price : float;
  stockQuantity : Z;
  imageUrl : Js.value;
  createdAt : Z;
  updatedAt : Z
}.
End Products.

Module ProductCategory.
Record t := mk {
  categoryId : string;
  name : string;
  description : Js.value;
  createdAt : Z;
  updatedAt : Z
}.
End ProductCategory.

Module Sales.
Record t := mk {
  saleId : string;
  productId : string;
  timestamp : Z;
  quantity : Z;
  unitPrice : float;
  totalAmount : float
}.
End Sales.

Module Purchases.
Record t := mk {
  purchaseId : string;
  productId : string;
  timestamp : Z;
  quantity : Z;
  unitCost : float;
  totalCost : float
}.
End Purchases.

(** The tables.  [links] is the join table of the relation between
    [Products.categories] and [ProductCategory.products], one (category id,
    product id) pair per connection. *)
Record Db := mkDb {
  products : list Products.t;
  productCategory : list ProductCategory.t;
  links : list (string * string);
  sales : list Sales.t;
  purchases : list Purchases.t
}.

Definition empty_db : Db := mkDb [] [] [] [] [].

(** A product with [include: { categories: true }], a category with
    [include: { products: ... }]. *)
Record ProductWithCategories := mkPC {
  product : Products.t;
  categories : list ProductCategory.t
}.

Record CategoryWithProducts := mkCP {
  category : ProductCategory.t;
  category_products : list Products.t
}.

Definition has_product (d : Db) (pid : string) : bool :=
  existsb (fun p => (Products.productId p =? pid)%string) (products d).

Definition has_category (d : Db) (cid : string) : bool :=
  existsb (fun c => (ProductCategory.categoryId c =? cid)%string)
          (productCategory d).

Definition is_link (cid pid : string) (l : string * string) : bool :=
  ((fst l =? cid)%string && (snd l =? pid)%string)%bool.

Definition linked (d : Db) (cid pid : string) : bool :=
  existsb (is_link cid pid) (links d).

Definition categories_of (d : Db) (pid : string) : list ProductCategory.t :=
  filter (fun c => linked d (ProductCategory.categoryId c) pid)
         (productCategory d).

Definition products_of (d : Db) (cid : string) : list Products.t :=
  filter (fun p => linked d cid (Products.productId p)) (products d).

(** A sale or a purchase holds a required reference to its product, with no
    referential action given: the product cannot be deleted while one
    exists. *)
Definition referenced (d : Db) (pid : string) : bool :=
  (existsb (fun s => (Sales.productId s =? pid)%string) (sales d)
   || existsb (fun s => (Purchases.productId s =? pid)%string) (purchases d))%bool.

(** Integrity the database engine maintains: primary keys are unique and
    every foreign key points at a row. *)
Record db_wf (d : Db) : Prop := mk_wf {
  wf_product_ids : NoDup (map Products.productId (products d));
  wf_category_ids : NoDup (map ProductCategory.categoryId (productCategory d));
  wf_links :
    Forall (fun l => has_category d (fst l) = true /\ has_product d (snd l) = true)
           (links d);
  wf_sales :
    Forall (fun s => has_product d (Sales.productId s) = true) (sales d);
  wf_purchases :
    Forall (fun s => has_product d (Purchases.productId s) = true) (purchases d)
}.

Fixpoint nodupb (l : list string) : bool :=
  match l with
  | [] => true
  | x :: tl => (negb (existsb (String.eqb x) tl) && nodupb tl)%bool
  end.

Definition db_wfb (d : Db) : bool :=
  (nodupb (map Products.productId (products d))
   && nodupb (map ProductCategory.categoryId (productCategory d))
   && forallb (fun l => has_category d (fst l) && has_product d (snd l)) (links d)
   && forallb (fun s => has_product d (Sales.productId s)) (sales d)
   && forallb (fun s => has_product d (Purchases.productId s)) (purchases d))%bool.

(** ** Exceptions *)

Inductive PrismaError :=
| UniqueConstraintFailed
| ForeignKeyConstraintFailed
| RecordNotFound
| ValidationError.

(** What the media host rejects with: an [Error] object with its message,
    or a value that is not an [Error]. *)
Inductive Rejection :=
| AnError (message : string)
| NotAnError.

Inductive Exn :=
| PrismaExn (e : PrismaError)
| HostExn (reason : Rejection).

(** [error instanceof Error ? error.message : 'Unknown error']; the errors
    of the ORM client are [Error] objects. *)
Definition exn_message (e : Exn) : string :=
  match e with
  | PrismaExn UniqueConstraintFailed => "Unique constraint failed"
  | PrismaExn ForeignKeyConstraintFailed => "Foreign key constraint failed"
  | PrismaExn RecordNotFound => "Record not found"
  | PrismaExn ValidationError => "Invalid invocation"
  | HostExn (AnError m) => m
  | HostExn NotAnError => "Unknown error"
  end.

(** ** The ORM client: the queries the controller issues

    A write either fails, leaving the database as it was, or returns the new
    database and the selected row. *)

Module Prisma.

Definition result (A : Type) : Type := (PrismaError + A)%type.

(** [products.findUnique({ where: { productId } })]. *)
Definition products_findUnique (d : Db) (pid : string) : option Products.t :=
  find (fun p => (Products.productId p =? pid)%string) (products d).

(** [products.findMany({ where: { name: { contains: search } } })]; an
    undefined [search] is no condition.  The text goes into the pattern of a
    LIKE as it is, between two [%]: there [%] stands for any run of
    characters, [_] for any one character, and a backslash takes the
    character after it literally.  A pattern that ends in a lone backslash is
    an error of the engine. *)
Inductive LikeToken := AnyRun | AnyOne | Literal (c : ascii).

Fixpoint like_tokens (pattern : string) : option (list LikeToken) :=
  match pattern with
  | EmptyString => Some []
  | String c rest =>
      if (c =? "%")%char then option_map (cons AnyRun) (like_tokens rest)
      else if (c =? "_")%char then option_map (cons AnyOne) (like_tokens rest)
      else if (c =? "\")%char then
        match rest with
        | String c' rest' => option_map (cons (Literal c')) (like_tokens rest')
        | EmptyString => None
        end
      else option_map (cons (Literal c)) (like_tokens rest)
  end.

Fixpoint like (pattern : list LikeToken) (s : string) {struct pattern} : bool :=
  match pattern with
  | [] => match s with EmptyString => true | String _ _ => false end
  | AnyRun :: rest =>
      (fix from (s : string) : bool :=
         like rest s
         || match s with
            | EmptyString => false
            | String _ s' => from s'
            end) s
  | AnyOne :: rest =>
      match s with
      | String _ s' => like rest s'
      | EmptyString => false
      end
  | Literal c :: rest =>
      match s with
      | String c' s' => (c' =? c)%char && like rest s'
      | EmptyString => false
      end
  end.

(** The pattern of [contains] ends in [%], not in a lone backslash: it is
    always a pattern (see [contains_pattern]). *)
Definition contains (search : Js.value) (s : string) : bool :=
  match search with
  | None => true
  | Some text =>
      match like_tokens ("%" ++ text ++ "%") with
      | Some pattern => like pattern s
      | None => false
      end
  end.

Definition products_findMany (d : Db) (search : Js.value) : list Products.t :=
  filter (fun p => contains search (Products.name p)) (products d).

(** The arguments of [products.create]: scalars and one category to
    connect.  The id and the name are required strings, the price a number
    (not NaN), the stock an integer; the id must be new and the category
    must exist.  The creation and update times are the current time. *)
Record create_data := mk_create {
  c_productId : Js.value;
  c_name : Js.value;
  c_price : float;
  c_stockQuantity : option Z;
  c_imageUrl : Js.value;
  c_connect : Js.value
}.

Definition products_create (now : Z) (d : Db) (a : create_data)
  : result (Db * ProductWithCategories) :=
  match c_productId a, c_name a, c_stockQuantity a, c_connect a with
  | Some pid, Some nm, Some qty, Some cid =>
      if PrimFloat.is_nan (c_price a) then inl ValidationError
      else if has_product d pid then inl UniqueConstraintFailed
      else if negb (has_category d cid) then inl RecordNotFound
      else
        let row := Products.mk pid nm (c_price a) qty (c_imageUrl a) now now in
        let d' := mkDb (products d ++ [row]) (productCategory d)
                       (links d ++ [(cid, pid)]) (sales d) (purchases d) in
        inr (d', mkPC row (categories_of d' pid))
  | _, _, _, _ => inl ValidationError
  end.

(** The arguments of [products.update] in the update handler: an undefined
    name leaves the column alone; the relation is reset ([set: []]) and one
    category, which must exist, is connected.  Every row with the id is
    rewritten (there is one, ids being unique). *)
Record update_data := mk_update {
  u_name : Js.value;
  u_price : float;
  u_stockQuantity : option Z;
  u_imageUrl : Js.value;
  u_connect : Js.value
}.

Definition update_row (now : Z) (a : update_data) (qty : Z) (p : Products.t)
  : Products.t :=
  Products.mk (Products.productId p)
              (match u_name a with Some nm => nm | None => Products.name p end)
              (u_price a) qty (u_imageUrl a)
              (Products.createdAt p) now.

Definition replace_product (pid : string) (f : Products.t -> Products.t)
           (l : list Products.t) : list Products.t :=
  map (fun p => if (Products.productId p =? pid)%string then f p else p) l.

Definition products_update (now : Z) (d : Db) (pid : string) (a : update_data)
  : result (Db * ProductWithCategories) :=
  match products_findUnique d pid with
  | None => inl RecordNotFound
  | Some old =>
      match u_stockQuantity a, u_connect a with
      | Some qty, Some cid =>
          if PrimFloat.is_nan (u_price a) then inl ValidationError
          else if negb (has_category d cid) then inl RecordNotFound
          else
            let row := update_row now a qty old in
            let cleared := filter (fun l => negb (snd l =? pid)%string) (links d) in
            let d' := mkDb (replace_product pid (update_row now a qty) (products d))
                           (productCategory d)
                           (cleared ++ [(cid, pid)]) (sales d) (purchases d) in
            inr (d', mkPC row (categories_of d' pid))
      | _, _ => inl ValidationError
      end
  end.

(** [products.update({ where: { productId }, data: { categories:
    { connect: { categoryId } } } })]: connecting twice is connecting
    once. *)
Definition products_connect (now : Z) (d : Db) (pid cid : Js.value)
  : result (Db * ProductWithCategories) :=
  match pid, cid with
  | Some pid, Some cid =>
      match products_findUnique d pid with
      | None => inl RecordNotFound
      | Some old =>
          if negb (has_category d cid) then inl RecordNotFound
          else
            let touch p :=
              Products.mk (Products.productId p) (Products.name p)
                          (Products.price p) (Products.stockQuantity p)
                          (Products.imageUrl p) (Products.createdAt p) now in
            let d' := mkDb (replace_product pid touch (products d))
                           (productCategory d)
                           (if linked d cid pid then links d
                            else links d ++ [(cid, pid)])
                           (sales d) (purchases d) in
            inr (d', mkPC (touch old) (categories_of d' pid))
      end
  | _, _ => inl ValidationError
  end.

(** [products.delete({ where: { productId } })]: refused while a sale or a
    purchase refers to the product; the join rows go with the product. *)
Definition products_delete (d : Db) (pid : string) : result Db :=
  match products_findUnique d pid with
  | None => inl RecordNotFound
  | Some _ =>
      if referenced d pid then inl ForeignKeyConstraintFailed
      else
        inr (mkDb (filter (fun p => negb (Products.productId p =? pid)%string)
                          (products d))
                  (productCategory d)
                  (filter (fun l => negb (snd l =? pid)%string) (links d))
                  (sales d) (purchases d))
  end.

Definition productCategory_create (now : Z) (d : Db)
           (cid nm descr : Js.value) : result (Db * ProductCategory.t) :=
  match cid, nm with
  | Some cid, Some nm =>
      if has_category d cid then inl UniqueConstraintFailed
      else
        let row := ProductCategory.mk cid nm descr now now in
        inr (mkDb (products d) (productCategory d ++ [row]) (links d)
                  (sales d) (purchases d), row)
  | _, _ => inl ValidationError
  end.

Definition productCategory_delete (d : Db) (cid : string) : result Db :=
  if has_category d cid then
    inr (mkDb (products d)
              (filter (fun c => negb (ProductCategory.categoryId c =? cid)%string)
                      (productCategory d))
              (filter (fun l => negb (fst l =? cid)%string) (links d))
              (sales d) (purchases d))
  else inl RecordNotFound.

(** [productCategory.findMany({ include: { products: true } })]. *)
Definition productCategory_findMany (d : Db) : list CategoryWithProducts :=
  map (fun c => mkCP c (products_of d (ProductCategory.categoryId c)))
      (productCategory d).

Definition productCategory_findUnique (d : Db) (cid : string)
  : option CategoryWithProducts :=
  match find (fun c => (ProductCategory.categoryId c =? cid)%string)
             (productCategory d) with
  | Some c => Some (mkCP c (products_of d cid))
  | None => None
  end.

(** [orderBy: { createdAt: 'desc' }]: insertion into a list kept in
    descending order of creation time. *)
Fixpoint insert_desc (p : Products.t) (l : list Products.t) : list Products.t :=
  match l with
  | [] => [p]
  | q :: tl =>
      if Products.createdAt q <=? Products.createdAt p then p :: l
      else q :: insert_desc p tl
  end.

Definition orderBy_createdAt_desc (l : list Products.t) : list Products.t :=
  fold_right insert_desc [] l.

(** [createdAt: { gte: since }]. *)
Definition createdAt_gte (since : Z) (p : Products.t) : bool :=
  since <=? Products.createdAt p.

(** The query of the new-arrivals report:
    [where: { products: { some: { createdAt: { gte } } } }] on the
    categories, [include: { products: { where: { createdAt: { gte } },
    orderBy: { createdAt: 'desc' } } }] on each. *)
Definition productCategory_findMany_since (d : Db) (since : Z)
  : list CategoryWithProducts :=
  map (fun c =>
         mkCP c (orderBy_createdAt_desc
                   (filter (createdAt_gte since)
                           (products_of d (ProductCategory.categoryId c)))))
      (filter (fun c =>
                 existsb (createdAt_gte since)
                         (products_of d (ProductCategory.categoryId c)))
              (productCategory d)).

End Prisma.

(** ** The media host and the rest of a request's environment *)

Inductive HostReply (A : Type) :=
| Resolves (a : A)
| Rejects (reason : Rejection).
Arguments Resolves {A} a.
Arguments Rejects {A} reason.

(** [uploader.upload(file, options)] resolves with a record of which the
    controller reads [secure_url]; [uploader.destroy(public_id)] resolves
    with a status the controller ignores.  Either may reject. *)
Record MediaHost := mkHost {
  host_upload : Js.value -> HostReply string;
  host_destroy : string -> HostReply unit
}.

Inductive MediaCall :=
| Upload (file : Js.value)
| Destroy (public_id : string).

(** What a handler reads from outside the database: the media host, the
    clock, the time zone, and the two numeric parsers of the language. *)
Record Runtime := mkRuntime {
  host : MediaHost;
  now : Z;
  tza : JsDate.TimeZone;
  parseFloat : string -> float;
  parseInt : string -> option Z
}.

(** The queries of the ORM client, by the method called. *)
Inductive Query :=
| products_findMany
| products_findUnique
| products_create
| products_update
| products_delete
| productCategory_create
| productCategory_delete
| productCategory_findMany
| productCategory_findUnique.

(** What a handler changes: the database, and the logs of the remote calls
    and of the queries made, in the order they were made. *)
Record World := mkWorld {
  db : Db;
  media_log : list MediaCall;
  query_log : list Query
}.

(** ** The handler monad: reader, state and exceptions *)

Inductive Completion (A : Type) :=
| Normal (a : A)
| Throw (e : Exn).
Arguments Normal {A} a.
Arguments Throw {A} e.

Definition M (A : Type) : Type := Runtime -> World -> Completion A * World.

Definition ret {A} (a : A) : M A := fun _ w => (Normal a, w).

Definition bind {A B} (m : M A) (k : A -> M B) : M B :=
  fun rt w =>
    match m rt w with
    | (Normal a, w') => k a rt w'
    | (Throw e, w') => (Throw e, w')
    end.

Notation "x <- m ;; k" := (bind m (fun x => k))
  (at level 61, m at next level, right associativity).
Notation "m ;;; k" := (bind m (fun _ => k))
  (at level 61, right associativity).

Definition throw {A} (e : Exn) : M A := fun _ w => (Throw e, w).

(** [try { m } catch (e) { h e }]. *)
Definition try_catch {A} (m : M A) (h : Exn -> M A) : M A :=
  fun rt w =>
    match m rt w with
    | (Normal a, w') => (Normal a, w')
    | (Throw e, w') => h e rt w'
    end.

Definition ask : M Runtime := fun rt w => (Normal rt, w).

(** A query is logged whether it succeeds or fails; a failed write leaves
    the database as it was. *)
Definition logged (q : Query) (w : World) : World :=
  mkWorld (db w) (media_log w) (query_log w ++ [q]).

Definition prisma_read {A} (name : Query) (q : Db -> A) : M A :=
  fun _ w => (Normal (q (db w)), logged name w).

Definition prisma_write {A} (name : Query) (q : Db -> Prisma.result (Db * A)) : M A :=
  fun _ w =>
    match q (db w) with
    | inr (d', a) => (Normal a, mkWorld d' (media_log w) (query_log w ++ [name]))
    | inl e => (Throw (PrismaExn e), logged name w)
    end.

(** A query whose arguments the client refuses. *)
Definition prisma_invalid {A} (name : Query) : M A :=
  fun _ w => (Throw (PrismaExn ValidationError), logged name w).

(** A remote call is logged whether it resolves or rejects. *)
Definition cloudinary_upload (file : Js.value) : M string :=
  fun rt w =>
    let w' := mkWorld (db w) (media_log w ++ [Upload file]) (query_log w) in
    match host_upload (host rt) file with
    | Resolves secure_url => (Normal secure_url, w')
    | Rejects reason => (Throw (HostExn reason), w')
    end.

Definition cloudinary_destroy (public_id : string) : M unit :=
  fun rt w =>
    let w' := mkWorld (db w) (media_log w ++ [Destroy public_id]) (query_log w) in
    match host_destroy (host rt) public_id with
    | Resolves _ => (Normal tt, w')
    | Rejects reason => (Throw (HostExn reason), w')
    end.

(** ** Requests and responses *)

Module Body.
Record t := mk {
  productId : Js.value;
  name : Js.value;
  price : Js.value;
  stockQuantity : Js.value;
  categoryId : Js.value;
  description : Js.value
}.
End Body.

Record File := mkFile {
  mimetype : string;
  buffer : list Byte.byte;
  path : Js.value
}.

Record Request := mkRequest {
  params_productId : Js.value;
  params_categoryId : Js.value;
  query_search : Js.value;
  body : Body.t;
  file : option File
}.

Inductive Payload :=
| Message (message : string)
| MessageError (message error : string)
| MissingFields (message : string) (missingFields : list string)
| ProductJson (p : ProductWithCategories)
| ProductsJson (l : list Products.t)
| CategoryJson (c : ProductCategory.t)
| CategoryWithProductsJson (c : CategoryWithProducts)
| CategoriesJson (l : list CategoryWithProducts)
| ErrorPage (message : string)
| NotFoundPage.

Record Response := mkResponse {
  status : Z;
  payload : Payload
}.

(** [res.status(code).json(payload)], and [res.json(payload)], which
    answers 200. *)
Definition json (code : Z) (p : Payload) : M Response := ret (mkResponse code p).
Definition json_ok (p : Payload) : M Response := json 200 p.

(** ** The product controller *)

(** The storage key of a stored image:
    [imageUrl.split('/').pop()?.split('.')[0]]. *)
Definition publicId (imageUrl : string) : Js.value :=
  match Js.pop (Js.split "/" imageUrl) with
  | Some segment => Js.first (Js.split "." segment)
  | None => None
  end.

(** [`products/${publicId}`]. *)
Definition storage_key (public_id : string) : string := "products/" ++ public_id.

(** [findUnique] with the id a route parameter would carry. *)
Definition findUnique_product (pid : Js.value) : M (option Products.t) :=
  match pid with
  | Some pid => prisma_read products_findUnique
                             (fun d => Prisma.products_findUnique d pid)
  | None => prisma_invalid products_findUnique
  end.

Definition getProducts (req : Request) : M Response :=
  try_catch
    (let search := query_search req in
     products <- prisma_read products_findMany
                             (fun d => Prisma.products_findMany d search) ;;
     json_ok (ProductsJson products))
    (fun _ => json 500 (Message "Error retrieving products")).

Definition missingFields (req : Request) : list string :=
  (if negb (Js.truthy (Body.name (body req))) then ["name"] else [])
  ++ (if negb (Js.truthy (Body.price (body req))) then ["price"] else [])
  ++ (if negb (Js.truthy (Body.stockQuantity (body req))) then ["stockQuantity"] else [])
  ++ (if negb (Js.truthy (Body.categoryId (body req))) then ["categoryId"] else [])
  ++ (match file req with None => ["image"] | Some _ => [] end).

Definition dataURI (f : File) : string :=
  "data:" ++ mimetype f ++ ";base64," ++ Js.base64 (buffer f).

(** The [data] of the create query. *)
Definition create_data (rt : Runtime) (req : Request) (imageUrl : Js.value)
  : Prisma.create_data :=
  Prisma.mk_create
    (Body.productId (body req))
    (Body.name (body req))
    (parseFloat rt (Js.to_string (Body.price (body req))))
    (parseInt rt (Js.to_string (Body.stockQuantity (body req))))
    imageUrl
    (Body.categoryId (body req)).

(** The last step of [createProduct]: the database write and the 201. *)
Definition create_row (req : Request) (imageUrl : Js.value) : M Response :=
  rt <- ask ;;
  product <- prisma_write products_create (fun d =>
      Prisma.products_create (now rt) d (create_data rt req imageUrl)) ;;
  json 201 (ProductJson product).

(** [try { return inl (await m) } catch (e) { return inr e }]: a block whose
    failure is inspected by what follows it. *)
Definition attempt {A} (m : M A) : M (A + Exn) :=
  try_catch (a <- m ;; ret (inl a)) (fun e => ret (inr e)).

Definition createProduct (req : Request) : M Response :=
  try_catch
    (if (0 <? List.length (missingFields req))%nat then
       json 400 (MissingFields "Missing required fields" (missingFields req))
     else
       match file req with
       | Some f =>
           uploaded <- attempt (cloudinary_upload (Some (dataURI f))) ;;
           match uploaded with
           | inr uploadError =>
               json 500 (MessageError "Error uploading image"
                                      (exn_message uploadError))
           | inl secure_url => create_row req (Some secure_url)
           end
       | None => create_row req None
       end)
    (fun error => json 500 (MessageError "Server error" (exn_message error))).

(** Removal of a stored image from the media host, as both the update and
    the delete handler write it: nothing is attempted when no URL is stored
    or when the key derived from it is empty. *)
Definition destroy_stored_image (imageUrl : Js.value) : M unit :=
  match imageUrl with
  | Some url =>
      if Js.truthy (Some url) then
        match publicId url with
        | Some public_id =>
            if Js.truthy (Some public_id)
            then cloudinary_destroy (storage_key public_id)
            else ret tt
        | None => ret tt
        end
      else ret tt
  | None => ret tt
  end.

Definition update_product (pid : Js.value) (a : Prisma.update_data)
  : M ProductWithCategories :=
  match pid with
  | Some pid =>
      rt <- ask ;;
      prisma_write products_update
                   (fun d => Prisma.products_update (now rt) d pid a)
  | None => prisma_invalid products_update
  end.

(** The [data] of the update query. *)
Definition update_data (rt : Runtime) (req : Request) (imageUrl : Js.value)
  : Prisma.update_data :=
  Prisma.mk_update
    (Body.name (body req))
    (parseFloat rt (Js.to_string (Body.price (body req))))
    (parseInt rt (Js.to_string (Body.stockQuantity (body req))))
    imageUrl
    (Body.categoryId (body req)).

Definition updateProduct (req : Request) : M Response :=
  try_catch
    (let productId := params_productId req in
     existingProduct <- findUnique_product productId ;;
     match existingProduct with
     | None => json 404 (Message "Product not found")
     | Some existingProduct =>
         image <-
           match file req with
           | Some f =>
               attempt
                 (destroy_stored_image (Products.imageUrl existingProduct) ;;;
                  secure_url <- cloudinary_upload (path f) ;;
                  ret (Some secure_url))
           | None => ret (inl (Products.imageUrl existingProduct))
           end ;;
         match image with
         | inr _ => json 500 (Message "Error handling image update")
         | inl imageUrl =>
             rt <- ask ;;
             updatedProduct <-
               update_product productId (update_data rt req imageUrl) ;;
             json_ok (ProductJson updatedProduct)
         end
     end)
    (fun _ => json 500 (Message "Error updating product")).

Definition delete_product (pid : Js.value) : M unit :=
  match pid with
  | Some pid =>
      prisma_write products_delete (fun d =>
        match Prisma.products_delete d pid with
        | inr d' => inr (d', tt)
        | inl e => inl e
        end)
  | None => prisma_invalid products_delete
  end.

Definition deleteProduct (req : Request) : M Response :=
  try_catch
    (let productId := params_productId req in
     product <- findUnique_product productId ;;
     match product with
     | None => json 404 (Message "Product not found")
     | Some product =>
         try_catch (destroy_stored_image (Products.imageUrl product))
                   (fun _ => ret tt) ;;;
         delete_product productId ;;;
         json 200 (Message "Product deleted successfully")
     end)
    (fun _ => json 500 (Message "Error deleting product")).

Definition createProductCategory (req : Request) : M Response :=
  try_catch
    (rt <- ask ;;
     category <- prisma_write productCategory_create (fun d =>
         Prisma.productCategory_create (now rt) d
           (Body.categoryId (body req)) (Body.name (body req))
           (Body.description (body req))) ;;
     json 201 (CategoryJson category))
    (fun _ => json 500 (Message "Error creating product category")).

Definition deleteProductCategory (req : Request) : M Response :=
  try_catch
    (match params_categoryId req with
     | Some cid =>
         prisma_write productCategory_delete (fun d =>
           match Prisma.productCategory_delete d cid with
           | inr d' => inr (d', tt)
           | inl e => inl e
           end)
     | None => prisma_invalid productCategory_delete
     end ;;;
     json 200 (Message "Product category deleted successfully"))
    (fun _ => json 500 (Message "Error deleting product category")).

Definition getProductCategories (req : Request) : M Response :=
  try_catch
    (categories <- prisma_read productCategory_findMany
                               Prisma.productCategory_findMany ;;
     json_ok (CategoriesJson categories))
    (fun _ => json 500 (Message "Error retrieving product categories")).

Definition getProductsByCategory (req : Request) : M Response :=
  try_catch
    (found <-
       match params_categoryId req with
       | Some cid => prisma_read productCategory_findUnique
                                 (fun d => Prisma.productCategory_findUnique d cid)
       | None => prisma_invalid productCategory_findUnique
       end ;;
     match found with
     | None => json 404 (Message "Category not found")
     | Some products => json_ok (CategoryWithProductsJson products)
     end)
    (fun _ => json 500 (Message "Error retrieving products by category")).

Definition addProductToCategory (req : Request) : M Response :=
  try_catch
    (rt <- ask ;;
     updatedProduct <- prisma_write products_update (fun d =>
         Prisma.products_connect (now rt) d
           (Body.productId (body req)) (Body.categoryId (body req))) ;;
     json_ok (ProductJson updatedProduct))
    (fun _ => json 500 (Message "Error adding product to category")).

(** [const twoMonthsAgo = new Date();
     twoMonthsAgo.setMonth(twoMonthsAgo.getMonth() - 2)]. *)
Definition twoMonthsAgo (rt : Runtime) : Z :=
  JsDate.setMonth (tza rt) (now rt) (JsDate.getMonth (tza rt) (now rt) - 2).

(** The post-query filter: [category.products.length > 0]. *)
Definition has_products (c : CategoryWithProducts) : bool :=
  (0 <? List.length (category_products c))%nat.

Definition getNewArrivals (req : Request) : M Response :=
  try_catch
    (rt <- ask ;;
     let since := twoMonthsAgo rt in
     newArrivals <- prisma_read productCategory_findMany
                       (fun d => Prisma.productCategory_findMany_since d since) ;;
     let filteredCategories := filter has_products newArrivals in
     json_ok (CategoriesJson filteredCategories))
    (fun error => json 500 (MessageError "Error retrieving new arrivals"
                                         (exn_message error))).

(** The same handler without the post-query filter, to compare with. *)
Definition getNewArrivals_unfiltered (req : Request) : M Response :=
  try_catch
    (rt <- ask ;;
     let since := twoMonthsAgo rt in
     newArrivals <- prisma_read productCategory_findMany
                       (fun d => Prisma.productCategory_findMany_since d since) ;;
     json_ok (CategoriesJson newArrivals))
    (fun error => json 500 (MessageError "Error retrieving new arrivals"
                                         (exn_message error))).

(** ** The router *)

Inductive Method := GET | POST | PUT | DELETE.

(** A request as it reaches the router: the path below the mount point, cut
    into segments (the root is the empty list, and a path that ends in a
    slash has an empty last segment), the parsed text fields, and the part
    named [image] of a multipart body when there is one. *)
Record HttpRequest := mkHttp {
  http_method : Method;
  http_path : list string;
  http_search : Js.value;
  http_fields : Body.t;
  http_image : option File
}.

(** The upload middleware, [upload.single('image')] with memory storage: an
    accepted part becomes [req.file]; a part that is not an image, or one
    that reaches five megabytes, is an error handed to the framework. *)
Definition fileSize_limit : Z := 5 * 1024 * 1024.

Definition upload_single (part : option File) : string + option File :=
  match part with
  | None => inr None
  | Some f =>
      if negb (Js.startsWith (mimetype f) "image/")
      then inl "Only image files are allowed!"
      else if fileSize_limit <=? Z.of_nat (List.length (buffer f))
      then inl "File too large"
      else inr (Some (mkFile (mimetype f) (buffer f) None))
  end.

(** The request object a handler receives.  Only the upload middleware
    sets [req.file]. *)
Definition to_request (r : HttpRequest) (pid cid : Js.value) (f : option File)
  : Request :=
  mkRequest pid cid (http_search r) (http_fields r) f.

(** A route parameter matches a non-empty segment. *)
Definition param (segment : string) : bool := negb (segment =? "")%string.

Inductive Handler :=
| h_getProducts
| h_createProduct
| h_updateProduct
| h_deleteProduct
| h_createProductCategory
| h_deleteProductCategory
| h_getProductCategories
| h_getProductsByCategory
| h_addProductToCategory
| h_getNewArrivals.

Definition handler (h : Handler) : Request -> M Response :=
  match h with
  | h_getProducts => getProducts
  | h_createProduct => createProduct
  | h_updateProduct => updateProduct
  | h_deleteProduct => deleteProduct
  | h_createProductCategory => createProductCategory
  | h_deleteProductCategory => deleteProductCategory
  | h_getProductCategories => getProductCategories
  | h_getProductsByCategory => getProductsByCategory
  | h_addProductToCategory => addProductToCategory
  | h_getNewArrivals => getNewArrivals
  end.

Inductive Routing :=
| Dispatch (h : Handler) (req : Request)
| MiddlewareError (message : string)
| NoRoute.

(** The router matches a path without regard to a slash at its end or to
    the case of its letters.  The fixed segments of the routes are ASCII, and
    an ASCII letter is matched by the same letter of either case only. *)
Definition strip_slash (path : list string) : list string :=
  match path with
  | _ :: _ :: _ =>
      if (last path "" =? "")%string then removelast path else path
  | _ => path
  end.

Definition lower_case (c : ascii) : ascii :=
  let n := N_of_ascii c in
  if ((65 <=? n) && (n <=? 90))%N then ascii_of_N (n + 32) else c.

Fixpoint lower_cases (s : string) : string :=
  match s with
  | EmptyString => EmptyString
  | String c rest => String (lower_case c) (lower_cases rest)
  end.

Definition segment_is (fixed segment : string) : bool :=
  (lower_cases segment =? lower_cases fixed)%string.

(** The route table, in registration order.  The upload middleware is
    mounted on [POST /] and nowhere else. *)
Definition route (r : HttpRequest) : Routing :=
  match http_method r, strip_slash (http_path r) with
  | GET, [] => Dispatch h_getProducts (to_request r None None None)
  | POST, [] =>
      match upload_single (http_image r) with
      | inl err => MiddlewareError err
      | inr f => Dispatch h_createProduct (to_request r None None f)
      end
  | PUT, [a; productId] =>
      if (segment_is "products" a && param productId)%bool
      then Dispatch h_updateProduct (to_request r (Some productId) None None)
      else NoRoute
  | DELETE, [a; id] =>
      if (segment_is "products" a && param id)%bool
      then Dispatch h_deleteProduct (to_request r (Some id) None None)
      else if (segment_is "categories" a && param id)%bool
      then Dispatch h_deleteProductCategory (to_request r None (Some id) None)
      else NoRoute
  | POST, [a] =>
      if segment_is "categories" a
      then Dispatch h_createProductCategory (to_request r None None None)
      else NoRoute
  | GET, [a] =>
      if segment_is "categories" a
      then Dispatch h_getProductCategories (to_request r None None None)
      else if segment_is "newArrivals" a
      then Dispatch h_getNewArrivals (to_request r None None None)
      else NoRoute
  | GET, [a; categoryId; b] =>
      if (segment_is "categories" a && param categoryId
          && segment_is "products" b)%bool
      then Dispatch h_getProductsByCategory
                    (to_request r None (Some categoryId) None)
      else NoRoute
  | POST, [a; b] =>
      if (segment_is "categories" a && segment_is "add-product" b)%bool
      then Dispatch h_addProductToCategory (to_request r None None None)
      else NoRoute
  | _, _ => NoRoute
  end.

(** An error of a middleware and an unmatched request are answered by the
    framework. *)
Definition router (r : HttpRequest) : M Response :=
  match route r with
  | Dispatch h req => handler h req
  | MiddlewareError err => json 500 (ErrorPage err)
  | NoRoute => json 404 NotFoundPage
  end.

(** Running a handler on a database, with empty logs. *)
Definition run {A} (m : M A) (rt : Runtime) (d : Db) : Completion A * World :=
  m rt (mkWorld d [] []).

Definition response_of {A} (r : Completion A * World) : option A :=
  match fst r with
  | Normal a => Some a
  | Throw _ => None
  end.

Definition db_after {A} (r : Completion A * World) : Db := db (snd r).
Definition calls_of {A} (r : Completion A * World) : list MediaCall :=
  media_log (snd r).
Definition queries_of {A} (r : Completion A * World) : list Query :=
  query_log (snd r).

(** ** Vocabulary of the properties *)

(** The key [destroy_stored_image] asks the media host to destroy, if it
    asks at all. *)
Definition destroy_target (imageUrl : Js.value) : option string :=
  match imageUrl with
  | Some url =>
      if Js.truthy (Some url) then
        match publicId url with
        | Some public_id =>
            if Js.truthy (Some public_id) then Some (storage_key public_id)
            else None
        | None => None
        end
      else None
  | None => None
  end.

(** No character of [s] is [c]. *)
Fixpoint free_of (c : ascii) (s : string) : Prop :=
  match s with
  | EmptyString => True
  | String a rest => a <> c /\ free_of c rest
  end.

(** [piece] is what follows the last [sep] of [s] (all of [s] when it has
    none). *)
Definition after_last (sep : ascii) (s piece : string) : Prop :=
  free_of sep piece
  /\ (s = piece \/ exists before, s = before ++ String sep piece).

(** [piece] is what precedes the first [sep] of [s] (all of [s] when it has
    none). *)
Definition before_first (sep : ascii) (s piece : string) : Prop :=
  free_of sep piece
  /\ (s = piece \/ exists after, s = piece ++ String sep after).


(** A computation preserves integrity when the database it leaves has it
    whenever the database it found had it. *)
Definition preserves {A : Type} (m : M A) : Prop :=
  forall (rt : Runtime) (w : World),
    db_wf (db w) -> db_wf (db (snd (m rt w))).




(** ** The pages: the create-product dialog

    The state of the dialog, its event handlers, and the request its submit
    handler sends; what the handler does with the answer is not modelled.
    The router is mounted on [/products], as the addresses the pages fetch
    show: the dialog posts to the router's [/]. *)

Module Modal.

(** A file picked in the browser: its media type and its bytes. *)
Record BrowserFile := mkBrowserFile {
  type : string;
  bytes : list Byte.byte
}.

Definition size (f : BrowserFile) : Z := Z.of_nat (List.length (bytes f)).

Record ProductFormData := mkForm {
  productId : string;
  name : string;
  price : string;
  stockQuantity : string;
  categoryId : string;
  image : option BrowserFile
}.

(** The preview is the object URL of a picked file: the file it shows. *)
Record State := mkState {
  formData : ProductFormData;
  imagePreview : option BrowserFile;
  error : option string
}.

(** The built-ins of the language the dialog calls. *)
Record Builtins := mkBuiltins {
  trim : string -> string;
  parseFloat : string -> float;
  parseInt : string -> option Z
}.

(** [initialFormData], with the identifier [v4()] gave. *)
Definition initialFormData (uuid : string) : ProductFormData :=
  mkForm uuid "" "" "" "" None.

Definition initial (uuid : string) : State :=
  mkState (initialFormData uuid) None None.

(** The inputs wired to [handleChange], by their [name]. *)
Inductive Field := f_name | f_price | f_stockQuantity | f_categoryId.

Definition handleChange (field : Field) (value : string) (st : State) : State :=
  let fd := formData st in
  mkState
    match field with
    | f_name =>
        mkForm (productId fd) value (price fd) (stockQuantity fd)
               (categoryId fd) (image fd)
    | f_price =>
        mkForm (productId fd) (name fd) value (stockQuantity fd)
               (categoryId fd) (image fd)
    | f_stockQuantity =>
        mkForm (productId fd) (name fd) (price fd) value
               (categoryId fd) (image fd)
    | f_categoryId =>
        mkForm (productId fd) (name fd) (price fd) (stockQuantity fd)
               value (image fd)
    end
    (imagePreview st) (error st).

Definition handleImageChange (picked : option BrowserFile) (st : State) : State :=
  match picked with
  | Some file =>
      if negb (Js.startsWith (type file) "image/") then
        mkState (formData st) (imagePreview st)
                (Some "Please upload an image file")
      else if size file >? 5 * 1024 * 1024 then
        mkState (formData st) (imagePreview st)
                (Some "Image size should be less than 5MB")
      else
        let fd := formData st in
        mkState (mkForm (productId fd) (name fd) (price fd)
                        (stockQuantity fd) (categoryId fd) (Some file))
                (Some file) None
  | None => st
  end.

(** [validateForm]: the message of the first check that fails, if one
    does. *)
Definition validateForm (js : Builtins) (fd : ProductFormData) : option string :=
  if negb (Js.truthy (Some (trim js (name fd)))) then
    Some "Product name is required"
  else if (negb (Js.truthy (Some (price fd)))
           || PrimFloat.leb (parseFloat js (price fd)) 0%float)%bool then
    Some "Valid price is required"
  else if (negb (Js.truthy (Some (stockQuantity fd)))
           || match parseInt js (stockQuantity fd) with
              | Some n => n <? 0
              | None => false
              end)%bool then
    Some "Valid stock quantity is required"
  else if negb (Js.truthy (Some (categoryId fd))) then
    Some "Category is required"
  else None.

(** The multipart body [handleSubmit] builds. *)
Definition submitFormData (js : Builtins) (fd : ProductFormData) : HttpRequest :=
  mkHttp POST [] None
         (Body.mk (Some (productId fd)) (Some (trim js (name fd)))
                  (Some (price fd)) (Some (stockQuantity fd))
                  (Some (categoryId fd)) None)
         match image fd with
         | Some file => Some (mkFile (type file) (bytes file) None)
         | None => None
         end.

(** [handleSubmit] up to the request: the error is cleared, the form is
    validated, and a form that passes is posted. *)
Definition handleSubmit (js : Builtins) (st : State)
  : State * option HttpRequest :=
  match validateForm js (formData st) with
  | Some message =>
      (mkState (formData st) (imagePreview st) (Some message), None)
  | None =>
      (mkState (formData st) (imagePreview st) None,
       Some (submitFormData js (formData st)))
  end.

(** After a product was created: the form is reset, with a new identifier,
    and the preview dropped. *)
Definition reset (uuid : string) (st : State) : State :=
  mkState (initialFormData uuid) None (error st).

(** The states the dialog goes through. *)
Inductive reachable : State -> Prop :=
| reach_initial (uuid : string) : reachable (initial uuid)
| reach_change (field : Field) (value : string) (st : State) :
    reachable st -> reachable (handleChange field value st)
| reach_image (picked : option BrowserFile) (st : State) :
    reachable st -> reachable (handleImageChange picked st)
| reach_submit (js : Builtins) (st : State) :
    reachable st -> reachable (fst (handleSubmit js st))
| reach_reset (uuid : string) (st : State) :
    reachable st -> reachable (reset uuid st).

End Modal.

(** ** The pages: the category page *)

Module CategoryPage.

Record Category := mkCategory {
  categoryId : string;
  name : string;
  description : option string
}.

Record FormData := mkForm {
  form_name : string;
  form_description : string
}.

(** The request [handleSubmit] sends: in edit mode a PUT on the category,
    otherwise a POST with a new identifier. *)
Definition handleSubmit (editing : option Category) (uuid : string)
           (fd : FormData) : HttpRequest :=
  match editing with
  | Some currentCategory =>
      mkHttp PUT ["categories"; categoryId currentCategory] None
             (Body.mk None (Some (form_name fd)) None None
                      (Some (categoryId currentCategory))
                      (Some (form_description fd)))
             None
  | None =>
      mkHttp POST ["categories"] None
             (Body.mk None (Some (form_name fd)) None None
                      (Some uuid) (Some (form_description fd)))
             None
  end.

End CategoryPage.

(** What the dialog has checked of the image its form holds: the media
    type is an image type, and the size is five megabytes at most. *)
Definition checked (fd : Modal.ProductFormData) : Prop :=
  match Modal.image fd with
  | Some file =>
      Js.startsWith (Modal.type file) "image/" = true
      /\ Modal.size file <= fileSize_limit
  | None => True
  end.

(** ** Sample data

    A small catalogue, two media hosts (one that resolves every call, one
    that rejects every call) and requests, used to run the handlers. *)

Module Sample.

Definition t0 : Z := 1735732800000.       (* 2025-01-01T12:00:00Z *)
Definition t_mar01 : Z := 1740830400000.  (* 2025-03-01T12:00:00Z *)
Definition t_apr10 : Z := 1744286400000.  (* 2025-04-10T12:00:00Z *)
Definition t_apr30 : Z := 1746014400000.  (* 2025-04-30T12:00:00Z *)

Definition shoes : ProductCategory.t :=
  ProductCategory.mk "c1" "Shoes" None t0 t0.
Definition hats : ProductCategory.t :=
  ProductCategory.mk "c2" "Hats" (Some "Headwear") t0 t0.

Definition boot_url : string :=
  "https://res.cloudinary.com/demo/image/upload/v1735732800/products/abc123.jpg".

Definition boot : Products.t :=
  Products.mk "p1" "Boot" 49.5%float 7 (Some boot_url) t0 t0.
(** A product without an image. *)
Definition cap : Products.t :=
  Products.mk "p2" "Cap" 12%float 3 None t_mar01 t_mar01.
Definition sandal : Products.t :=
  Products.mk "p3" "Sandal" 20%float 5 None t_apr10 t_apr10.

(** [boot] is in both categories and has been sold once. *)
Definition catalogue : Db :=
  mkDb [boot; cap; sandal] [shoes; hats]
       [("c1", "p1"); ("c2", "p1"); ("c2", "p2"); ("c1", "p3")]
       [Sales.mk "s1" "p1" t_mar01 1 49.5%float 49.5%float]
       [].

(** The same catalogue before anything was sold. *)
Definition unsold : Db :=
  mkDb (products catalogue) (productCategory catalogue) (links catalogue) [] [].

Definition new_url : string :=
  "https://res.cloudinary.com/demo/image/upload/v1746014400/products/xyz789.png".

Definition resolving : MediaHost :=
  mkHost (fun _ => Resolves new_url) (fun _ => Resolves tt).
Definition rejecting : MediaHost :=
  mkHost (fun _ => Rejects (AnError "upload failed")) (fun _ => Rejects NotAnError).
(** A host on which uploads work and removals do not. *)
Definition destroy_rejecting : MediaHost :=
  mkHost (fun _ => Resolves new_url) (fun _ => Rejects NotAnError).

(** Parsers that know the numerals the sample requests use. *)
Definition sample_parseFloat (s : string) : float :=
  if (s =? "15.25")%string then 15.25%float
  else if (s =? "12")%string then 12%float
  else nan.
Definition sample_parseInt (s : string) : option Z :=
  if (s =? "4")%string then Some 4
  else if (s =? "12")%string then Some 12
  else None.

Definition runtime (h : MediaHost) : Runtime :=
  mkRuntime h t_apr30 JsDate.utc sample_parseFloat sample_parseInt.

Definition png : File :=
  mkFile "image/png" [Byte.x89; Byte.x50; Byte.x4e; Byte.x47] None.

Definition fields : Body.t :=
  Body.mk (Some "p9") (Some "Clog") (Some "15.25") (Some "4") (Some "c2") None.

(** A complete create request, and one with no price and no image. *)
Definition create_req : Request := mkRequest None None None fields (Some png).
Definition incomplete_req : Request :=
  mkRequest None None None
            (Body.mk (Some "p9") (Some "Clog") None (Some "4") (Some "c2") None)
            None.

(** Requests on the product [p1]: an update with and without a new image,
    and a delete. *)
Definition update_req (pid : string) (f : option File) : Request :=
  mkRequest (Some pid) None None fields f.
Definition delete_req (pid : string) : Request :=
  mkRequest (Some pid) None None (Body.mk None None None None None None) None.

Definition put_http : HttpRequest :=
  mkHttp PUT ["products"; "p1"] None fields (Some png).

End Sample.

(** ** More sample requests, on the catalogue of [Sample] *)

Module Scenario.

(** New York in the spring of 2025: five hours behind UTC until the 9th of
    March at 7:00 UTC (2:00 local time), four hours behind from then on
    (3:00 local time). *)
Definition new_york_offset (t : Z) (isUTC : bool) : Z :=
  if t <? (if isUTC then 1741503600000 else 1741489200000)
  then -18000000 else -14400000.

Definition new_york : JsDate.TimeZone :=
  JsDate.mkTimeZone
    new_york_offset
    (fun t isUTC =>
       match t <? (if isUTC then 1741503600000 else 1741489200000) as early
             return - JsDate.msPerDay
                    < (if early then -18000000 else -14400000)
                    < JsDate.msPerDay
       with
       | true => conj eq_refl eq_refl
       | false => conj eq_refl eq_refl
       end).

Definition no_fields : Body.t := Body.mk None None None None None None.

(** A create request under the id of a product that exists. *)
Definition duplicate_req : Request :=
  mkRequest None None None
            (Body.mk (Some "p1") (Some "Clog") (Some "15.25") (Some "4")
                     (Some "c2") None)
            (Some Sample.png).

(** A host on which removals work and uploads do not. *)
Definition upload_rejecting : MediaHost :=
  mkHost (fun _ => Rejects (AnError "upload failed")) (fun _ => Resolves tt).

(** Category requests: a new category, one under an id in use, a removal,
    a listing of the products, and a product added to a category. *)
Definition category_req (cid : string) : Request :=
  mkRequest None None None
            (Body.mk None (Some "Bags") None None (Some cid) (Some "Carried"))
            None.
Definition category_delete_req (cid : string) : Request :=
  mkRequest None (Some cid) None no_fields None.
Definition add_req (pid cid : string) : Request :=
  mkRequest None None None
            (Body.mk (Some pid) None None None (Some cid) None) None.

(** Over HTTP: an update of a product that does not exist, the new-arrivals
    report, and a create request with a text file as its image. *)
Definition missing_put : HttpRequest :=
  mkHttp PUT ["products"; "p404"] None Sample.fields None.
Definition get_newArrivals : HttpRequest :=
  mkHttp GET ["newArrivals"] None no_fields None.
Definition notes : File :=
  mkFile "text/plain" [Byte.x68; Byte.x69] None.
Definition post_notes : HttpRequest :=
  mkHttp POST [] None Sample.fields (Some notes).

(** In the dialog: the built-ins on the sample texts, which have no space
    at either end; a picked image; the form filled in, without and with the
    image. *)
Definition builtins : Modal.Builtins :=
  Modal.mkBuiltins (fun s => s) Sample.sample_parseFloat Sample.sample_parseInt.
Definition photo : Modal.BrowserFile :=
  Modal.mkBrowserFile "image/png" [Byte.x89; Byte.x50; Byte.x4e; Byte.x47].
Definition filled : Modal.State :=
  Modal.handleChange Modal.f_categoryId "c2"
    (Modal.handleChange Modal.f_stockQuantity "4"
       (Modal.handleChange Modal.f_price "15.25"
          (Modal.handleChange Modal.f_name "Clog" (Modal.initial "p9")))).
Definition filled_with_photo : Modal.State :=
  Modal.handleImageChange (Some photo) filled.

End Scenario.

(** * Properties *)

(** ** Lookups *)

Lemma findUnique_None_iff (d : Db) (pid : string) :
  Prisma.products_findUnique d pid = None <-> has_product d pid = false.
Proof.
  unfold Prisma.products_findUnique, has_product.
  induction (products d) as [|p tl IH]; simpl.
  - tauto.
  - destruct (Products.productId p =? pid)%string; simpl.
    + split; discriminate.
    + exact IH.
Qed.

Lemma findUnique_Some (d : Db) (pid : string) (p : Products.t) :
  Prisma.products_findUnique d pid = Some p ->
  In p (products d) /\ Products.productId p = pid /\ has_product d pid = true.
Proof.
  unfold Prisma.products_findUnique, has_product. intros H.
  destruct (find_some _ _ H) as [Hin Heq].
  apply String.eqb_eq in Heq.
  repeat split; auto.
  apply existsb_exists. exists p. split; auto. now apply String.eqb_eq.
Qed.

Lemma has_product_findUnique (d : Db) (pid : string) :
  has_product d pid = true -> exists p, Prisma.products_findUnique d pid = Some p.
Proof.
  intros H. destruct (Prisma.products_findUnique d pid) eqn:E.
  - eauto.
  - apply findUnique_None_iff in E. congruence.
Qed.

(** ** createProduct: validation *)

Lemma missingFields_In (req : Request) (field : string) :
  In field (missingFields req) <->
  (field = "name" /\ Js.truthy (Body.name (body req)) = false)
  \/ (field = "price" /\ Js.truthy (Body.price (body req)) = false)
  \/ (field = "stockQuantity" /\ Js.truthy (Body.stockQuantity (body req)) = false)
  \/ (field = "categoryId" /\ Js.truthy (Body.categoryId (body req)) = false)
  \/ (field = "image" /\ file req = None).
Proof.
  unfold missingFields.
  destruct (Js.truthy (Body.name (body req)));
    destruct (Js.truthy (Body.price (body req)));
    destruct (Js.truthy (Body.stockQuantity (body req)));
    destruct (Js.truthy (Body.categoryId (body req)));
    destruct (file req); simpl;
    intuition (subst; auto; try discriminate).
Qed.

Lemma missingFields_NoDup (req : Request) : NoDup (missingFields req).
Proof.
  unfold missingFields.
  destruct (Js.truthy (Body.name (body req)));
    destruct (Js.truthy (Body.price (body req)));
    destruct (Js.truthy (Body.stockQuantity (body req)));
    destruct (Js.truthy (Body.categoryId (body req)));
    destruct (file req); simpl;
    repeat (constructor; [simpl; intuition discriminate|]); constructor.
Qed.

Lemma createProduct_rejects (rt : Runtime) (d : Db) (req : Request) :
  missingFields req <> [] ->
  run (createProduct req) rt d =
  (Normal (mkResponse 400
             (MissingFields "Missing required fields" (missingFields req))),
   mkWorld d [] []).
Proof.
  intros H. unfold run, createProduct, try_catch.
  destruct (missingFields req) as [|x l] eqn:E; [congruence|].
  reflexivity.
Qed.

(** C4. A create request in which one of name, price, stockQuantity,
    categoryId (falsy) or the image file (absent) is missing is answered 400
    with a list [missing] that holds exactly the missing ones, each once; the
    database is unchanged, no query is issued and the media host is not
    called. *)
Theorem createProduct_missing_fields (rt : Runtime) (d : Db) (req : Request) :
  Js.truthy (Body.name (body req)) = false
  \/ Js.truthy (Body.price (body req)) = false
  \/ Js.truthy (Body.stockQuantity (body req)) = false
  \/ Js.truthy (Body.categoryId (body req)) = false
  \/ file req = None ->
  exists missing : list string,
    run (createProduct req) rt d =
    (Normal (mkResponse 400 (MissingFields "Missing required fields" missing)),
     mkWorld d [] [])
    /\ NoDup missing
    /\ forall field : string,
        In field missing <->
        (field = "name" /\ Js.truthy (Body.name (body req)) = false)
        \/ (field = "price" /\ Js.truthy (Body.price (body req)) = false)
        \/ (field = "stockQuantity"
            /\ Js.truthy (Body.stockQuantity (body req)) = false)
        \/ (field = "categoryId"
            /\ Js.truthy (Body.categoryId (body req)) = false)
        \/ (field = "image" /\ file req = None).
Proof.
  intros H. exists (missingFields req). split; [|split].
  - apply createProduct_rejects. intros E.
    assert (Hin : exists f, In f (missingFields req)).
    { destruct H as [H|[H|[H|[H|H]]]];
        [exists "name"|exists "price"|exists "stockQuantity"
         |exists "categoryId"|exists "image"];
        apply missingFields_In; tauto. }
    destruct Hin as [f Hf]. rewrite E in Hf. exact Hf.
  - apply missingFields_NoDup.
  - apply missingFields_In.
Qed.

Lemma createProduct_missing_fields_witness :
  exists missing : list string,
    run (createProduct Sample.incomplete_req)
        (Sample.runtime Sample.rejecting) Sample.catalogue =
    (Normal (mkResponse 400 (MissingFields "Missing required fields" missing)),
     mkWorld Sample.catalogue [] [])
    /\ missing = ["price"; "image"].
Proof.
  destruct (createProduct_missing_fields
              (Sample.runtime Sample.rejecting) Sample.catalogue
              Sample.incomplete_req) as [missing [Hrun _]].
  - right. left. reflexivity.
  - exists missing. split; [exact Hrun|].
    vm_compute in Hrun. congruence.
Defined.

(** ** createProduct: the upload *)

Lemma validated_has_file (req : Request) :
  missingFields req = [] -> exists f, file req = Some f.
Proof.
  intros H. destruct (file req) as [f|] eqn:E; [eauto|].
  assert (Hin : In "image" (missingFields req))
    by (apply missingFields_In; tauto).
  rewrite H in Hin. destruct Hin.
Qed.

(** C1. When a create request passes validation and the upload rejects, the
    answer is 500 "Error uploading image"; the only remote call is that
    upload, no query is issued (the create query in particular), and the
    database is the one the request found. *)
Theorem createProduct_upload_failure
        (rt : Runtime) (d : Db) (req : Request) (f : File) (reason : Rejection) :
  missingFields req = [] ->
  file req = Some f ->
  host_upload (host rt) (Some (dataURI f)) = Rejects reason ->
  run (createProduct req) rt d =
  (Normal (mkResponse 500 (MessageError "Error uploading image"
                                        (exn_message (HostExn reason)))),
   mkWorld d [Upload (Some (dataURI f))] []).
Proof.
  intros Hv Hf Hu.
  unfold run, createProduct, try_catch, attempt, try_catch, bind,
    cloudinary_upload.
  rewrite Hv, Hf. simpl. rewrite Hu. reflexivity.
Qed.

Lemma createProduct_upload_failure_witness :
  run (createProduct Sample.create_req)
      (Sample.runtime Sample.rejecting) Sample.catalogue =
  (Normal (mkResponse 500 (MessageError "Error uploading image" "upload failed")),
   mkWorld Sample.catalogue [Upload (Some (dataURI Sample.png))] []).
Proof.
  apply (createProduct_upload_failure
           (Sample.runtime Sample.rejecting) Sample.catalogue
           Sample.create_req Sample.png (AnError "upload failed"));
    reflexivity.
Defined.

(** ** updateProduct: an unknown product *)

(** C6. An update request for a product id that is not in the database is
    answered 404 "Product not found"; the lookup is the only query, the
    media host is not called, and the database is unchanged. *)
Theorem updateProduct_not_found
        (rt : Runtime) (d : Db) (req : Request) (pid : string) :
  params_productId req = Some pid ->
  has_product d pid = false ->
  run (updateProduct req) rt d =
  (Normal (mkResponse 404 (Message "Product not found")),
   mkWorld d [] [products_findUnique]).
Proof.
  intros Hp Hn. apply findUnique_None_iff in Hn.
  unfold run, updateProduct, try_catch, bind, findUnique_product, prisma_read.
  rewrite Hp. simpl. rewrite Hn. reflexivity.
Qed.

Lemma updateProduct_not_found_witness :
  run (updateProduct (Sample.update_req "p404" (Some Sample.png)))
      (Sample.runtime Sample.resolving) Sample.catalogue =
  (Normal (mkResponse 404 (Message "Product not found")),
   mkWorld Sample.catalogue [] [products_findUnique]).
Proof.
  apply (updateProduct_not_found (Sample.runtime Sample.resolving)
           Sample.catalogue (Sample.update_req "p404" (Some Sample.png)) "p404");
    reflexivity.
Defined.

(** ** The storage key of a stored image *)

Lemma destroy_stored_image_target (imageUrl : Js.value) :
  destroy_stored_image imageUrl =
  match destroy_target imageUrl with
  | Some key => cloudinary_destroy key
  | None => ret tt
  end.
Proof.
  unfold destroy_stored_image, destroy_target.
  destruct imageUrl as [url|]; [|reflexivity].
  destruct (Js.truthy (Some url)); [|reflexivity].
  destruct (publicId url) as [k|]; [|reflexivity].
  destruct (Js.truthy (Some k)); reflexivity.
Qed.

Lemma split_nonempty (sep : ascii) (s : string) : Js.split sep s <> [].
Proof.
  destruct s as [|c rest]; simpl; [discriminate|].
  destruct (Ascii.eqb c sep); [discriminate|].
  destruct (Js.split sep rest); discriminate.
Qed.

(** [split] is the inverse of [join]: the pieces hold no separator and,
    joined by it, give the string back. *)
Lemma split_pieces_free (sep : ascii) (s : string) :
  Forall (free_of sep) (Js.split sep s).
Proof.
  induction s as [|c rest IH]; simpl.
  - repeat constructor.
  - destruct (Ascii.eqb c sep) eqn:E.
    + constructor; [exact I|exact IH].
    + apply Ascii.eqb_neq in E.
      destruct (Js.split sep rest) as [|hd tl]; [repeat constructor; auto|].
      inversion IH; subst. constructor; [simpl; auto|assumption].
Qed.

Lemma split_join (sep : ascii) (s : string) :
  String.concat (String sep EmptyString) (Js.split sep s) = s.
Proof.
  induction s as [|c rest IH]; simpl; [reflexivity|].
  destruct (Js.split sep rest) as [|hd tl] eqn:Es;
    [now apply split_nonempty in Es|].
  destruct (Ascii.eqb c sep) eqn:E.
  - apply Ascii.eqb_eq in E. subst c.
    change (String.concat (String sep EmptyString) (EmptyString :: hd :: tl))
      with (String sep (String.concat (String sep EmptyString) (hd :: tl))).
    now rewrite IH.
  - destruct tl as [|hd' tl']; simpl in *; now rewrite IH.
Qed.

Lemma split_first (sep : ascii) (s piece : string) :
  Js.first (Js.split sep s) = Some piece -> before_first sep s piece.
Proof.
  unfold Js.first, before_first. revert piece.
  induction s as [|c rest IH]; simpl; intros piece H.
  - injection H as <-. simpl. auto.
  - destruct (Ascii.eqb c sep) eqn:E.
    + apply Ascii.eqb_eq in E. subst c. simpl in H. injection H as <-.
      split; simpl; auto. right. exists rest. reflexivity.
    + apply Ascii.eqb_neq in E.
      destruct (Js.split sep rest) as [|hd tl] eqn:Es.
      * now apply split_nonempty in Es.
      * simpl in H. injection H as <-.
        destruct (IH hd eq_refl) as [Hfree Hshape].
        split; [simpl; auto|].
        destruct Hshape as [->|[after ->]]; [left; reflexivity|].
        right. exists after. reflexivity.
Qed.

Lemma split_free (sep : ascii) (s : string) :
  free_of sep s -> Js.split sep s = [s].
Proof.
  induction s as [|c rest IH]; simpl; intros H; [reflexivity|].
  destruct H as [Hc Hrest]. apply Ascii.eqb_neq in Hc.
  rewrite Hc, (IH Hrest). reflexivity.
Qed.

Lemma split_app_length (sep : ascii) (before piece : string) :
  (2 <= List.length (Js.split sep (before ++ String sep piece)))%nat.
Proof.
  induction before as [|b bs IH]; simpl.
  - rewrite Ascii.eqb_refl. simpl.
    pose proof (split_nonempty sep piece) as Hne.
    destruct (Js.split sep piece); [congruence|simpl; lia].
  - destruct (Ascii.eqb b sep); [simpl; lia|].
    destruct (Js.split sep (bs ++ String sep piece)); simpl in *; lia.
Qed.

Lemma split_pop (sep : ascii) (s piece : string) :
  Js.pop (Js.split sep s) = Some piece -> after_last sep s piece.
Proof.
  unfold after_last. revert piece.
  induction s as [|c rest IH]; simpl; intros piece H.
  - injection H as <-. simpl. auto.
  - destruct (Js.split sep rest) as [|hd tl] eqn:Es;
      [now apply split_nonempty in Es|].
    destruct (Ascii.eqb c sep) eqn:E.
    + apply Ascii.eqb_eq in E. subst c.
      destruct (IH piece H) as [Hfree Hshape]. split; [exact Hfree|].
      right. destruct Hshape as [->|[before ->]].
      * exists EmptyString. reflexivity.
      * exists (String sep before). reflexivity.
    + apply Ascii.eqb_neq in E. destruct tl as [|hd' tl'].
      * injection H as <-.
        destruct (IH hd eq_refl) as [Hfree [->|[before ->]]].
        -- split; [simpl; auto|left; reflexivity].
        -- pose proof (split_app_length sep before hd) as Hlen.
           rewrite Es in Hlen. simpl in Hlen. lia.
      * destruct (IH piece H) as [Hfree [->|[before ->]]].
        -- rewrite (split_free _ _ Hfree) in Es. discriminate.
        -- split; [exact Hfree|]. right. exists (String c before). reflexivity.
Qed.

Lemma destroy_target_shape (imageUrl : Js.value) (key : string) :
  destroy_target imageUrl = Some key ->
  exists url segment public_id : string,
    imageUrl = Some url
    /\ after_last "/" url segment
    /\ before_first "." segment public_id
    /\ public_id <> ""
    /\ key = "products/" ++ public_id.
Proof.
  unfold destroy_target, publicId. intros H.
  destruct imageUrl as [url|]; [|discriminate].
  destruct (Js.truthy (Some url)); [|discriminate].
  destruct (Js.pop (Js.split "/" url)) as [segment|] eqn:Ep; [|discriminate].
  destruct (Js.first (Js.split "." segment)) as [public_id|] eqn:Ef;
    [|discriminate].
  destruct (Js.truthy (Some public_id)) eqn:Et; [|discriminate].
  injection H as <-.
  exists url, segment, public_id. repeat split.
  - apply (split_pop _ _ _ Ep).
  - apply (split_pop _ _ _ Ep).
  - apply (split_first _ _ _ Ef).
  - apply (split_first _ _ _ Ef).
  - intros ->. discriminate.
Qed.

(** ** deleteProduct *)

Lemma products_delete_removes (d d' : Db) (pid : string) :
  Prisma.products_delete d pid = inr d' -> has_product d' pid = false.
Proof.
  unfold Prisma.products_delete. intros H.
  destruct (Prisma.products_findUnique d pid); [|discriminate].
  destruct (referenced d pid); [discriminate|].
  injection H as <-. unfold has_product. simpl.
  induction (products d) as [|q tl IH]; simpl; [reflexivity|].
  destruct (Products.productId q =? pid)%string eqn:E; simpl; [exact IH|].
  rewrite E. exact IH.
Qed.

Lemma products_delete_unreferenced (d : Db) (pid : string) (p : Products.t) :
  Prisma.products_findUnique d pid = Some p ->
  referenced d pid = false ->
  exists d', Prisma.products_delete d pid = inr d'.
Proof.
  intros Hf Hr. unfold Prisma.products_delete. rewrite Hf, Hr. eauto.
Qed.

(** C2, as the code has it. When the product exists, the removal of its
    image is attempted and rejects, and no sale or purchase refers to the
    product, the delete handler still deletes the row and answers 200
    "Product deleted successfully": the rejected call is in the log of
    remote calls and nowhere in the response.  When a sale or a purchase
    refers to the product, the delete query is refused and the answer is 500
    "Error deleting product", the database unchanged, whatever the media
    host did and whether or not a removal was attempted. *)
Theorem deleteProduct_destroy_failure_absorbed
        (rt : Runtime) (d : Db) (req : Request) (pid : string)
        (p : Products.t) :
  params_productId req = Some pid ->
  Prisma.products_findUnique d pid = Some p ->
  (forall (key : string) (reason : Rejection),
      destroy_target (Products.imageUrl p) = Some key ->
      host_destroy (host rt) key = Rejects reason ->
      referenced d pid = false ->
      exists d' : Db,
        Prisma.products_delete d pid = inr d'
        /\ has_product d' pid = false
        /\ run (deleteProduct req) rt d =
           (Normal (mkResponse 200 (Message "Product deleted successfully")),
            mkWorld d' [Destroy key] [products_findUnique; products_delete]))
  /\ (referenced d pid = true ->
      run (deleteProduct req) rt d =
      (Normal (mkResponse 500 (Message "Error deleting product")),
       mkWorld d
               match destroy_target (Products.imageUrl p) with
               | Some key => [Destroy key]
               | None => []
               end
               [products_findUnique; products_delete])).
Proof.
  intros Hp Hf. split.
  - intros key reason Hk Hh Hr.
    destruct (products_delete_unreferenced d pid p Hf Hr) as [d' Hd].
    exists d'. split; [exact Hd|].
    split; [exact (products_delete_removes _ _ _ Hd)|].
    unfold run, deleteProduct, try_catch, bind, findUnique_product,
      prisma_read, delete_product, prisma_write.
    rewrite Hp. simpl. rewrite Hf, destroy_stored_image_target, Hk.
    unfold cloudinary_destroy. simpl. rewrite Hh. simpl. rewrite Hd.
    reflexivity.
  - intros Hr.
    assert (Hd : Prisma.products_delete d pid = inl ForeignKeyConstraintFailed)
      by (unfold Prisma.products_delete; rewrite Hf, Hr; reflexivity).
    unfold run, deleteProduct, try_catch, bind, findUnique_product,
      prisma_read, delete_product, prisma_write.
    rewrite Hp. simpl. rewrite Hf, destroy_stored_image_target.
    destruct (destroy_target (Products.imageUrl p)) as [key|]; simpl.
    + unfold cloudinary_destroy. simpl.
      destruct (host_destroy (host rt) key); simpl; rewrite Hd; reflexivity.
    + rewrite Hd. reflexivity.
Qed.

Lemma deleteProduct_destroy_failure_absorbed_witness :
  (exists d' : Db,
      Prisma.products_delete Sample.unsold "p1" = inr d'
      /\ has_product d' "p1" = false
      /\ run (deleteProduct (Sample.delete_req "p1"))
             (Sample.runtime Sample.rejecting) Sample.unsold =
         (Normal (mkResponse 200 (Message "Product deleted successfully")),
          mkWorld d' [Destroy "products/abc123"]
                  [products_findUnique; products_delete]))
  /\ run (deleteProduct (Sample.delete_req "p1"))
         (Sample.runtime Sample.resolving) Sample.catalogue =
     (Normal (mkResponse 500 (Message "Error deleting product")),
      mkWorld Sample.catalogue [Destroy "products/abc123"]
              [products_findUnique; products_delete]).
Proof.
  split.
  - destruct (deleteProduct_destroy_failure_absorbed
                (Sample.runtime Sample.rejecting) Sample.unsold
                (Sample.delete_req "p1") "p1" Sample.boot)
      as [Hunreferenced _]; [reflexivity|reflexivity|].
    apply (Hunreferenced "products/abc123" NotAnError); reflexivity.
  - destruct (deleteProduct_destroy_failure_absorbed
                (Sample.runtime Sample.resolving) Sample.catalogue
                (Sample.delete_req "p1") "p1" Sample.boot)
      as [_ Hreferenced]; [reflexivity|reflexivity|].
    apply Hreferenced. reflexivity.
Defined.

(** C2, as stated, fails: the product [p1] of the sample catalogue exists,
    the removal of its image rejects, and a sale refers to it; the delete
    query is refused, the answer is 500 "Error deleting product" and the
    row is still there. *)
Lemma deleteProduct_sold_product_counterexample :
  let r := run (deleteProduct (Sample.delete_req "p1"))
               (Sample.runtime Sample.rejecting) Sample.catalogue in
  has_product Sample.catalogue "p1" = true
  /\ host_destroy Sample.rejecting "products/abc123" = Rejects NotAnError
  /\ calls_of r = [Destroy "products/abc123"]
  /\ response_of r = Some (mkResponse 500 (Message "Error deleting product"))
  /\ has_product (db_after r) "p1" = true.
Proof.
  repeat split.
Qed.

(** The media host has no say in the outcome of a delete request: with any
    two hosts the response and the resulting database are the same. *)
Lemma deleteProduct_host_independent
      (h1 h2 : MediaHost) (t : Z) (z : JsDate.TimeZone) (pf : string -> float)
      (pi : string -> option Z) (d : Db) (req : Request) :
  let r1 := run (deleteProduct req) (mkRuntime h1 t z pf pi) d in
  let r2 := run (deleteProduct req) (mkRuntime h2 t z pf pi) d in
  fst r1 = fst r2 /\ db_after r1 = db_after r2.
Proof.
  unfold run, db_after, deleteProduct, try_catch, bind, findUnique_product,
    prisma_read, prisma_invalid, delete_product, prisma_write.
  destruct (params_productId req) as [pid|]; simpl; [|auto].
  destruct (Prisma.products_findUnique d pid) as [p|]; simpl; [|auto].
  rewrite destroy_stored_image_target.
  destruct (destroy_target (Products.imageUrl p)) as [key|]; simpl.
  - unfold cloudinary_destroy. simpl.
    destruct (host_destroy h1 key), (host_destroy h2 key); simpl;
      destruct (Prisma.products_delete d pid); simpl; auto.
  - destruct (Prisma.products_delete d pid); simpl; auto.
Qed.

(** ** updateProduct: replacing the image *)

(** A stored URL yields no key when there is no URL, or when the part of
    its last path segment before the first dot is empty. *)
Lemma destroy_target_none (imageUrl : Js.value) :
  destroy_target imageUrl = None ->
  imageUrl = None
  \/ exists url segment : string,
      imageUrl = Some url
      /\ after_last "/" url segment
      /\ before_first "." segment "".
Proof.
  unfold destroy_target, publicId. intros H.
  destruct imageUrl as [url|]; [right|left; reflexivity].
  destruct (Js.pop (Js.split "/" url)) as [segment|] eqn:Ep.
  - destruct (Js.first (Js.split "." segment)) as [public_id|] eqn:Ef.
    + exists url, segment. split; [reflexivity|].
      split; [exact (split_pop _ _ _ Ep)|].
      destruct (Js.truthy (Some url)) eqn:Eu.
      * destruct (Js.truthy (Some public_id)) eqn:Et; [discriminate|].
        assert (public_id = "")
          by (destruct public_id; [reflexivity|discriminate]).
        subst public_id. exact (split_first _ _ _ Ef).
      * assert (url = "") by (destruct url; [reflexivity|discriminate]).
        subst url. simpl in Ep. injection Ep as <-.
        simpl in Ef. injection Ef as <-. exact (split_first "." "" "" eq_refl).
    + exfalso. unfold Js.first in Ef.
      destruct (Js.split "." segment) eqn:Es; [|discriminate].
      exact (split_nonempty _ _ Es).
  - exfalso. unfold Js.pop in Ep.
    pose proof (split_nonempty "/" url) as Hne.
    destruct (Js.split "/" url) as [|hd tl]; [contradiction|].
    revert Ep. clear. revert hd.
    induction tl as [|x tl IH]; intros hd; simpl; [discriminate|].
    apply IH.
Qed.

(** C3, as the code has it. When the product exists, a new file is
    supplied, and the stored image URL is non-empty and yields a non-empty
    key (the part of its last path segment before the first dot, prefixed
    with "products/"), the update handler first asks the host to destroy
    that key; if the call rejects, the answer is 500 "Error handling image
    update", nothing is uploaded, no update query is issued and the database
    is unchanged.  The delete handler, in the same state and with the same
    host, issues its delete query after the same rejected call.  When no
    URL is stored, or the key is empty, no removal is attempted and the
    update goes on to the upload: what the host would have answered to a
    removal does not matter, and the request fails only if the upload
    rejects or the update query is refused. *)
Theorem updateProduct_destroy_failure
        (rt : Runtime) (d : Db) (req : Request) (pid : string)
        (p : Products.t) (f : File) :
  params_productId req = Some pid ->
  Prisma.products_findUnique d pid = Some p ->
  file req = Some f ->
  (forall (key : string) (reason : Rejection),
      destroy_target (Products.imageUrl p) = Some key ->
      host_destroy (host rt) key = Rejects reason ->
      run (updateProduct req) rt d =
      (Normal (mkResponse 500 (Message "Error handling image update")),
       mkWorld d [Destroy key] [products_findUnique])
      /\ calls_of (run (deleteProduct req) rt d) = [Destroy key]
      /\ queries_of (run (deleteProduct req) rt d) =
         [products_findUnique; products_delete]
      /\ exists url segment public_id : string,
          Products.imageUrl p = Some url
          /\ after_last "/" url segment
          /\ before_first "." segment public_id
          /\ public_id <> ""
          /\ key = "products/" ++ public_id)
  /\ (destroy_target (Products.imageUrl p) = None ->
      (Products.imageUrl p = None
       \/ exists url segment : string,
           Products.imageUrl p = Some url
           /\ after_last "/" url segment
           /\ before_first "." segment "")
      /\ run (updateProduct req) rt d =
         match host_upload (host rt) (path f) with
         | Rejects _ =>
             (Normal (mkResponse 500 (Message "Error handling image update")),
              mkWorld d [Upload (path f)] [products_findUnique])
         | Resolves url =>
             match Prisma.products_update (now rt) d pid
                     (update_data rt req (Some url)) with
             | inr (d', updated) =>
                 (Normal (mkResponse 200 (ProductJson updated)),
                  mkWorld d' [Upload (path f)]
                          [products_findUnique; products_update])
             | inl _ =>
                 (Normal (mkResponse 500 (Message "Error updating product")),
                  mkWorld d [Upload (path f)]
                          [products_findUnique; products_update])
             end
         end).
Proof.
  intros Hp Hf Hfile. split.
  - intros key reason Hk Hh. split; [|split; [|split]].
    + unfold run, updateProduct, try_catch, bind, findUnique_product,
        prisma_read, attempt, try_catch, bind.
      rewrite Hp. simpl. rewrite Hf, Hfile, destroy_stored_image_target, Hk.
      unfold cloudinary_destroy. simpl. rewrite Hh. reflexivity.
    + unfold run, calls_of, deleteProduct, try_catch, bind,
        findUnique_product, prisma_read, delete_product, prisma_write.
      rewrite Hp. simpl. rewrite Hf, destroy_stored_image_target, Hk.
      unfold cloudinary_destroy. simpl. rewrite Hh. simpl.
      destruct (Prisma.products_delete d pid); reflexivity.
    + unfold run, queries_of, deleteProduct, try_catch, bind,
        findUnique_product, prisma_read, delete_product, prisma_write.
      rewrite Hp. simpl. rewrite Hf, destroy_stored_image_target, Hk.
      unfold cloudinary_destroy. simpl. rewrite Hh. simpl.
      destruct (Prisma.products_delete d pid); reflexivity.
    + exact (destroy_target_shape _ _ Hk).
  - intros Hk. split; [exact (destroy_target_none _ Hk)|].
    unfold run, updateProduct, try_catch, bind, findUnique_product,
      prisma_read, attempt, try_catch, bind.
    rewrite Hp. simpl. rewrite Hf, Hfile, destroy_stored_image_target, Hk.
    unfold cloudinary_upload, ret. simpl.
    destruct (host_upload (host rt) (path f)) as [url|reason]; simpl;
      [|reflexivity].
    unfold update_product, bind, ask, prisma_write. simpl.
    destruct (Prisma.products_update (now rt) d pid
                (update_data rt req (Some url))) as [e|[d' updated]];
      reflexivity.
Qed.

Lemma updateProduct_destroy_failure_witness :
  run (updateProduct (Sample.update_req "p1" (Some Sample.png)))
      (Sample.runtime Sample.destroy_rejecting) Sample.catalogue =
  (Normal (mkResponse 500 (Message "Error handling image update")),
   mkWorld Sample.catalogue [Destroy "products/abc123"] [products_findUnique])
  /\ option_map status
       (response_of
          (run (updateProduct (Sample.update_req "p2" (Some Sample.png)))
               (Sample.runtime Sample.destroy_rejecting) Sample.catalogue))
     = Some 200.
Proof.
  split.
  - destruct (updateProduct_destroy_failure
                (Sample.runtime Sample.destroy_rejecting) Sample.catalogue
                (Sample.update_req "p1" (Some Sample.png)) "p1" Sample.boot
                Sample.png)
      as [Hkey _]; [reflexivity|reflexivity|reflexivity|].
    apply (Hkey "products/abc123" NotAnError); reflexivity.
  - destruct (updateProduct_destroy_failure
                (Sample.runtime Sample.destroy_rejecting) Sample.catalogue
                (Sample.update_req "p2" (Some Sample.png)) "p2" Sample.cap
                Sample.png)
      as [_ Hnone]; [reflexivity|reflexivity|reflexivity|].
    destruct (Hnone eq_refl) as [_ Hrun]. rewrite Hrun. reflexivity.
Defined.

(** C3, as stated, fails: the product [p2] of the sample catalogue exists
    and has no stored image, a new file is supplied, and the host rejects
    every removal; no removal is attempted, the file is uploaded, the row is
    updated and the answer is 200. *)
Lemma updateProduct_no_stored_image_counterexample :
  let r := run (updateProduct (Sample.update_req "p2" (Some Sample.png)))
               (Sample.runtime Sample.destroy_rejecting) Sample.catalogue in
  Prisma.products_findUnique Sample.catalogue "p2" = Some Sample.cap
  /\ Products.imageUrl Sample.cap = None
  /\ file (Sample.update_req "p2" (Some Sample.png)) = Some Sample.png
  /\ host_destroy Sample.destroy_rejecting = (fun _ => Rejects NotAnError)
  /\ calls_of r = [Upload None]
  /\ queries_of r = [products_findUnique; products_update]
  /\ option_map status (response_of r) = Some 200
  /\ option_map Products.imageUrl
                (Prisma.products_findUnique (db_after r) "p2") =
     Some (Some Sample.new_url).
Proof.
  repeat split.
Qed.

(** The key is cut at the first dot of the last path segment, not at the
    last one. *)
Example publicId_first_dot :
  publicId "https://cdn.example.com/img/summer.sale.png" = Some "summer"
  /\ destroy_target (Some "https://cdn.example.com/img/summer.sale.png") =
     Some "products/summer"
  /\ destroy_target (Some "https://cdn.example.com/img/") = None
  /\ destroy_target (Some "") = None.
Proof.
  repeat split.
Qed.

(** ** updateProduct: a successful update *)

Lemma products_update_inr (t : Z) (d d' : Db) (pid : string)
      (a : Prisma.update_data) (pc : ProductWithCategories) :
  Prisma.products_update t d pid a = inr (d', pc) ->
  exists (old : Products.t) (qty : Z) (cid : string),
    Prisma.products_findUnique d pid = Some old
    /\ Prisma.u_stockQuantity a = Some qty
    /\ Prisma.u_connect a = Some cid
    /\ has_category d cid = true
    /\ d' = mkDb (Prisma.replace_product pid (Prisma.update_row t a qty) (products d))
                 (productCategory d)
                 (filter (fun l => negb (snd l =? pid)%string) (links d)
                    ++ [(cid, pid)])
                 (sales d) (purchases d)
    /\ pc = mkPC (Prisma.update_row t a qty old) (categories_of d' pid).
Proof.
  unfold Prisma.products_update. intros H.
  destruct (Prisma.products_findUnique d pid) as [old|]; [|discriminate].
  destruct (Prisma.u_stockQuantity a) as [qty|]; [|discriminate].
  destruct (Prisma.u_connect a) as [cid|]; [|discriminate].
  destruct (PrimFloat.is_nan (Prisma.u_price a)); [discriminate|].
  destruct (has_category d cid) eqn:Ec; [|discriminate].
  simpl in H. injection H as <- <-.
  exists old, qty, cid. repeat split; auto.
Qed.

Lemma updateProduct_success (rt : Runtime) (d : Db) (req : Request)
      (resp : Response) (w : World) :
  run (updateProduct req) rt d = (Normal resp, w) ->
  status resp = 200 ->
  exists (pid : string) (existing : Products.t) (imageUrl : Js.value)
         (pc : ProductWithCategories),
    params_productId req = Some pid
    /\ Prisma.products_findUnique d pid = Some existing
    /\ Prisma.products_update (now rt) d pid (update_data rt req imageUrl)
       = inr (db w, pc)
    /\ resp = mkResponse 200 (ProductJson pc)
    /\ (file req = None ->
        imageUrl = Products.imageUrl existing /\ media_log w = []).
Proof.
  unfold run, updateProduct, try_catch, bind, findUnique_product, prisma_read,
    prisma_invalid, attempt, try_catch, bind, update_product, prisma_write, ask.
  intros H Hs.
  destruct (params_productId req) as [pid|]; simpl in H;
    [|injection H as <- <-; discriminate].
  destruct (Prisma.products_findUnique d pid) as [existing|] eqn:Ef; simpl in H;
    [|injection H as <- <-; discriminate].
  destruct (file req) as [f|] eqn:Efile.
  - rewrite destroy_stored_image_target in H.
    unfold cloudinary_destroy, cloudinary_upload, ret, json_ok, json, ret in H.
    destruct (destroy_target (Products.imageUrl existing)) as [key|];
      simpl in H;
      [destruct (host_destroy (host rt) key); simpl in H|];
      try (injection H as <- <-; discriminate);
      (destruct (host_upload (host rt) (path f)) as [url|]; simpl in H;
       [|injection H as <- <-; discriminate]);
      unfold bind in H; simpl in H;
      (destruct (Prisma.products_update (now rt) d pid
                   (update_data rt req (Some url))) as [e|[d' pc]] eqn:Eu;
       simpl in H; injection H as <- <-; [discriminate|]);
      exists pid, existing, (Some url), pc; simpl;
      repeat split; auto; discriminate.
  - unfold ret, json_ok, json, ret in H. simpl in H.
    unfold bind in H; simpl in H.
    destruct (Prisma.products_update (now rt) d pid
                (update_data rt req (Products.imageUrl existing)))
      as [e|[d' pc]] eqn:Eu;
      simpl in H; injection H as <- <-; [discriminate|].
    exists pid, existing, (Products.imageUrl existing), pc; simpl.
    repeat split; auto.
Qed.

Lemma linked_after_reset (ls : list (string * string)) (c cid pid : string) :
  existsb (is_link c pid)
          (filter (fun l => negb (snd l =? pid)%string) ls ++ [(cid, pid)])
  = (cid =? c)%string.
Proof.
  rewrite existsb_app. simpl. unfold is_link at 2. simpl.
  rewrite String.eqb_refl, andb_true_r, orb_false_r.
  induction ls as [|l tl IH]; simpl; [reflexivity|].
  destruct (snd l =? pid)%string eqn:E; simpl; [exact IH|].
  unfold is_link at 1. rewrite E, andb_false_r. exact IH.
Qed.

Lemma filter_category_unique (l : list ProductCategory.t) (cid : string) :
  NoDup (map ProductCategory.categoryId l) ->
  existsb (fun c => (ProductCategory.categoryId c =? cid)%string) l = true ->
  exists c : ProductCategory.t,
    In c l /\ ProductCategory.categoryId c = cid
    /\ filter (fun x => (cid =? ProductCategory.categoryId x)%string) l = [c].
Proof.
  induction l as [|x tl IH]; simpl; intros Hnd Hex; [discriminate|].
  inversion Hnd as [|? ? Hnotin Hnd']; subst.
  destruct (ProductCategory.categoryId x =? cid)%string eqn:E.
  - apply String.eqb_eq in E. exists x. repeat split; auto.
    rewrite <- E, String.eqb_refl. f_equal.
    clear - Hnotin. induction tl as [|y tl IH]; simpl; [reflexivity|].
    destruct (ProductCategory.categoryId x =? ProductCategory.categoryId y)%string
      eqn:Ey.
    + apply String.eqb_eq in Ey. exfalso. apply Hnotin. left. auto.
    + apply IH. intros Hin. apply Hnotin. right. exact Hin.
  - simpl in Hex. destruct (IH Hnd' Hex) as [c [Hin [Hc Hf]]].
    exists c. repeat split; auto.
    rewrite String.eqb_sym, E. exact Hf.
Qed.

(** C5. After a successful update request the product is linked to exactly
    one category, the one whose id the request supplied, whatever it was
    linked to before: the response carries that one category, and the join
    table holds that one link for the product. *)
Theorem updateProduct_single_category
        (rt : Runtime) (d : Db) (req : Request) (resp : Response) (w : World) :
  db_wf d ->
  run (updateProduct req) rt d = (Normal resp, w) ->
  status resp = 200 ->
  exists (pid cid : string) (pc : ProductWithCategories) (c : ProductCategory.t),
    params_productId req = Some pid
    /\ Body.categoryId (body req) = Some cid
    /\ payload resp = ProductJson pc
    /\ categories pc = [c]
    /\ ProductCategory.categoryId c = cid
    /\ categories_of (db w) pid = [c]
    /\ forall c' : string, linked (db w) c' pid = true <-> c' = cid.
Proof.
  intros Hwf Hrun Hs.
  destruct (updateProduct_success rt d req resp w Hrun Hs)
    as [pid [existing [imageUrl [pc [Hp [Hf [Hu [Hr _]]]]]]]].
  destruct (products_update_inr _ _ _ _ _ _ Hu)
    as [old [qty [cid [_ [_ [Hc [Hcat [Hd Hpc]]]]]]]].
  assert (Hlinked : forall c', linked (db w) c' pid = (cid =? c')%string).
  { intros c'. rewrite Hd. unfold linked. simpl. apply linked_after_reset. }
  destruct (filter_category_unique (productCategory d) cid
              (wf_category_ids d Hwf) Hcat) as [c [Hin [Hcid Hfilter]]].
  assert (Hcats : categories_of (db w) pid = [c]).
  { unfold categories_of. rewrite (filter_ext _ _ (fun x => Hlinked _)).
    rewrite Hd. simpl. exact Hfilter. }
  exists pid, cid, pc, c. repeat split; auto.
  - rewrite Hr. reflexivity.
  - rewrite Hpc. simpl. exact Hcats.
  - rewrite Hlinked. intros H. apply String.eqb_eq in H. auto.
  - intros ->. rewrite Hlinked. apply String.eqb_refl.
Qed.

(** ** The integrity check decides integrity *)

Lemma existsb_eqb_In (x : string) (l : list string) :
  existsb (String.eqb x) l = true <-> In x l.
Proof.
  rewrite existsb_exists. split.
  - intros [y [Hin Heq]]. apply String.eqb_eq in Heq. now subst.
  - intros Hin. exists x. split; [exact Hin|apply String.eqb_refl].
Qed.

Lemma nodupb_sound (l : list string) : nodupb l = true -> NoDup l.
Proof.
  induction l as [|x tl IH]; simpl; intros H; constructor.
  - apply andb_prop in H. destruct H as [H _].
    intros Hin. apply existsb_eqb_In in Hin. rewrite Hin in H. discriminate.
  - apply IH. apply andb_prop in H. tauto.
Qed.

Lemma db_wfb_sound (d : Db) : db_wfb d = true -> db_wf d.
Proof.
  unfold db_wfb. intros H.
  repeat (apply andb_prop in H; destruct H as [H ?]).
  constructor.
  - now apply nodupb_sound.
  - now apply nodupb_sound.
  - apply Forall_forall. intros l Hl.
    match goal with
    | Hf : forallb _ (links d) = true |- _ =>
        rewrite forallb_forall in Hf; specialize (Hf l Hl);
        apply andb_prop in Hf; exact Hf
    end.
  - apply Forall_forall. intros s Hs.
    match goal with
    | Hf : forallb _ (sales d) = true |- _ =>
        rewrite forallb_forall in Hf; exact (Hf s Hs)
    end.
  - apply Forall_forall. intros s Hs.
    match goal with
    | Hf : forallb _ (purchases d) = true |- _ =>
        rewrite forallb_forall in Hf; exact (Hf s Hs)
    end.
Qed.

Lemma catalogue_wf : db_wf Sample.catalogue.
Proof. apply db_wfb_sound. reflexivity. Qed.

Lemma empty_db_wf : db_wf empty_db.
Proof. apply db_wfb_sound. reflexivity. Qed.

Lemma updateProduct_single_category_witness :
  let r := run (updateProduct (Sample.update_req "p1" None))
               (Sample.runtime Sample.resolving) Sample.catalogue in
  linked Sample.catalogue "c1" "p1" = true
  /\ linked Sample.catalogue "c2" "p1" = true
  /\ exists c : ProductCategory.t,
      categories_of (db_after r) "p1" = [c]
      /\ ProductCategory.categoryId c = "c2".
Proof.
  cbv zeta. split; [reflexivity|]. split; [reflexivity|].
  let v := eval vm_compute in
             (run (updateProduct (Sample.update_req "p1" None))
                  (Sample.runtime Sample.resolving) Sample.catalogue) in
  match v with
  | (Normal ?resp, ?w) =>
      destruct (updateProduct_single_category
                  (Sample.runtime Sample.resolving) Sample.catalogue
                  (Sample.update_req "p1" None) resp w)
        as [pid [cid [pc [c [Hp [Hc [_ [_ [Hcid [Hcats _]]]]]]]]]];
      [ apply db_wfb_sound; reflexivity
      | vm_compute; reflexivity
      | reflexivity
      | ]
  end.
  injection Hp as <-. injection Hc as <-.
  exists c. split; [exact Hcats|exact Hcid].
Defined.

(** ** createProduct: a successful creation *)

Lemma products_create_inr (t : Z) (d d' : Db) (a : Prisma.create_data)
      (pc : ProductWithCategories) :
  Prisma.products_create t d a = inr (d', pc) ->
  exists (pid nm : string) (qty : Z) (cid : string),
    Prisma.c_productId a = Some pid
    /\ Prisma.c_name a = Some nm
    /\ Prisma.c_stockQuantity a = Some qty
    /\ Prisma.c_connect a = Some cid
    /\ has_product d pid = false
    /\ has_category d cid = true
    /\ links d' = (links d ++ [(cid, pid)])%list
    /\ productCategory d' = productCategory d
    /\ product pc = Products.mk pid nm (Prisma.c_price a) qty
                                (Prisma.c_imageUrl a) t t
    /\ categories pc = categories_of d' pid.
Proof.
  unfold Prisma.products_create. intros H.
  destruct (Prisma.c_productId a) as [pid|]; [|discriminate].
  destruct (Prisma.c_name a) as [nm|]; [|discriminate].
  destruct (Prisma.c_stockQuantity a) as [qty|]; [|discriminate].
  destruct (Prisma.c_connect a) as [cid|]; [|discriminate].
  destruct (PrimFloat.is_nan (Prisma.c_price a)); [discriminate|].
  destruct (has_product d pid) eqn:Ep; [discriminate|].
  destruct (has_category d cid) eqn:Ec; [|discriminate].
  simpl in H. injection H as <- <-.
  exists pid, nm, qty, cid. repeat split; auto.
Qed.

(** In a database with integrity no link refers to a product that is not
    there. *)
Lemma unlinked_when_absent (d : Db) (c pid : string) :
  db_wf d -> has_product d pid = false -> linked d c pid = false.
Proof.
  intros Hwf Hp. unfold linked.
  pose proof (wf_links d Hwf) as Hl. rewrite Forall_forall in Hl.
  destruct (existsb (is_link c pid) (links d)) eqn:E; [|reflexivity].
  apply existsb_exists in E. destruct E as [l [Hin Hlink]].
  unfold is_link in Hlink. apply andb_prop in Hlink. destruct Hlink as [_ Hs].
  apply String.eqb_eq in Hs. destruct (Hl l Hin) as [_ Hhas].
  rewrite Hs in Hhas. congruence.
Qed.

(** C9. When a create request passes validation, the upload resolves with
    a secure URL and the create query succeeds, the answer is 201 with the
    created product: its image URL is that secure URL and its categories
    are exactly one, the category whose id the request supplied. *)
Theorem createProduct_created
        (rt : Runtime) (d d' : Db) (req : Request) (f : File) (url : string)
        (pc : ProductWithCategories) :
  db_wf d ->
  missingFields req = [] ->
  file req = Some f ->
  host_upload (host rt) (Some (dataURI f)) = Resolves url ->
  Prisma.products_create (now rt) d (create_data rt req (Some url)) = inr (d', pc) ->
  run (createProduct req) rt d =
  (Normal (mkResponse 201 (ProductJson pc)),
   mkWorld d' [Upload (Some (dataURI f))] [products_create])
  /\ Products.imageUrl (product pc) = Some url
  /\ exists (cid : string) (c : ProductCategory.t),
      Body.categoryId (body req) = Some cid
      /\ categories pc = [c]
      /\ ProductCategory.categoryId c = cid
      /\ forall c' : string,
          linked d' c' (Products.productId (product pc)) = true <-> c' = cid.
Proof.
  intros Hwf Hv Hf Hu Hc.
  destruct (products_create_inr _ _ _ _ _ Hc)
    as [pid [nm [qty [cid [Hpid [_ [_ [Hcid [Hnew [Hcat [Hl [Hcs [Hrow Hcats]]]]]]]]]]]]].
  assert (Hlinked : forall c', linked d' c' pid = (cid =? c')%string).
  { intros c'. unfold linked. rewrite Hl, existsb_app.
    pose proof (unlinked_when_absent d c' pid Hwf Hnew) as Hn.
    unfold linked in Hn. rewrite Hn. simpl. unfold is_link. simpl.
    now rewrite String.eqb_refl, andb_true_r, orb_false_r. }
  destruct (filter_category_unique (productCategory d) cid
              (wf_category_ids d Hwf) Hcat) as [c [_ [Hc_id Hfilter]]].
  split; [|split].
  - unfold run, createProduct, try_catch, attempt, try_catch, bind,
      cloudinary_upload, create_row, bind, ask, prisma_write.
    rewrite Hv, Hf. simpl. rewrite Hu. simpl. rewrite Hc. reflexivity.
  - rewrite Hrow. reflexivity.
  - exists cid, c. rewrite Hrow. simpl. repeat split; auto.
    + rewrite Hcats. unfold categories_of.
      rewrite (filter_ext _ _ (fun x => Hlinked _)), Hcs. exact Hfilter.
    + rewrite Hlinked. intros H. apply String.eqb_eq in H. auto.
    + intros ->. rewrite Hlinked. apply String.eqb_refl.
Qed.

Lemma createProduct_created_witness :
  let r := run (createProduct Sample.create_req)
               (Sample.runtime Sample.resolving) Sample.catalogue in
  exists pc : ProductWithCategories,
    response_of r = Some (mkResponse 201 (ProductJson pc))
    /\ Products.imageUrl (product pc) = Some Sample.new_url
    /\ categories pc = [Sample.hats].
Proof.
  cbv zeta.
  let v := eval vm_compute in
             (Prisma.products_create Sample.t_apr30 Sample.catalogue
                (create_data (Sample.runtime Sample.resolving)
                             Sample.create_req (Some Sample.new_url))) in
  match v with
  | inr (?d', ?pc) =>
      destruct (createProduct_created
                  (Sample.runtime Sample.resolving) Sample.catalogue d'
                  Sample.create_req Sample.png Sample.new_url pc)
        as [Hrun [Himg _]];
      [ apply db_wfb_sound; reflexivity
      | reflexivity
      | reflexivity
      | reflexivity
      | vm_compute; reflexivity
      | exists pc ]
  end.
  split; [rewrite Hrun; reflexivity|].
  split; [exact Himg|reflexivity].
Defined.

(** ** The window of the new-arrivals report

    Setting the month two back moves a local date by the length of the two
    months before its own: between 59 and 62 days, whatever the date. *)

Section Window.

Import JsDate.

Ltac div_lia := Z.to_euclidean_division_equations; lia.

(** Within a cycle: the year of the cycle, the month and the day read from a
    day number are in range and number that day. *)
Lemma civil_of_cycle_spec (doe : Z) :
  0 <= doe < 146097 ->
  exists yoe : Z,
    0 <= yoe <= 399
    /\ fst (fst (civil_of_cycle doe))
       = (if snd (fst (civil_of_cycle doe)) <=? 2 then yoe + 1 else yoe)
    /\ 1 <= snd (fst (civil_of_cycle doe)) <= 12
    /\ 1 <= snd (civil_of_cycle doe) <= 31
    /\ days_of_cycle yoe (snd (fst (civil_of_cycle doe)))
                     (snd (civil_of_cycle doe)) = doe.
Proof.
  intros Hdoe. unfold civil_of_cycle, days_of_cycle. cbv zeta. cbn [fst snd].
  set (yoe := (doe - doe / 1460 + doe / 36524 - doe / 146096) / 365).
  set (doy := doe - (365 * yoe + yoe / 4 - yoe / 100)).
  set (mp := (5 * doy + 2) / 153).
  assert (Hyoe : 0 <= yoe <= 399) by (subst yoe; div_lia).
  assert (Hdoy : 0 <= doy <= 365) by (subst doy yoe; div_lia).
  assert (Hmp : 0 <= mp <= 11) by (subst mp; div_lia).
  exists yoe. split; [exact Hyoe|]. split; [reflexivity|].
  destruct (Z.ltb_spec mp 10) as [Hlt|Hge].
  - split; [lia|]. split; [subst mp; div_lia|].
    destruct (Z.gtb_spec (mp + 3) 2); [|lia].
    replace (mp + 3 - 3) with mp by ring. subst doy. ring.
  - split; [lia|]. split; [subst mp; div_lia|].
    destruct (Z.gtb_spec (mp - 9) 2); [lia|].
    replace (mp - 9 + 9) with mp by ring. subst doy. ring.
Qed.

(** The two readings of the calendar agree: the civil date of a day number
    is a date, and has that day number. *)
Lemma civil_from_days_roundtrip (D : Z) :
  days_from_civil (fst (fst (civil_from_days D)))
                  (snd (fst (civil_from_days D)))
                  (snd (civil_from_days D)) = D
  /\ 1 <= snd (fst (civil_from_days D)) <= 12
  /\ 1 <= snd (civil_from_days D) <= 31.
Proof.
  unfold civil_from_days. cbv zeta. cbn [fst snd].
  set (z' := D + 719468).
  destruct (civil_of_cycle_spec (z' mod 146097))
    as [yoe [Hy [Hyear [Hm [Hd Hback]]]]];
    [apply Z.mod_pos_bound; lia|].
  split; [|split; assumption].
  unfold days_from_civil. cbv zeta. rewrite Hyear.
  set (m := snd (fst (civil_of_cycle (z' mod 146097)))) in *.
  replace (if m <=? 2
           then (if m <=? 2 then yoe + 1 else yoe) + 400 * (z' / 146097) - 1
           else (if m <=? 2 then yoe + 1 else yoe) + 400 * (z' / 146097))
    with (yoe + (z' / 146097) * 400)
    by (destruct (m <=? 2); ring).
  rewrite Z.div_add, Z.mod_add by lia.
  rewrite (Z.div_small yoe 400), (Z.mod_small yoe 400) by lia.
  rewrite Hback. pose proof (Z.div_mod z' 146097). subst z'. lia.
Qed.

(** A day of a month is 59 to 62 days after the day of the same number
    counted from the first of the month two before. *)
Lemma two_months_of_days (y m d : Z) :
  1 <= m <= 12 ->
  59 <= days_from_civil y m d - MakeDay y (m - 1 - 2) d <= 62.
Proof.
  intros Hm. unfold MakeDay. cbv zeta.
  assert (Hcases : m = 1 \/ m = 2 \/ m = 3 \/ m = 4 \/ m = 5 \/ m = 6 \/ m = 7
                   \/ m = 8 \/ m = 9 \/ m = 10 \/ m = 11 \/ m = 12) by lia.
  repeat (destruct Hcases as [->|Hcases]); try subst m;
    unfold days_from_civil, days_of_cycle; cbv zeta;
    repeat match goal with
           | |- context [if ?b then _ else _] => destruct b eqn:?
           end;
    div_lia.
Qed.

(** In local time the cutoff is 59 to 62 days before now. *)
Lemma twoMonthsAgo_local_gap (rt : Runtime) :
  exists local_cutoff : Z,
    twoMonthsAgo rt = local_cutoff - LocalTZA (tza rt) local_cutoff false
    /\ 59 * msPerDay
       <= now rt + LocalTZA (tza rt) (now rt) true - local_cutoff
       <= 62 * msPerDay.
Proof.
  unfold twoMonthsAgo, setMonth, getMonth, MonthFromTime, YearFromTime,
    DateFromTime, LocalTime, UTC, MakeDate, TimeWithinDay, Day.
  set (lt := now rt + LocalTZA (tza rt) (now rt) true).
  destruct (civil_from_days_roundtrip (lt / msPerDay)) as [Hback [Hm _]].
  pose proof (two_months_of_days
                (fst (fst (civil_from_days (lt / msPerDay))))
                (snd (fst (civil_from_days (lt / msPerDay))))
                (snd (civil_from_days (lt / msPerDay))) Hm) as Hgap.
  rewrite Hback in Hgap.
  pose proof (Z.div_mod lt msPerDay) as Hdm.
  assert (Hms : msPerDay = 86400000) by reflexivity.
  set (target := MakeDay _ _ _) in *.
  exists (target * msPerDay + lt mod msPerDay).
  split; [reflexivity|].
  rewrite Hms in *. lia.
Qed.


(** X25. The window of the new-arrivals report opens 59 to 62 days before
    the time of the request, give or take the spread of the offsets of the
    time zone: exactly 59 to 62 days back where the offset never changes, and
    up to an hour less or more where daylight saving moves it by an hour. *)
Theorem twoMonthsAgo_window (rt : Runtime) (lo hi : Z) :
  (forall (t : Z) (isUTC : bool), lo <= LocalTZA (tza rt) t isUTC <= hi) ->
  59 * msPerDay - (hi - lo)
  <= now rt - twoMonthsAgo rt
  <= 62 * msPerDay + (hi - lo).
Proof.
  intros Hrange.
  destruct (twoMonthsAgo_local_gap rt) as [lc [-> Hgap]].
  pose proof (Hrange (now rt) true) as Hnow.
  pose proof (Hrange lc false) as Hcut.
  lia.
Qed.

End Window.

Lemma twoMonthsAgo_window_witness :
  let rt := mkRuntime Sample.resolving Sample.t_apr30 Scenario.new_york
                      Sample.sample_parseFloat Sample.sample_parseInt in
  59 * JsDate.msPerDay - 3600000
  <= now rt - twoMonthsAgo rt
  <= 62 * JsDate.msPerDay + 3600000.
Proof.
  cbv zeta.
  apply (twoMonthsAgo_window
           (mkRuntime Sample.resolving Sample.t_apr30 Scenario.new_york
                      Sample.sample_parseFloat Sample.sample_parseInt)
           (-18000000) (-14400000)).
  intros t isUTC. simpl. unfold Scenario.new_york_offset.
  destruct (t <? _); lia.
Defined.

(** In New York on the 30th of April 2025 at noon UTC the window opened on
    the 2nd of March at 13:00 UTC, an hour short of 59 days before: the
    2nd of March was read with the winter offset. *)
Example twoMonthsAgo_across_daylight_saving :
  let rt := mkRuntime Sample.resolving Sample.t_apr30 Scenario.new_york
                      Sample.sample_parseFloat Sample.sample_parseInt in
  now rt - twoMonthsAgo rt = 59 * JsDate.msPerDay - 3600000.
Proof. reflexivity. Qed.

(** On the 30th of April the window opens on the 2nd of March (there is no
    30th of February): a product of the 1st of March is not reported. *)
Example twoMonthsAgo_end_of_april :
  JsDate.civil_from_days (JsDate.Day (now (Sample.runtime Sample.resolving)))
  = (2025, 4, 30)
  /\ JsDate.civil_from_days
       (JsDate.Day (twoMonthsAgo (Sample.runtime Sample.resolving)))
     = (2025, 3, 2)
  /\ response_of (run (getNewArrivals (Sample.delete_req "p1"))
                      (Sample.runtime Sample.resolving) Sample.catalogue)
     = Some (mkResponse 200
               (CategoriesJson [mkCP Sample.shoes [Sample.sandal]])).
Proof.
  repeat split.
Qed.

(** ** getNewArrivals *)

Lemma insert_desc_perm (p : Products.t) (l : list Products.t) :
  Permutation (Prisma.insert_desc p l) (p :: l).
Proof.
  induction l as [|q tl IH]; simpl; [reflexivity|].
  destruct (Products.createdAt q <=? Products.createdAt p); [reflexivity|].
  rewrite IH. apply perm_swap.
Qed.

Lemma orderBy_perm (l : list Products.t) :
  Permutation (Prisma.orderBy_createdAt_desc l) l.
Proof.
  unfold Prisma.orderBy_createdAt_desc.
  induction l as [|p tl IH]; simpl; [reflexivity|].
  rewrite insert_desc_perm. now constructor.
Qed.



Lemma createdAt_gte_iff (since : Z) (p : Products.t) :
  Prisma.createdAt_gte since p = true <-> since <= Products.createdAt p.
Proof. unfold Prisma.createdAt_gte. apply Z.leb_le. Qed.

Lemma getNewArrivals_run (rt : Runtime) (d : Db) (req : Request) :
  run (getNewArrivals req) rt d =
  (Normal (mkResponse 200
             (CategoriesJson
                (filter has_products
                        (Prisma.productCategory_findMany_since d (twoMonthsAgo rt))))),
   mkWorld d [] [productCategory_findMany]).
Proof. reflexivity. Qed.

(** Every category the query returns comes with a product. *)
Lemma findMany_since_has_products (d : Db) (since : Z) :
  forallb has_products (Prisma.productCategory_findMany_since d since) = true.
Proof.
  unfold Prisma.productCategory_findMany_since.
  apply forallb_forall. intros cp Hin.
  apply in_map_iff in Hin. destruct Hin as [c [<- Hc]].
  apply filter_In in Hc. destruct Hc as [_ Hsome].
  apply existsb_exists in Hsome. destruct Hsome as [p [Hp Hnew]].
  unfold has_products. simpl. apply Nat.ltb_lt.
  rewrite (Permutation_length (orderBy_perm _)).
  assert (Hin : In p (filter (Prisma.createdAt_gte since)
                             (products_of d (ProductCategory.categoryId c))))
    by (apply filter_In; auto).
  destruct (filter (Prisma.createdAt_gte since)
                   (products_of d (ProductCategory.categoryId c)));
    [destruct Hin|simpl; lia].
Qed.

Lemma filter_all {A : Type} (f : A -> bool) (l : list A) :
  forallb f l = true -> filter f l = l.
Proof.
  induction l as [|x tl IH]; simpl; intros H; [reflexivity|].
  apply andb_prop in H. destruct H as [Hx Htl].
  rewrite Hx, (IH Htl). reflexivity.
Qed.

Lemma post_query_filter_redundant (d : Db) (since : Z) :
  filter has_products (Prisma.productCategory_findMany_since d since) =
  Prisma.productCategory_findMany_since d since.
Proof. apply filter_all, findMany_since_has_products. Qed.


(** C8. The post-query filter of the new-arrivals report changes nothing:
    on every database, at every time, the handler and the handler without
    the filter give the same response and leave the same state, because
    every category the query returns comes with at least one product. *)
Theorem getNewArrivals_filter_redundant
        (rt : Runtime) (d : Db) (req : Request) :
  run (getNewArrivals req) rt d = run (getNewArrivals_unfiltered req) rt d
  /\ Forall (fun cp => category_products cp <> [])
            (Prisma.productCategory_findMany_since d (twoMonthsAgo rt)).
Proof.
  split.
  - rewrite getNewArrivals_run, post_query_filter_redundant. reflexivity.
  - apply Forall_forall. intros cp Hin.
    pose proof (findMany_since_has_products d (twoMonthsAgo rt)) as Hall.
    rewrite forallb_forall in Hall. specialize (Hall cp Hin).
    unfold has_products in Hall. intros Hnil. rewrite Hnil in Hall.
    discriminate.
Qed.

(** ** The update route *)

Lemma route_updateProduct (r : HttpRequest) (req : Request) :
  route r = Dispatch h_updateProduct req ->
  http_method r = PUT
  /\ exists a pid : string,
      strip_slash (http_path r) = [a; pid]
      /\ segment_is "products" a = true
      /\ pid <> ""
      /\ req = to_request r (Some pid) None None.
Proof.
  unfold route. intros H.
  destruct (http_method r);
    destruct (strip_slash (http_path r)) as [|a [|b [|c [|x tl]]]];
    try discriminate;
    repeat match type of H with
           | (if ?b then _ else _) = _ => destruct b eqn:?
           | match ?x with _ => _ end = _ => destruct x
           end;
    try discriminate.
  injection H as <-. split; [reflexivity|]. exists a, b.
  match goal with
  | E : (_ && _)%bool = true |- _ =>
      apply andb_prop in E; destruct E as [E E'];
      split; [reflexivity|]; split; [exact E|]; split; [|reflexivity];
      unfold param in E'; intros ->; discriminate
  end.
Qed.

Lemma put_route_dispatch (r : HttpRequest) (pid : string) :
  http_method r = PUT ->
  http_path r = ["products"; pid] ->
  pid <> "" ->
  route r = Dispatch h_updateProduct (to_request r (Some pid) None None).
Proof.
  intros Hm Hp Hne. unfold route. rewrite Hm, Hp.
  assert (Hs : strip_slash ["products"; pid] = ["products"; pid]).
  { unfold strip_slash. simpl.
    destruct (pid =? "")%string eqn:E; [|reflexivity].
    apply String.eqb_eq in E. contradiction. }
  rewrite Hs. simpl.
  unfold param. destruct (pid =? "")%string eqn:E; [|reflexivity].
  apply String.eqb_eq in E. contradiction.
Qed.

Lemma updateProduct_no_file_no_calls (rt : Runtime) (d : Db) (req : Request) :
  file req = None -> calls_of (run (updateProduct req) rt d) = [].
Proof.
  intros Hfile.
  unfold calls_of, run, updateProduct, try_catch, bind, findUnique_product,
    prisma_read, prisma_invalid, update_product, prisma_write, ask.
  destruct (params_productId req) as [pid|]; simpl; [|reflexivity].
  destruct (Prisma.products_findUnique d pid) as [existing|]; simpl;
    [|reflexivity].
  rewrite Hfile. unfold ret, bind. simpl.
  destruct (Prisma.products_update (now rt) d pid
              (update_data rt req (Products.imageUrl existing)))
    as [e|[d' pc]]; reflexivity.
Qed.

Lemma find_replace_product (pid : string) (f : Products.t -> Products.t)
      (l : list Products.t) :
  (forall p, Products.productId (f p) = Products.productId p) ->
  find (fun p => (Products.productId p =? pid)%string)
       (Prisma.replace_product pid f l)
  = option_map f (find (fun p => (Products.productId p =? pid)%string) l).
Proof.
  intros Hid. unfold Prisma.replace_product.
  induction l as [|p tl IH]; simpl; [reflexivity|].
  destruct (Products.productId p =? pid)%string eqn:E.
  - rewrite Hid, E. reflexivity.
  - rewrite E. exact IH.
Qed.

Lemma products_update_stored (t : Z) (d d' : Db) (pid : string)
      (a : Prisma.update_data) (pc : ProductWithCategories) :
  Prisma.products_update t d pid a = inr (d', pc) ->
  Prisma.products_findUnique d' pid = Some (product pc)
  /\ Products.imageUrl (product pc) = Prisma.u_imageUrl a.
Proof.
  intros H.
  destruct (products_update_inr _ _ _ _ _ _ H)
    as [old [qty [cid [Hf [_ [_ [_ [Hd Hpc]]]]]]]].
  split; [|rewrite Hpc; reflexivity].
  rewrite Hpc, Hd. unfold Prisma.products_findUnique in *. simpl.
  rewrite find_replace_product by reflexivity.
  rewrite Hf. reflexivity.
Qed.

(** C10. The update handler is reached through the PUT route only, and
    that route mounts no upload middleware: the request object it passes has
    no file.  So an update that arrives over HTTP makes no call to the media
    host, and when it succeeds the stored image URL of the product is the one
    it had before.  The product is the one the path names after [products],
    a segment matched without regard to case. *)
Theorem put_route_keeps_image (r : HttpRequest) (req : Request) :
  route r = Dispatch h_updateProduct req ->
  http_method r = PUT
  /\ file req = None
  /\ forall (rt : Runtime) (d : Db),
      calls_of (run (router r) rt d) = []
      /\ forall resp : Response,
          response_of (run (router r) rt d) = Some resp ->
          status resp = 200 ->
          exists (a pid : string) (before after : Products.t),
            strip_slash (http_path r) = [a; pid]
            /\ segment_is "products" a = true
            /\ params_productId req = Some pid
            /\ Prisma.products_findUnique d pid = Some before
            /\ Prisma.products_findUnique (db_after (run (router r) rt d)) pid
               = Some after
            /\ Products.imageUrl after = Products.imageUrl before.
Proof.
  intros Hroute.
  destruct (route_updateProduct r req Hroute)
    as [Hm [a [pid [Hpath [Ha [_ Hreq]]]]]].
  assert (Hfile : file req = None) by (rewrite Hreq; reflexivity).
  split; [exact Hm|]. split; [exact Hfile|].
  intros rt d. unfold router. rewrite Hroute. simpl.
  split; [now apply updateProduct_no_file_no_calls|].
  intros resp Hresp Hs.
  destruct (run (updateProduct req) rt d) as [c w] eqn:Hrun.
  unfold response_of in Hresp. simpl in Hresp.
  destruct c as [resp'|]; [|discriminate]. injection Hresp as ->.
  destruct (updateProduct_success rt d req resp w Hrun Hs)
    as [pid' [existing [imageUrl [pc [Hp [Hf [Hu [_ Hkeep]]]]]]]].
  assert (pid' = pid) by (rewrite Hreq in Hp; simpl in Hp; congruence).
  subst pid'.
  destruct (Hkeep Hfile) as [Himg _].
  destruct (products_update_stored _ _ _ _ _ _ Hu) as [Hfound Hstored].
  exists a, pid, existing, (product pc). unfold db_after. simpl.
  repeat split; auto.
  rewrite Hstored, <- Himg. reflexivity.
Qed.

Lemma put_route_keeps_image_witness :
  let r := run (router Sample.put_http)
               (Sample.runtime Sample.resolving) Sample.catalogue in
  http_image Sample.put_http = Some Sample.png
  /\ calls_of r = []
  /\ option_map status (response_of r) = Some 200
  /\ option_map Products.imageUrl
                (Prisma.products_findUnique (db_after r) "p1")
     = Some (Some Sample.boot_url).
Proof.
  cbv zeta.
  destruct (put_route_keeps_image
              Sample.put_http
              (to_request Sample.put_http (Some "p1") None None))
    as [_ [_ H]]; [reflexivity|].
  destruct (H (Sample.runtime Sample.resolving) Sample.catalogue) as [Hcalls _].
  split; [reflexivity|]. split; [exact Hcalls|]. split; reflexivity.
Defined.

(** ** Every request preserves the integrity of the database *)

Lemma has_product_In (d : Db) (pid : string) :
  has_product d pid = true <-> In pid (map Products.productId (products d)).
Proof.
  unfold has_product. rewrite existsb_exists, in_map_iff.
  split; intros [p [H1 H2]]; exists p.
  - apply String.eqb_eq in H2. auto.
  - split; [exact H2|now apply String.eqb_eq].
Qed.

Lemma has_category_In (d : Db) (cid : string) :
  has_category d cid = true <->
  In cid (map ProductCategory.categoryId (productCategory d)).
Proof.
  unfold has_category. rewrite existsb_exists, in_map_iff.
  split; intros [c [H1 H2]]; exists c.
  - apply String.eqb_eq in H2. auto.
  - split; [exact H2|now apply String.eqb_eq].
Qed.

Lemma replace_product_ids (pid : string) (f : Products.t -> Products.t)
      (l : list Products.t) :
  (forall p, Products.productId (f p) = Products.productId p) ->
  map Products.productId (Prisma.replace_product pid f l)
  = map Products.productId l.
Proof.
  intros Hid. unfold Prisma.replace_product. rewrite map_map.
  apply map_ext. intros p.
  destruct (Products.productId p =? pid)%string; [apply Hid|reflexivity].
Qed.

Lemma NoDup_snoc (x : string) (l : list string) :
  NoDup l -> ~ In x l -> NoDup (l ++ [x]).
Proof.
  intros Hnd Hx. apply NoDup_app; auto.
  - repeat constructor. intros [].
  - intros y Hy [<-|[]]. contradiction.
Qed.

Lemma NoDup_map_filter {A : Type} (key : A -> string) (f : A -> bool)
      (l : list A) :
  NoDup (map key l) -> NoDup (map key (filter f l)).
Proof.
  induction l as [|x tl IH]; simpl; intros H; [constructor|].
  inversion H as [|? ? Hx Htl]; subst.
  destruct (f x); simpl; [|now apply IH].
  constructor; [|now apply IH].
  intros Hin. apply Hx. apply in_map_iff in Hin.
  destruct Hin as [y [Hy Hin]]. apply filter_In in Hin.
  apply in_map_iff. exists y. tauto.
Qed.

(** A database with the same product and category keys, or more, keeps the
    foreign keys of the rows it keeps. *)
Lemma wf_transfer (d d' : Db) :
  db_wf d ->
  NoDup (map Products.productId (products d')) ->
  NoDup (map ProductCategory.categoryId (productCategory d')) ->
  Forall (fun l => has_category d' (fst l) = true /\ has_product d' (snd l) = true)
         (links d') ->
  incl (sales d') (sales d) ->
  incl (purchases d') (purchases d) ->
  (forall pid, has_product d pid = true -> referenced d' pid = true ->
               has_product d' pid = true) ->
  db_wf d'.
Proof.
  intros Hwf Hp Hc Hl Hs Hpu Hkeep. constructor; auto.
  - apply Forall_forall. intros s Hin.
    apply Hkeep.
    + pose proof (wf_sales d Hwf) as H. rewrite Forall_forall in H.
      apply H, Hs, Hin.
    + unfold referenced. apply orb_true_iff. left.
      apply existsb_exists. exists s. split; [exact Hin|apply String.eqb_refl].
  - apply Forall_forall. intros s Hin.
    apply Hkeep.
    + pose proof (wf_purchases d Hwf) as H. rewrite Forall_forall in H.
      apply H, Hpu, Hin.
    + unfold referenced. apply orb_true_iff. right.
      apply existsb_exists. exists s. split; [exact Hin|apply String.eqb_refl].
Qed.

Lemma products_create_wf (t : Z) (d d' : Db) (a : Prisma.create_data)
      (pc : ProductWithCategories) :
  db_wf d -> Prisma.products_create t d a = inr (d', pc) -> db_wf d'.
Proof.
  intros Hwf H. unfold Prisma.products_create in H.
  destruct (Prisma.c_productId a) as [pid|]; [|discriminate].
  destruct (Prisma.c_name a) as [nm|]; [|discriminate].
  destruct (Prisma.c_stockQuantity a) as [qty|]; [|discriminate].
  destruct (Prisma.c_connect a) as [cid|]; [|discriminate].
  destruct (PrimFloat.is_nan (Prisma.c_price a)); [discriminate|].
  destruct (has_product d pid) eqn:Ep; [discriminate|].
  destruct (has_category d cid) eqn:Ec; [|discriminate].
  simpl in H. injection H as <- _.
  assert (Hmore : forall x, has_product d x = true ->
            has_product
              (mkDb (products d ++ [Products.mk pid nm (Prisma.c_price a) qty
                                                (Prisma.c_imageUrl a) t t])
                    (productCategory d) (links d ++ [(cid, pid)])
                    (sales d) (purchases d)) x = true).
  { intros x Hx. unfold has_product in *. simpl. rewrite existsb_app, Hx.
    reflexivity. }
  apply (wf_transfer d); simpl; auto using incl_refl.
  - rewrite map_app. simpl. apply NoDup_snoc; [apply (wf_product_ids d Hwf)|].
    intros Hin. apply has_product_In in Hin. congruence.
  - apply (wf_category_ids d Hwf).
  - apply Forall_app. split.
    + eapply Forall_impl; [|apply (wf_links d Hwf)].
      intros l [H1 H2]. split; [exact H1|now apply Hmore].
    + constructor; [|constructor]. simpl. split; [exact Ec|].
      unfold has_product. simpl. rewrite existsb_app. simpl.
      rewrite String.eqb_refl. apply orb_true_iff. right. reflexivity.
Qed.

Lemma has_product_replace (d : Db) (pid : string)
      (f : Products.t -> Products.t) (cs : list ProductCategory.t)
      (ls : list (string * string)) (ss : list Sales.t)
      (ps : list Purchases.t) (x : string) :
  (forall p, Products.productId (f p) = Products.productId p) ->
  has_product (mkDb (Prisma.replace_product pid f (products d)) cs ls ss ps) x
  = has_product d x.
Proof.
  intros Hid. unfold has_product, Prisma.replace_product. simpl.
  induction (products d) as [|p tl IH]; simpl; [reflexivity|].
  rewrite IH. f_equal.
  destruct (Products.productId p =? pid)%string; [rewrite Hid|]; reflexivity.
Qed.

Lemma products_update_wf (t : Z) (d d' : Db) (pid : string)
      (a : Prisma.update_data) (pc : ProductWithCategories) :
  db_wf d -> Prisma.products_update t d pid a = inr (d', pc) -> db_wf d'.
Proof.
  intros Hwf H.
  destruct (products_update_inr _ _ _ _ _ _ H)
    as [old [qty [cid [Hf [_ [_ [Hc [-> _]]]]]]]].
  assert (Hid : forall p, Products.productId (Prisma.update_row t a qty p)
                          = Products.productId p) by reflexivity.
  apply (wf_transfer d); simpl; auto using incl_refl.
  - rewrite replace_product_ids by exact Hid. apply (wf_product_ids d Hwf).
  - apply (wf_category_ids d Hwf).
  - apply Forall_app. split.
    + apply Forall_forall. intros l Hin. apply filter_In in Hin.
      destruct Hin as [Hin _].
      pose proof (wf_links d Hwf) as Hl. rewrite Forall_forall in Hl.
      destruct (Hl l Hin) as [H1 H2]. split; [exact H1|].
      rewrite has_product_replace by exact Hid. exact H2.
    + constructor; [|constructor]. simpl. split; [exact Hc|].
      rewrite has_product_replace by exact Hid.
      now apply findUnique_Some in Hf.
  - intros x Hx _. rewrite has_product_replace by exact Hid. exact Hx.
Qed.

Lemma products_connect_wf (t : Z) (d d' : Db) (pid cid : Js.value)
      (pc : ProductWithCategories) :
  db_wf d -> Prisma.products_connect t d pid cid = inr (d', pc) -> db_wf d'.
Proof.
  intros Hwf H. unfold Prisma.products_connect in H.
  destruct pid as [pid|]; [|discriminate].
  destruct cid as [cid|]; [|discriminate].
  destruct (Prisma.products_findUnique d pid) as [old|] eqn:Hf; [|discriminate].
  destruct (has_category d cid) eqn:Hc; [|discriminate].
  simpl in H. injection H as <- _.
  set (touch := fun p : Products.t =>
         Products.mk (Products.productId p) (Products.name p)
                     (Products.price p) (Products.stockQuantity p)
                     (Products.imageUrl p) (Products.createdAt p) t).
  assert (Hid : forall p, Products.productId (touch p) = Products.productId p)
    by reflexivity.
  apply (wf_transfer d); simpl; auto using incl_refl.
  - rewrite replace_product_ids by exact Hid. apply (wf_product_ids d Hwf).
  - apply (wf_category_ids d Hwf).
  - assert (Hold : Forall
        (fun l => has_category d (fst l) = true /\
                  has_product
                    (mkDb (Prisma.replace_product pid touch (products d))
                          (productCategory d)
                          (if linked d cid pid then links d
                           else links d ++ [(cid, pid)])
                          (sales d) (purchases d)) (snd l) = true)
        (links d)).
    { eapply Forall_impl; [|apply (wf_links d Hwf)].
      intros l [H1 H2]. split; [exact H1|].
      rewrite has_product_replace by exact Hid. exact H2. }
    destruct (linked d cid pid); [exact Hold|].
    apply Forall_app. split; [exact Hold|].
    constructor; [|constructor]. simpl. split; [exact Hc|].
    rewrite has_product_replace by exact Hid.
    now apply findUnique_Some in Hf.
  - intros x Hx _. rewrite has_product_replace by exact Hid. exact Hx.
Qed.

Lemma has_product_remove (d : Db) (pid x : string)
      (cs : list ProductCategory.t) (ls : list (string * string))
      (ss : list Sales.t) (ps : list Purchases.t) :
  x <> pid ->
  has_product
    (mkDb (filter (fun p => negb (Products.productId p =? pid)%string) (products d))
          cs ls ss ps) x
  = has_product d x.
Proof.
  intros Hx. unfold has_product. simpl.
  induction (products d) as [|p tl IH]; simpl; [reflexivity|].
  destruct (Products.productId p =? pid)%string eqn:E; simpl.
  - apply String.eqb_eq in E.
    assert (Hpx : (Products.productId p =? x)%string = false)
      by (apply String.eqb_neq; congruence).
    rewrite Hpx. exact IH.
  - rewrite IH. reflexivity.
Qed.

Lemma has_category_remove (d : Db) (cid x : string)
      (ps : list Products.t) (ls : list (string * string))
      (ss : list Sales.t) (pus : list Purchases.t) :
  x <> cid ->
  has_category
    (mkDb ps
          (filter (fun c => negb (ProductCategory.categoryId c =? cid)%string)
                  (productCategory d))
          ls ss pus) x
  = has_category d x.
Proof.
  intros Hx. unfold has_category. simpl.
  induction (productCategory d) as [|c tl IH]; simpl; [reflexivity|].
  destruct (ProductCategory.categoryId c =? cid)%string eqn:E; simpl.
  - apply String.eqb_eq in E.
    assert (Hcx : (ProductCategory.categoryId c =? x)%string = false)
      by (apply String.eqb_neq; congruence).
    rewrite Hcx. exact IH.
  - rewrite IH. reflexivity.
Qed.

Lemma products_delete_wf (d d' : Db) (pid : string) :
  db_wf d -> Prisma.products_delete d pid = inr d' -> db_wf d'.
Proof.
  intros Hwf H. unfold Prisma.products_delete in H.
  destruct (Prisma.products_findUnique d pid); [|discriminate].
  destruct (referenced d pid) eqn:Hr; [discriminate|].
  injection H as <-.
  apply (wf_transfer d); simpl; auto using incl_refl.
  - apply NoDup_map_filter, (wf_product_ids d Hwf).
  - apply (wf_category_ids d Hwf).
  - apply Forall_forall. intros l Hin. apply filter_In in Hin.
    destruct Hin as [Hin Hne].
    pose proof (wf_links d Hwf) as Hl. rewrite Forall_forall in Hl.
    destruct (Hl l Hin) as [H1 H2]. split; [exact H1|].
    rewrite has_product_remove; [exact H2|].
    apply String.eqb_neq. now apply negb_true_iff.
  - intros x Hx Href.
    rewrite has_product_remove; [exact Hx|].
    intros ->. unfold referenced in Href, Hr. simpl in Href. congruence.
Qed.

Lemma productCategory_create_wf (t : Z) (d d' : Db) (cid nm descr : Js.value)
      (c : ProductCategory.t) :
  db_wf d -> Prisma.productCategory_create t d cid nm descr = inr (d', c) ->
  db_wf d'.
Proof.
  intros Hwf H. unfold Prisma.productCategory_create in H.
  destruct cid as [cid|]; [|discriminate].
  destruct nm as [nm|]; [|discriminate].
  destruct (has_category d cid) eqn:Hc; [discriminate|].
  injection H as <- _.
  apply (wf_transfer d); simpl; auto using incl_refl.
  - apply (wf_product_ids d Hwf).
  - rewrite map_app. simpl. apply NoDup_snoc; [apply (wf_category_ids d Hwf)|].
    intros Hin. apply has_category_In in Hin. congruence.
  - eapply Forall_impl; [|apply (wf_links d Hwf)].
    intros l [H1 H2]. split; [|exact H2].
    unfold has_category in *. simpl. rewrite existsb_app, H1. reflexivity.
Qed.

Lemma productCategory_delete_wf (d d' : Db) (cid : string) :
  db_wf d -> Prisma.productCategory_delete d cid = inr d' -> db_wf d'.
Proof.
  intros Hwf H. unfold Prisma.productCategory_delete in H.
  destruct (has_category d cid); [|discriminate].
  injection H as <-.
  apply (wf_transfer d); simpl; auto using incl_refl.
  - apply (wf_product_ids d Hwf).
  - apply NoDup_map_filter, (wf_category_ids d Hwf).
  - apply Forall_forall. intros l Hin. apply filter_In in Hin.
    destruct Hin as [Hin Hne].
    pose proof (wf_links d Hwf) as Hl. rewrite Forall_forall in Hl.
    destruct (Hl l Hin) as [H1 H2]. split; [|exact H2].
    rewrite has_category_remove; [exact H1|].
    apply String.eqb_neq. now apply negb_true_iff.
Qed.

Section Preservation.

Context {A B : Type}.

Lemma preserves_ret (a : A) : preserves (ret a).
Proof. intros rt w H. exact H. Qed.

Lemma preserves_throw (e : Exn) : preserves (@throw A e).
Proof. intros rt w H. exact H. Qed.

Lemma preserves_bind (m : M A) (k : A -> M B) :
  preserves m -> (forall a, preserves (k a)) -> preserves (bind m k).
Proof.
  intros Hm Hk rt w H. unfold bind. specialize (Hm rt w H).
  destruct (m rt w) as [[a|e] w']; simpl in *; [apply Hk|]; exact Hm.
Qed.

Lemma preserves_try_catch (m : M A) (h : Exn -> M A) :
  preserves m -> (forall e, preserves (h e)) -> preserves (try_catch m h).
Proof.
  intros Hm Hh rt w H. unfold try_catch. specialize (Hm rt w H).
  destruct (m rt w) as [[a|e] w']; simpl in *; [|apply Hh]; exact Hm.
Qed.

Lemma preserves_read (name : Query) (q : Db -> A) :
  preserves (prisma_read name q).
Proof. intros rt w H. exact H. Qed.

Lemma preserves_invalid (name : Query) : preserves (@prisma_invalid A name).
Proof. intros rt w H. exact H. Qed.

Lemma preserves_write (name : Query) (q : Db -> Prisma.result (Db * A)) :
  (forall d d' a, db_wf d -> q d = inr (d', a) -> db_wf d') ->
  preserves (prisma_write name q).
Proof.
  intros Hq rt w H. unfold prisma_write.
  destruct (q (db w)) as [e|[d' a]] eqn:E; simpl; [exact H|].
  exact (Hq _ _ _ H E).
Qed.

End Preservation.

Lemma preserves_attempt {A : Type} (m : M A) :
  preserves m -> preserves (attempt m).
Proof.
  intros Hm. unfold attempt. apply preserves_try_catch.
  - apply preserves_bind; [exact Hm|]. intros a. apply preserves_ret.
  - intros e. apply preserves_ret.
Qed.

Lemma preserves_ask : preserves ask.
Proof. intros rt w H. exact H. Qed.

Lemma preserves_upload (file : Js.value) : preserves (cloudinary_upload file).
Proof.
  intros rt w H. unfold cloudinary_upload.
  destruct (host_upload (host rt) file); exact H.
Qed.

Lemma preserves_destroy (key : string) : preserves (cloudinary_destroy key).
Proof.
  intros rt w H. unfold cloudinary_destroy.
  destruct (host_destroy (host rt) key); exact H.
Qed.

Lemma preserves_json (code : Z) (p : Payload) : preserves (json code p).
Proof. apply preserves_ret. Qed.

Lemma preserves_destroy_stored_image (imageUrl : Js.value) :
  preserves (destroy_stored_image imageUrl).
Proof.
  rewrite destroy_stored_image_target.
  destruct (destroy_target imageUrl);
    [apply preserves_destroy|apply preserves_ret].
Qed.

Create HintDb preserves.
#[local] Hint Resolve preserves_ret preserves_throw preserves_read
  preserves_invalid preserves_ask preserves_upload preserves_destroy
  preserves_json preserves_destroy_stored_image : preserves.

(** Walks through a handler: sequencing, try/catch and branching preserve
    integrity when their parts do; a write does when the query does. *)
Ltac preserve :=
  repeat first
    [ progress auto with preserves
    | apply preserves_bind; [|intro]
    | apply preserves_try_catch; [|intro]
    | apply preserves_attempt
    | apply preserves_write; intros ? ? ? ? ?
    | match goal with
      | |- preserves (match ?x with _ => _ end) => destruct x
      | |- preserves (if ?b then _ else _) => destruct b
      end ].

Lemma handler_preserves (h : Handler) (req : Request) :
  preserves (handler h req).
Proof.
  destruct h; simpl;
    unfold getProducts, createProduct, updateProduct, deleteProduct,
      createProductCategory, deleteProductCategory, getProductCategories,
      getProductsByCategory, addProductToCategory, getNewArrivals,
      create_row, update_product, delete_product, findUnique_product,
      json_ok;
    preserve;
    try match goal with
        | H : match ?q with inl _ => _ | inr _ => _ end = inr _ |- _ =>
            destruct q eqn:?; [discriminate|]; injection H as <- _
        end;
    eauto using products_create_wf, products_update_wf, products_connect_wf,
      products_delete_wf, productCategory_create_wf, productCategory_delete_wf.
Qed.

(** X24. Whatever the request, the media host and the clock, a database
    with integrity is left with integrity. *)
Theorem router_preserves_integrity (r : HttpRequest) (rt : Runtime) (d : Db) :
  db_wf d -> db_wf (db_after (run (router r) rt d)).
Proof.
  intros H. unfold db_after, run, router.
  destruct (route r) as [h req|err|].
  - now apply handler_preserves.
  - exact H.
  - exact H.
Qed.

Lemma router_preserves_integrity_witness :
  db_wf (db_after (run (router Sample.put_http)
                       (Sample.runtime Sample.resolving) Sample.catalogue)).
Proof.
  apply (router_preserves_integrity
           Sample.put_http (Sample.runtime Sample.resolving) Sample.catalogue).
  apply db_wfb_sound. reflexivity.
Defined.

(** ** createProduct: what a run can be *)

Lemma createProduct_success (rt : Runtime) (d : Db) (req : Request)
      (resp : Response) (w : World) :
  run (createProduct req) rt d = (Normal resp, w) ->
  status resp = 201 ->
  exists (f : File) (url : string) (pc : ProductWithCategories),
    missingFields req = []
    /\ file req = Some f
    /\ host_upload (host rt) (Some (dataURI f)) = Resolves url
    /\ Prisma.products_create (now rt) d (create_data rt req (Some url))
       = inr (db w, pc)
    /\ resp = mkResponse 201 (ProductJson pc)
    /\ media_log w = [Upload (Some (dataURI f))].
Proof.
  intros H Hs.
  unfold run, createProduct, try_catch, attempt, try_catch, bind,
    cloudinary_upload, create_row, bind, ask, prisma_write, json, ret in H.
  destruct (missingFields req) as [|x l] eqn:Hv; simpl in H;
    [|injection H as <- <-; discriminate].
  destruct (file req) as [f|] eqn:Hf.
  - simpl in H.
    destruct (host_upload (host rt) (Some (dataURI f))) as [url|reason] eqn:Hu;
      simpl in H; [|injection H as <- <-; discriminate].
    destruct (Prisma.products_create (now rt) d
                (create_data rt req (Some url))) as [e|[d' pc]] eqn:Hc;
      simpl in H; injection H as <- <-; [discriminate|].
    exists f, url, pc. simpl. repeat split; auto.
  - exfalso. destruct (validated_has_file req Hv) as [f Hf']. congruence.
Qed.

(** X1. When a create request passes validation and the upload resolves but
    the create query fails, the answer is 500 "Server error" with the
    message of the failure; the database is unchanged and the upload has been
    made: the uploaded image stays on the media host with no row referring
    to it. *)
Theorem createProduct_write_failure
        (rt : Runtime) (d : Db) (req : Request) (f : File) (url : string)
        (e : PrismaError) :
  missingFields req = [] ->
  file req = Some f ->
  host_upload (host rt) (Some (dataURI f)) = Resolves url ->
  Prisma.products_create (now rt) d (create_data rt req (Some url)) = inl e ->
  run (createProduct req) rt d =
  (Normal (mkResponse 500 (MessageError "Server error"
                                        (exn_message (PrismaExn e)))),
   mkWorld d [Upload (Some (dataURI f))] [products_create]).
Proof.
  intros Hv Hf Hu Hc.
  unfold run, createProduct, try_catch, attempt, try_catch, bind,
    cloudinary_upload, create_row, bind, ask, prisma_write.
  rewrite Hv, Hf. simpl. rewrite Hu. simpl. rewrite Hc. reflexivity.
Qed.

Lemma createProduct_write_failure_witness :
  exists e : PrismaError,
    run (createProduct Scenario.duplicate_req)
        (Sample.runtime Sample.resolving) Sample.catalogue
    = (Normal (mkResponse 500 (MessageError "Server error"
                                            (exn_message (PrismaExn e)))),
       mkWorld Sample.catalogue [Upload (Some (dataURI Sample.png))]
               [products_create]).
Proof.
  let v := eval vm_compute in
             (Prisma.products_create Sample.t_apr30 Sample.catalogue
                (create_data (Sample.runtime Sample.resolving)
                             Scenario.duplicate_req (Some Sample.new_url))) in
  match v with
  | inl ?e =>
      exists e;
      apply (createProduct_write_failure
               (Sample.runtime Sample.resolving) Sample.catalogue
               Scenario.duplicate_req Sample.png Sample.new_url e);
      [ reflexivity | reflexivity | reflexivity | vm_compute; reflexivity ]
  end.
Defined.

Lemma find_app_new (l : list Products.t) (row : Products.t) (q : string) :
  existsb (fun p => (Products.productId p =? Products.productId row)%string) l
  = false ->
  find (fun p => (Products.productId p =? q)%string) (l ++ [row])
  = if (Products.productId row =? q)%string then Some row
    else find (fun p => (Products.productId p =? q)%string) l.
Proof.
  induction l as [|p tl IH]; simpl; intros Hnew; [reflexivity|].
  apply orb_false_iff in Hnew. destruct Hnew as [Hp Htl].
  destruct (Products.productId p =? q)%string eqn:E.
  - apply String.eqb_eq in E. subst q.
    rewrite String.eqb_sym, Hp. reflexivity.
  - apply IH, Htl.
Qed.

(** X2. After a create request answered 201 the product is in the database
    under the id the request gave, with the name of the request, the parsed
    price and stock, the secure URL of the upload and the current time as
    creation time; a lookup of any other id gives what it gave before, and
    the categories, sales and purchases are untouched. *)
Theorem createProduct_stored
        (rt : Runtime) (d : Db) (req : Request) (resp : Response) (w : World) :
  run (createProduct req) rt d = (Normal resp, w) ->
  status resp = 201 ->
  exists (pid nm : string) (qty : Z) (f : File) (url : string),
    Body.productId (body req) = Some pid
    /\ Body.name (body req) = Some nm
    /\ parseInt rt (Js.to_string (Body.stockQuantity (body req))) = Some qty
    /\ file req = Some f
    /\ host_upload (host rt) (Some (dataURI f)) = Resolves url
    /\ Prisma.products_findUnique d pid = None
    /\ Prisma.products_findUnique (db w) pid
       = Some (Products.mk pid nm
                 (parseFloat rt (Js.to_string (Body.price (body req))))
                 qty (Some url) (now rt) (now rt))
    /\ (forall q : string,
          q <> pid ->
          Prisma.products_findUnique (db w) q = Prisma.products_findUnique d q)
    /\ productCategory (db w) = productCategory d
    /\ sales (db w) = sales d
    /\ purchases (db w) = purchases d.
Proof.
  intros Hrun Hs.
  destruct (createProduct_success rt d req resp w Hrun Hs)
    as [f [url [pc [_ [Hf [Hu [Hc _]]]]]]].
  unfold Prisma.products_create, create_data in Hc. simpl in Hc.
  destruct (Body.productId (body req)) as [pid|]; [|discriminate].
  destruct (Body.name (body req)) as [nm|]; [|discriminate].
  destruct (parseInt rt (Js.to_string (Body.stockQuantity (body req))))
    as [qty|]; [|discriminate].
  destruct (Body.categoryId (body req)) as [cid|]; [|discriminate].
  destruct (PrimFloat.is_nan _); [discriminate|].
  destruct (has_product d pid) eqn:Hnew; [discriminate|].
  destruct (has_category d cid); [|discriminate].
  simpl in Hc. injection Hc as Hd _. rewrite <- Hd.
  exists pid, nm, qty, f, url. unfold Prisma.products_findUnique. simpl.
  repeat split; auto.
  - now apply findUnique_None_iff.
  - rewrite find_app_new by exact Hnew. simpl. now rewrite String.eqb_refl.
  - intros q Hq. rewrite find_app_new by exact Hnew. simpl.
    destruct (pid =? q)%string eqn:E; [|reflexivity].
    apply String.eqb_eq in E. congruence.
Qed.

Lemma createProduct_stored_witness :
  let r := run (createProduct Sample.create_req)
               (Sample.runtime Sample.resolving) Sample.catalogue in
  Prisma.products_findUnique Sample.catalogue "p9" = None
  /\ Prisma.products_findUnique (db_after r) "p9"
     = Some (Products.mk "p9" "Clog" 15.25%float 4 (Some Sample.new_url)
                         Sample.t_apr30 Sample.t_apr30)
  /\ Prisma.products_findUnique (db_after r) "p1" = Some Sample.boot.
Proof.
  cbv zeta.
  let v := eval vm_compute in
             (run (createProduct Sample.create_req)
                  (Sample.runtime Sample.resolving) Sample.catalogue) in
  match v with
  | (Normal ?resp, ?w) =>
      destruct (createProduct_stored
                  (Sample.runtime Sample.resolving) Sample.catalogue
                  Sample.create_req resp w)
        as [pid [nm [qty [f [url [Hp [Hn [Hq [Hf [Hu [Hnew [Hrow [Hold _]]]]]]]]]]]]];
      [ vm_compute; reflexivity | reflexivity | ]
  end.
  injection Hp as <-. injection Hn as <-. injection Hq as <-.
  injection Hu as <-.
  split; [exact Hnew|]. split; [exact Hrow|].
  exact (Hold "p1" ltac:(discriminate)).
Defined.

Lemma twoMonthsAgo_le_now (rt : Runtime) : twoMonthsAgo rt <= now rt.
Proof.
  destruct (twoMonthsAgo_local_gap rt) as [lc [-> Hgap]].
  pose proof (JsDate.LocalTZA_range (tza rt) (now rt) true) as Hnow.
  pose proof (JsDate.LocalTZA_range (tza rt) lc false) as Hcut.
  assert (Hms : JsDate.msPerDay = 86400000) by reflexivity.
  rewrite Hms in *. lia.
Qed.

Lemma products_create_shape (t : Z) (d d' : Db) (a : Prisma.create_data)
      (pc : ProductWithCategories) :
  Prisma.products_create t d a = inr (d', pc) ->
  exists cid : string,
    Prisma.c_connect a = Some cid
    /\ has_category d cid = true
    /\ d' = mkDb (products d ++ [product pc]) (productCategory d)
                 (links d ++ [(cid, Products.productId (product pc))])
                 (sales d) (purchases d)
    /\ Products.createdAt (product pc) = t
    /\ categories pc = categories_of d' (Products.productId (product pc)).
Proof.
  unfold Prisma.products_create. intros H.
  destruct (Prisma.c_productId a) as [pid|]; [|discriminate].
  destruct (Prisma.c_name a) as [nm|]; [|discriminate].
  destruct (Prisma.c_stockQuantity a) as [qty|]; [|discriminate].
  destruct (Prisma.c_connect a) as [cid|]; [|discriminate].
  destruct (PrimFloat.is_nan (Prisma.c_price a)); [discriminate|].
  destruct (has_product d pid); [discriminate|].
  destruct (has_category d cid) eqn:Ec; [|discriminate].
  simpl in H. injection H as <- <-. exists cid. simpl. repeat split; auto.
Qed.

(** X3. A product created by a request answered 201 is a new arrival at
    once: the new-arrivals report, asked at the same time on the resulting
    database, lists the category of the product, and lists the product
    under it. *)
Theorem created_product_is_new_arrival
        (rt : Runtime) (d : Db) (req req' : Request) (resp : Response)
        (w : World) :
  db_wf d ->
  run (createProduct req) rt d = (Normal resp, w) ->
  status resp = 201 ->
  exists (pc : ProductWithCategories) (c : ProductCategory.t)
         (cats : list CategoryWithProducts) (cp : CategoryWithProducts),
    payload resp = ProductJson pc
    /\ categories pc = [c]
    /\ response_of (run (getNewArrivals req') rt (db w))
       = Some (mkResponse 200 (CategoriesJson cats))
    /\ In cp cats
    /\ category cp = c
    /\ In (product pc) (category_products cp).
Proof.
  intros Hwf Hrun Hs.
  destruct (createProduct_success rt d req resp w Hrun Hs)
    as [f [url [pc [_ [_ [_ [Hc [Hresp _]]]]]]]].
  destruct (products_create_shape _ _ _ _ _ Hc)
    as [cid [_ [Hcat [Hd [Hnow Hcats]]]]].
  destruct (products_create_inr _ _ _ _ _ Hc)
    as [pid [nm [qty [cid' [_ [_ [_ [_ [Hnew [_ [_ [_ [Hrow _]]]]]]]]]]]]].
  assert (Hpid : Products.productId (product pc) = pid)
    by (rewrite Hrow; reflexivity).
  rewrite Hpid in *.
  assert (Hlinked : forall c', linked (db w) c' pid = (cid =? c')%string).
  { intros c'. rewrite Hd. unfold linked. simpl. rewrite existsb_app.
    pose proof (unlinked_when_absent d c' pid Hwf Hnew) as Hn.
    unfold linked in Hn. rewrite Hn. simpl. unfold is_link. simpl.
    now rewrite String.eqb_refl, andb_true_r, orb_false_r. }
  destruct (filter_category_unique (productCategory d) cid
              (wf_category_ids d Hwf) Hcat) as [c [Hin [Hcid Hfilter]]].
  assert (Hone : categories pc = [c]).
  { rewrite Hcats. unfold categories_of.
    rewrite (filter_ext _ _ (fun x => Hlinked _)).
    rewrite Hd. simpl. exact Hfilter. }
  assert (Hprod : In (product pc)
                     (filter (Prisma.createdAt_gte (twoMonthsAgo rt))
                             (products_of (db w) (ProductCategory.categoryId c)))).
  { apply filter_In. split.
    - unfold products_of. apply filter_In. split.
      + rewrite Hd. simpl. apply in_or_app. right. left. reflexivity.
      + rewrite Hpid, Hlinked, Hcid. apply String.eqb_refl.
    - apply createdAt_gte_iff. rewrite Hnow. apply twoMonthsAgo_le_now. }
  set (cp := mkCP c (Prisma.orderBy_createdAt_desc
                       (filter (Prisma.createdAt_gte (twoMonthsAgo rt))
                               (products_of (db w)
                                            (ProductCategory.categoryId c))))).
  exists pc, c,
    (Prisma.productCategory_findMany_since (db w) (twoMonthsAgo rt)), cp.
  split; [rewrite Hresp; reflexivity|]. split; [exact Hone|].
  split; [rewrite getNewArrivals_run, post_query_filter_redundant; reflexivity|].
  split; [|split; [reflexivity|]].
  - unfold Prisma.productCategory_findMany_since. apply in_map_iff.
    exists c. split; [reflexivity|]. apply filter_In. split.
    + rewrite Hd. simpl. exact Hin.
    + apply existsb_exists. exists (product pc).
      apply filter_In in Hprod. exact Hprod.
  - simpl. apply (Permutation_in _ (Permutation_sym (orderBy_perm _))).
    exact Hprod.
Qed.

Lemma created_product_is_new_arrival_witness :
  let r := run (createProduct Sample.create_req)
               (Sample.runtime Sample.resolving) Sample.catalogue in
  exists (cats : list CategoryWithProducts) (cp : CategoryWithProducts)
         (p : Products.t),
    response_of (run (getNewArrivals Sample.create_req)
                     (Sample.runtime Sample.resolving) (db_after r))
    = Some (mkResponse 200 (CategoriesJson cats))
    /\ In cp cats
    /\ category cp = Sample.hats
    /\ In p (category_products cp)
    /\ Products.productId p = "p9".
Proof.
  cbv zeta.
  let v := eval vm_compute in
             (run (createProduct Sample.create_req)
                  (Sample.runtime Sample.resolving) Sample.catalogue) in
  match v with
  | (Normal ?resp, ?w) =>
      destruct (created_product_is_new_arrival
                  (Sample.runtime Sample.resolving) Sample.catalogue
                  Sample.create_req Sample.create_req resp w)
        as [pc [c [cats [cp [Hp [Hc [Hrun [Hin [Hcat Hprod]]]]]]]]];
      [ apply db_wfb_sound; reflexivity
      | vm_compute; reflexivity
      | reflexivity
      | ]
  end.
  injection Hp as <-. injection Hc as <-.
  exists cats, cp. eexists. split; [exact Hrun|]. split; [exact Hin|].
  split; [exact Hcat|]. split; [exact Hprod|reflexivity].
Defined.

(** ** deleteProduct: what a run can be *)

Lemma deleteProduct_success (rt : Runtime) (d : Db) (req : Request)
      (resp : Response) (w : World) :
  run (deleteProduct req) rt d = (Normal resp, w) ->
  status resp = 200 ->
  exists (pid : string) (p : Products.t),
    params_productId req = Some pid
    /\ Prisma.products_findUnique d pid = Some p
    /\ Prisma.products_delete d pid = inr (db w)
    /\ resp = mkResponse 200 (Message "Product deleted successfully").
Proof.
  intros H Hs.
  unfold run, deleteProduct, try_catch, bind, findUnique_product, prisma_read,
    prisma_invalid, delete_product, prisma_write, json, ret in H.
  destruct (params_productId req) as [pid|]; simpl in H;
    [|injection H as <- <-; discriminate].
  destruct (Prisma.products_findUnique d pid) as [p|] eqn:Hf; simpl in H;
    [|injection H as <- <-; discriminate].
  rewrite destroy_stored_image_target in H.
  destruct (destroy_target (Products.imageUrl p)) as [key|]; simpl in H.
  - unfold cloudinary_destroy in H. simpl in H.
    destruct (host_destroy (host rt) key); simpl in H;
      (destruct (Prisma.products_delete d pid) as [e|d'] eqn:Hd; simpl in H;
       injection H as <- <-; [discriminate|]);
      exists pid, p; repeat split; auto.
  - unfold ret in H. simpl in H.
    destruct (Prisma.products_delete d pid) as [e|d'] eqn:Hd; simpl in H;
      injection H as <- <-; [discriminate|].
    exists pid, p. repeat split; auto.
Qed.

(** X4. A delete request for a product id that is not in the database is
    answered 404 "Product not found": the lookup is the only query, the
    media host is not called and the database is unchanged. *)
Theorem deleteProduct_not_found
        (rt : Runtime) (d : Db) (req : Request) (pid : string) :
  params_productId req = Some pid ->
  has_product d pid = false ->
  run (deleteProduct req) rt d =
  (Normal (mkResponse 404 (Message "Product not found")),
   mkWorld d [] [products_findUnique]).
Proof.
  intros Hp Hn. apply findUnique_None_iff in Hn.
  unfold run, deleteProduct, try_catch, bind, findUnique_product, prisma_read.
  rewrite Hp. simpl. rewrite Hn. reflexivity.
Qed.

Lemma deleteProduct_not_found_witness :
  run (deleteProduct (Sample.delete_req "p404"))
      (Sample.runtime Sample.resolving) Sample.catalogue
  = (Normal (mkResponse 404 (Message "Product not found")),
     mkWorld Sample.catalogue [] [products_findUnique]).
Proof.
  apply (deleteProduct_not_found
           (Sample.runtime Sample.resolving) Sample.catalogue
           (Sample.delete_req "p404") "p404");
    reflexivity.
Defined.

Lemma find_remove_other (pid q : string) (l : list Products.t) :
  q <> pid ->
  find (fun p => (Products.productId p =? q)%string)
       (filter (fun p => negb (Products.productId p =? pid)%string) l)
  = find (fun p => (Products.productId p =? q)%string) l.
Proof.
  intros Hq. induction l as [|p tl IH]; simpl; [reflexivity|].
  destruct (Products.productId p =? pid)%string eqn:E; simpl.
  - apply String.eqb_eq in E.
    assert (Hpq : (Products.productId p =? q)%string = false)
      by (apply String.eqb_neq; congruence).
    rewrite Hpq. exact IH.
  - rewrite IH. reflexivity.
Qed.

Lemma linked_remove_product (ls : list (string * string)) (c pid q : string) :
  existsb (is_link c q) (filter (fun l => negb (snd l =? pid)%string) ls)
  = if (q =? pid)%string then false else existsb (is_link c q) ls.
Proof.
  induction ls as [|l tl IH]; simpl.
  - destruct (q =? pid)%string; reflexivity.
  - destruct (snd l =? pid)%string eqn:E; simpl.
    + rewrite IH. destruct (q =? pid)%string eqn:Eq; [reflexivity|].
      assert (Hl : is_link c q l = false).
      { unfold is_link. apply String.eqb_eq in E. rewrite E.
        rewrite (String.eqb_sym pid q), Eq. apply andb_false_r. }
      rewrite Hl. reflexivity.
    + rewrite IH. destruct (q =? pid)%string eqn:Eq; [|reflexivity].
      apply String.eqb_eq in Eq. subst q.
      unfold is_link. rewrite E, andb_false_r. reflexivity.
Qed.

(** X5. After a delete request answered 200 the product is gone and so is
    every link to it; the other products, their links, the categories, the
    sales and the purchases are what they were.  No sale and no purchase
    referred to the product. *)
Theorem deleteProduct_removes_row_and_links
        (rt : Runtime) (d : Db) (req : Request) (resp : Response) (w : World) :
  run (deleteProduct req) rt d = (Normal resp, w) ->
  status resp = 200 ->
  exists pid : string,
    params_productId req = Some pid
    /\ has_product d pid = true
    /\ referenced d pid = false
    /\ has_product (db w) pid = false
    /\ (forall c : string, linked (db w) c pid = false)
    /\ (forall q : string,
          q <> pid ->
          Prisma.products_findUnique (db w) q = Prisma.products_findUnique d q)
    /\ (forall c q : string,
          q <> pid -> linked (db w) c q = linked d c q)
    /\ productCategory (db w) = productCategory d
    /\ sales (db w) = sales d
    /\ purchases (db w) = purchases d.
Proof.
  intros Hrun Hs.
  destruct (deleteProduct_success rt d req resp w Hrun Hs)
    as [pid [p [Hp [Hf [Hd _]]]]].
  exists pid. split; [exact Hp|].
  split; [now apply findUnique_Some in Hf|].
  split.
  { unfold Prisma.products_delete in Hd. rewrite Hf in Hd.
    destruct (referenced d pid); [discriminate|reflexivity]. }
  split; [exact (products_delete_removes _ _ _ Hd)|].
  unfold Prisma.products_delete in Hd. rewrite Hf in Hd.
  destruct (referenced d pid); [discriminate|]. injection Hd as Hd.
  rewrite <- Hd. unfold linked, Prisma.products_findUnique. simpl.
  repeat split; auto.
  - intros c. rewrite linked_remove_product, String.eqb_refl. reflexivity.
  - intros q Hq. now apply find_remove_other.
  - intros c q Hq. rewrite linked_remove_product.
    apply String.eqb_neq in Hq. now rewrite Hq.
Qed.

Lemma deleteProduct_removes_row_and_links_witness :
  let r := run (deleteProduct (Sample.delete_req "p2"))
               (Sample.runtime Sample.resolving) Sample.catalogue in
  linked Sample.catalogue "c2" "p2" = true
  /\ has_product (db_after r) "p2" = false
  /\ linked (db_after r) "c2" "p2" = false
  /\ linked (db_after r) "c2" "p1" = true
  /\ sales (db_after r) = sales Sample.catalogue.
Proof.
  cbv zeta. split; [reflexivity|].
  let v := eval vm_compute in
             (run (deleteProduct (Sample.delete_req "p2"))
                  (Sample.runtime Sample.resolving) Sample.catalogue) in
  match v with
  | (Normal ?resp, ?w) =>
      destruct (deleteProduct_removes_row_and_links
                  (Sample.runtime Sample.resolving) Sample.catalogue
                  (Sample.delete_req "p2") resp w)
        as [pid [Hp [_ [_ [Hgone [Hlinks [_ [Hother [_ [Hs _]]]]]]]]]];
      [ vm_compute; reflexivity | reflexivity | ]
  end.
  injection Hp as <-.
  split; [exact Hgone|]. split; [exact (Hlinks "c2")|].
  split; [|exact Hs].
  exact (Hother "c2" "p1" ltac:(discriminate)).
Defined.

(** X6. The remote calls of a delete request are decided by the stored image
    URL alone: one removal, of the key derived from the URL, when the
    product exists and the URL yields a key; none otherwise.  Nothing is
    ever uploaded. *)
Theorem deleteProduct_calls (rt : Runtime) (d : Db) (req : Request) :
  calls_of (run (deleteProduct req) rt d) =
  match params_productId req with
  | Some pid =>
      match Prisma.products_findUnique d pid with
      | Some p =>
          match destroy_target (Products.imageUrl p) with
          | Some key => [Destroy key]
          | None => []
          end
      | None => []
      end
  | None => []
  end.
Proof.
  unfold calls_of, run, deleteProduct, try_catch, bind, findUnique_product,
    prisma_read, prisma_invalid, delete_product, prisma_write.
  destruct (params_productId req) as [pid|]; simpl; [|reflexivity].
  destruct (Prisma.products_findUnique d pid) as [p|]; simpl; [|reflexivity].
  rewrite destroy_stored_image_target.
  destruct (destroy_target (Products.imageUrl p)) as [key|]; simpl.
  - unfold cloudinary_destroy. simpl.
    destruct (host_destroy (host rt) key); simpl;
      destruct (Prisma.products_delete d pid); reflexivity.
  - destruct (Prisma.products_delete d pid); reflexivity.
Qed.

(** ** updateProduct: a new image *)

(** The remote calls of an update that got as far as the upload. *)
Lemma updateProduct_success_image (rt : Runtime) (d : Db) (req : Request)
      (resp : Response) (w : World) (f : File) :
  run (updateProduct req) rt d = (Normal resp, w) ->
  status resp = 200 ->
  file req = Some f ->
  exists (pid : string) (existing : Products.t) (url : string)
         (pc : ProductWithCategories),
    params_productId req = Some pid
    /\ Prisma.products_findUnique d pid = Some existing
    /\ host_upload (host rt) (path f) = Resolves url
    /\ Prisma.products_update (now rt) d pid (update_data rt req (Some url))
       = inr (db w, pc)
    /\ media_log w =
       match destroy_target (Products.imageUrl existing) with
       | Some key => [Destroy key; Upload (path f)]
       | None => [Upload (path f)]
       end.
Proof.
  unfold run, updateProduct, try_catch, bind, findUnique_product, prisma_read,
    prisma_invalid, attempt, try_catch, bind, update_product, prisma_write, ask.
  intros H Hs Hfile.
  destruct (params_productId req) as [pid|]; simpl in H;
    [|injection H as <- <-; discriminate].
  destruct (Prisma.products_findUnique d pid) as [existing|] eqn:Ef; simpl in H;
    [|injection H as <- <-; discriminate].
  rewrite Hfile, destroy_stored_image_target in H.
  unfold cloudinary_destroy, cloudinary_upload, ret, json_ok, json, ret in H.
  destruct (destroy_target (Products.imageUrl existing)) as [key|] eqn:Hk;
    simpl in H;
    [destruct (host_destroy (host rt) key); simpl in H|];
    try (injection H as <- <-; discriminate);
    (destruct (host_upload (host rt) (path f)) as [url|] eqn:Hu; simpl in H;
     [|injection H as <- <-; discriminate]);
    unfold bind in H; simpl in H;
    (destruct (Prisma.products_update (now rt) d pid
                 (update_data rt req (Some url))) as [e|[d' pc]] eqn:Eu;
     simpl in H; injection H as <- <-; [discriminate|]);
    exists pid, existing, url, pc; rewrite Hk; simpl; repeat split; auto.
Qed.

(** X7. When an update request supplies a file for an existing product and
    the upload rejects after the removal of the old image went through (or
    was not attempted), the answer is 500 "Error handling image update" and
    the database is unchanged: the row keeps the URL of an image the media
    host has already been asked to destroy. *)
Theorem updateProduct_upload_failure
        (rt : Runtime) (d : Db) (req : Request) (pid : string)
        (p : Products.t) (f : File) (reason : Rejection) :
  params_productId req = Some pid ->
  Prisma.products_findUnique d pid = Some p ->
  file req = Some f ->
  (forall key : string,
      destroy_target (Products.imageUrl p) = Some key ->
      host_destroy (host rt) key = Resolves tt) ->
  host_upload (host rt) (path f) = Rejects reason ->
  run (updateProduct req) rt d =
  (Normal (mkResponse 500 (Message "Error handling image update")),
   mkWorld d
           match destroy_target (Products.imageUrl p) with
           | Some key => [Destroy key; Upload (path f)]
           | None => [Upload (path f)]
           end
           [products_findUnique]).
Proof.
  intros Hp Hf Hfile Hd Hu.
  unfold run, updateProduct, try_catch, bind, findUnique_product,
    prisma_read, attempt, try_catch, bind.
  rewrite Hp. simpl. rewrite Hf, Hfile, destroy_stored_image_target.
  destruct (destroy_target (Products.imageUrl p)) as [key|] eqn:Hk.
  - unfold cloudinary_destroy, cloudinary_upload. simpl.
    rewrite (Hd key eq_refl). simpl. rewrite Hu. reflexivity.
  - unfold cloudinary_upload, ret. simpl. rewrite Hu. reflexivity.
Qed.

Lemma updateProduct_upload_failure_witness :
  run (updateProduct (Sample.update_req "p1" (Some Sample.png)))
      (Sample.runtime Scenario.upload_rejecting) Sample.catalogue
  = (Normal (mkResponse 500 (Message "Error handling image update")),
     mkWorld Sample.catalogue [Destroy "products/abc123"; Upload None]
             [products_findUnique]).
Proof.
  apply (updateProduct_upload_failure
           (Sample.runtime Scenario.upload_rejecting) Sample.catalogue
           (Sample.update_req "p1" (Some Sample.png)) "p1" Sample.boot
           Sample.png (AnError "upload failed"));
    [ reflexivity | reflexivity | reflexivity
    | intros key _; reflexivity | reflexivity ].
Defined.

Lemma find_replace_other (pid q : string) (f : Products.t -> Products.t)
      (l : list Products.t) :
  (forall p, Products.productId (f p) = Products.productId p) ->
  q <> pid ->
  find (fun p => (Products.productId p =? q)%string)
       (Prisma.replace_product pid f l)
  = find (fun p => (Products.productId p =? q)%string) l.
Proof.
  intros Hid Hq. unfold Prisma.replace_product.
  induction l as [|p tl IH]; simpl; [reflexivity|].
  destruct (Products.productId p =? pid)%string eqn:E.
  - rewrite Hid. apply String.eqb_eq in E.
    assert (Hpq : (Products.productId p =? q)%string = false)
      by (apply String.eqb_neq; congruence).
    rewrite Hpq. exact IH.
  - rewrite IH. reflexivity.
Qed.

(** X8. After an update request answered 200 the row of the product has the
    name of the request (its old name when the request gives none), the
    parsed price and stock, the current time as update time, and the id and
    creation time it had; its image URL is the secure URL of the upload when
    a file was supplied, and the old URL otherwise. *)
Theorem updateProduct_stored
        (rt : Runtime) (d : Db) (req : Request) (resp : Response) (w : World) :
  run (updateProduct req) rt d = (Normal resp, w) ->
  status resp = 200 ->
  exists (pid : string) (before after : Products.t),
    params_productId req = Some pid
    /\ Prisma.products_findUnique d pid = Some before
    /\ Prisma.products_findUnique (db w) pid = Some after
    /\ Products.productId after = pid
    /\ Products.name after
       = match Body.name (body req) with
         | Some nm => nm
         | None => Products.name before
         end
    /\ Products.price after
       = parseFloat rt (Js.to_string (Body.price (body req)))
    /\ parseInt rt (Js.to_string (Body.stockQuantity (body req)))
       = Some (Products.stockQuantity after)
    /\ Products.createdAt after = Products.createdAt before
    /\ Products.updatedAt after = now rt
    /\ (file req = None -> Products.imageUrl after = Products.imageUrl before)
    /\ (forall f : File,
          file req = Some f ->
          exists url : string,
            host_upload (host rt) (path f) = Resolves url
            /\ Products.imageUrl after = Some url).
Proof.
  intros Hrun Hs.
  assert (Hgen : exists (pid : string) (existing : Products.t)
                        (imageUrl : Js.value) (pc : ProductWithCategories),
             params_productId req = Some pid
             /\ Prisma.products_findUnique d pid = Some existing
             /\ Prisma.products_update (now rt) d pid
                  (update_data rt req imageUrl) = inr (db w, pc)
             /\ (file req = None -> imageUrl = Products.imageUrl existing)
             /\ (forall f, file req = Some f ->
                           exists url,
                             host_upload (host rt) (path f) = Resolves url
                             /\ imageUrl = Some url)).
  { destruct (file req) as [f|] eqn:Hfile.
    - destruct (updateProduct_success_image rt d req resp w f Hrun Hs Hfile)
        as [pid [existing [url [pc [Hp [Hf [Hu [Hup _]]]]]]]].
      exists pid, existing, (Some url), pc.
      repeat split; auto; [discriminate|].
      intros f' Hf'. injection Hf' as <-. eauto.
    - destruct (updateProduct_success rt d req resp w Hrun Hs)
        as [pid [existing [imageUrl [pc [Hp [Hf [Hup [_ Hkeep]]]]]]]].
      destruct (Hkeep Hfile) as [-> _].
      exists pid, existing, (Products.imageUrl existing), pc.
      repeat split; auto. discriminate. }
  destruct Hgen as [pid [existing [imageUrl [pc [Hp [Hf [Hup [Hnone Hsome]]]]]]]].
  destruct (products_update_stored _ _ _ _ _ _ Hup) as [Hfound Hstored].
  destruct (products_update_inr _ _ _ _ _ _ Hup)
    as [old [qty [cid [Hold [Hqty [_ [_ [_ Hpc]]]]]]]].
  assert (old = existing) by congruence. subst old.
  exists pid, existing, (product pc).
  split; [exact Hp|]. split; [exact Hf|]. split; [exact Hfound|].
  rewrite Hpc in *. simpl in *.
  split; [now apply findUnique_Some in Hf|].
  repeat split; auto.
Qed.

Lemma updateProduct_stored_witness :
  let r := run (updateProduct (Sample.update_req "p1" (Some Sample.png)))
               (Sample.runtime Sample.resolving) Sample.catalogue in
  exists after : Products.t,
    Prisma.products_findUnique (db_after r) "p1" = Some after
    /\ Products.name after = "Clog"
    /\ Products.createdAt after = Sample.t0
    /\ Products.updatedAt after = Sample.t_apr30
    /\ Products.imageUrl after = Some Sample.new_url.
Proof.
  cbv zeta.
  let v := eval vm_compute in
             (run (updateProduct (Sample.update_req "p1" (Some Sample.png)))
                  (Sample.runtime Sample.resolving) Sample.catalogue) in
  match v with
  | (Normal ?resp, ?w) =>
      destruct (updateProduct_stored
                  (Sample.runtime Sample.resolving) Sample.catalogue
                  (Sample.update_req "p1" (Some Sample.png)) resp w)
        as [pid [before [after [Hp [Hb [Ha [_ [Hn [_ [_ [Hc [Hu [_ Hi]]]]]]]]]]]]];
      [ vm_compute; reflexivity | reflexivity | ]
  end.
  injection Hp as <-. vm_compute in Hb. injection Hb as <-.
  destruct (Hi Sample.png eq_refl) as [url [Hurl Himg]].
  injection Hurl as <-.
  exists after. split; [exact Ha|]. split; [exact Hn|]. split; [exact Hc|].
  split; [exact Hu|exact Himg].
Defined.

(** X9. An update request answered 200 touches one product only: a lookup
    of any other id gives what it gave before, the links of the other
    products are what they were, and so are the categories, the sales and
    the purchases. *)
Theorem updateProduct_frame
        (rt : Runtime) (d : Db) (req : Request) (resp : Response) (w : World) :
  run (updateProduct req) rt d = (Normal resp, w) ->
  status resp = 200 ->
  exists pid : string,
    params_productId req = Some pid
    /\ (forall q : string,
          q <> pid ->
          Prisma.products_findUnique (db w) q = Prisma.products_findUnique d q)
    /\ (forall c q : string, q <> pid -> linked (db w) c q = linked d c q)
    /\ productCategory (db w) = productCategory d
    /\ sales (db w) = sales d
    /\ purchases (db w) = purchases d.
Proof.
  intros Hrun Hs.
  destruct (updateProduct_success rt d req resp w Hrun Hs)
    as [pid [existing [imageUrl [pc [Hp [_ [Hup _]]]]]]].
  destruct (products_update_inr _ _ _ _ _ _ Hup)
    as [old [qty [cid [_ [_ [_ [_ [Hd _]]]]]]]].
  exists pid. split; [exact Hp|]. rewrite Hd.
  unfold Prisma.products_findUnique, linked. simpl. repeat split; auto.
  - intros q Hq. now apply find_replace_other.
  - intros c q Hq. rewrite existsb_app, linked_remove_product. simpl.
    apply String.eqb_neq in Hq. rewrite Hq.
    unfold is_link at 2. simpl. rewrite (String.eqb_sym pid q), Hq.
    now rewrite andb_false_r, orb_false_r.
Qed.

Lemma updateProduct_frame_witness :
  let r := run (updateProduct (Sample.update_req "p1" None))
               (Sample.runtime Sample.resolving) Sample.catalogue in
  Prisma.products_findUnique (db_after r) "p2" = Some Sample.cap
  /\ linked (db_after r) "c2" "p2" = true
  /\ productCategory (db_after r) = [Sample.shoes; Sample.hats]
  /\ sales (db_after r) = sales Sample.catalogue.
Proof.
  cbv zeta.
  let v := eval vm_compute in
             (run (updateProduct (Sample.update_req "p1" None))
                  (Sample.runtime Sample.resolving) Sample.catalogue) in
  match v with
  | (Normal ?resp, ?w) =>
      destruct (updateProduct_frame
                  (Sample.runtime Sample.resolving) Sample.catalogue
                  (Sample.update_req "p1" None) resp w)
        as [pid [Hp [Hfind [Hlinks [Hcats [Hs _]]]]]];
      [ vm_compute; reflexivity | reflexivity | ]
  end.
  injection Hp as <-.
  split; [exact (Hfind "p2" ltac:(discriminate))|].
  split; [exact (Hlinks "c2" "p2" ltac:(discriminate))|].
  split; [exact Hcats|exact Hs].
Defined.

(** ** The category handlers *)

(** In a database with integrity no link refers to a category that is not
    there. *)
Lemma unlinked_when_no_category (d : Db) (cid p : string) :
  db_wf d -> has_category d cid = false -> linked d cid p = false.
Proof.
  intros Hwf Hc. unfold linked.
  pose proof (wf_links d Hwf) as Hl. rewrite Forall_forall in Hl.
  destruct (existsb (is_link cid p) (links d)) eqn:E; [|reflexivity].
  apply existsb_exists in E. destruct E as [l [Hin Hlink]].
  unfold is_link in Hlink. apply andb_prop in Hlink. destruct Hlink as [Hf _].
  apply String.eqb_eq in Hf. destruct (Hl l Hin) as [Hhas _].
  rewrite Hf in Hhas. congruence.
Qed.

Lemma find_category_new (l : list ProductCategory.t) (row : ProductCategory.t)
      (cid : string) :
  ProductCategory.categoryId row = cid ->
  existsb (fun c => (ProductCategory.categoryId c =? cid)%string) l = false ->
  find (fun c => (ProductCategory.categoryId c =? cid)%string) (l ++ [row])
  = Some row.
Proof.
  intros Hrow. induction l as [|c tl IH]; simpl; intros Hnew.
  - now rewrite Hrow, String.eqb_refl.
  - apply orb_false_iff in Hnew. destruct Hnew as [Hc Htl].
    rewrite Hc. apply IH, Htl.
Qed.

Lemma filter_none {A : Type} (f : A -> bool) (l : list A) :
  (forall x, f x = false) -> filter f l = [].
Proof.
  intros H. induction l as [|x tl IH]; simpl; [reflexivity|].
  now rewrite H.
Qed.

(** X10. A create-category request answered 201 stored the category under
    the id and the name the request gave, the id being new; the category can
    be fetched at once and has no products; products and links are
    untouched. *)
Theorem createProductCategory_created
        (rt : Runtime) (d : Db) (req : Request) (resp : Response) (w : World) :
  db_wf d ->
  run (createProductCategory req) rt d = (Normal resp, w) ->
  status resp = 201 ->
  exists (cid nm : string),
    Body.categoryId (body req) = Some cid
    /\ Body.name (body req) = Some nm
    /\ has_category d cid = false
    /\ payload resp
       = CategoryJson (ProductCategory.mk cid nm (Body.description (body req))
                                          (now rt) (now rt))
    /\ Prisma.productCategory_findUnique (db w) cid
       = Some (mkCP (ProductCategory.mk cid nm (Body.description (body req))
                                        (now rt) (now rt)) [])
    /\ products (db w) = products d
    /\ links (db w) = links d.
Proof.
  intros Hwf H Hs.
  unfold run, createProductCategory, try_catch, bind, ask, prisma_write,
    json, ret in H. simpl in H.
  unfold Prisma.productCategory_create in H.
  destruct (Body.categoryId (body req)) as [cid|]; simpl in H;
    [|injection H as <- <-; discriminate].
  destruct (Body.name (body req)) as [nm|]; simpl in H;
    [|injection H as <- <-; discriminate].
  destruct (has_category d cid) eqn:Hc; simpl in H;
    injection H as <- <-; [discriminate|].
  exists cid, nm. simpl. repeat split; auto.
  unfold Prisma.productCategory_findUnique. simpl.
  rewrite (find_category_new (productCategory d)
             (ProductCategory.mk cid nm (Body.description (body req))
                                 (now rt) (now rt)) cid eq_refl Hc).
  f_equal. f_equal. unfold products_of. apply filter_none.
  intros p. exact (unlinked_when_no_category d cid _ Hwf Hc).
Qed.

Lemma createProductCategory_created_witness :
  let r := run (createProductCategory (Scenario.category_req "c3"))
               (Sample.runtime Sample.resolving) Sample.catalogue in
  has_category Sample.catalogue "c3" = false
  /\ Prisma.productCategory_findUnique (db_after r) "c3"
     = Some (mkCP (ProductCategory.mk "c3" "Bags" (Some "Carried")
                                      Sample.t_apr30 Sample.t_apr30) [])
  /\ products (db_after r) = products Sample.catalogue.
Proof.
  cbv zeta.
  let v := eval vm_compute in
             (run (createProductCategory (Scenario.category_req "c3"))
                  (Sample.runtime Sample.resolving) Sample.catalogue) in
  match v with
  | (Normal ?resp, ?w) =>
      destruct (createProductCategory_created
                  (Sample.runtime Sample.resolving) Sample.catalogue
                  (Scenario.category_req "c3") resp w)
        as [cid [nm [Hc [Hn [Hnew [_ [Hfind [Hprod _]]]]]]]];
      [ apply db_wfb_sound; reflexivity
      | vm_compute; reflexivity
      | reflexivity
      | ]
  end.
  injection Hc as <-. injection Hn as <-.
  split; [exact Hnew|]. split; [exact Hfind|exact Hprod].
Defined.

(** X11. A create-category request with no id, with no name, or with the id
    of a category that exists is answered 500 "Error creating product
    category" and changes nothing. *)
Theorem createProductCategory_rejected
        (rt : Runtime) (d : Db) (req : Request) :
  Body.categoryId (body req) = None
  \/ Body.name (body req) = None
  \/ (exists cid : string,
        Body.categoryId (body req) = Some cid /\ has_category d cid = true) ->
  run (createProductCategory req) rt d =
  (Normal (mkResponse 500 (Message "Error creating product category")),
   mkWorld d [] [productCategory_create]).
Proof.
  intros H.
  unfold run, createProductCategory, try_catch, bind, ask, prisma_write.
  simpl. unfold Prisma.productCategory_create.
  destruct H as [H|[H|[cid [H Hc]]]]; rewrite H.
  - reflexivity.
  - destruct (Body.categoryId (body req)); reflexivity.
  - destruct (Body.name (body req)); [rewrite Hc|]; reflexivity.
Qed.

Lemma createProductCategory_rejected_witness :
  run (createProductCategory (Scenario.category_req "c1"))
      (Sample.runtime Sample.resolving) Sample.catalogue
  = (Normal (mkResponse 500 (Message "Error creating product category")),
     mkWorld Sample.catalogue [] [productCategory_create]).
Proof.
  apply (createProductCategory_rejected
           (Sample.runtime Sample.resolving) Sample.catalogue
           (Scenario.category_req "c1")).
  right. right. exists "c1". split; reflexivity.
Defined.

(** X12. A delete-category request for an id that is not in the database is
    answered 500 "Error deleting product category", not 404, and changes
    nothing. *)
Theorem deleteProductCategory_missing
        (rt : Runtime) (d : Db) (req : Request) (cid : string) :
  params_categoryId req = Some cid ->
  has_category d cid = false ->
  run (deleteProductCategory req) rt d =
  (Normal (mkResponse 500 (Message "Error deleting product category")),
   mkWorld d [] [productCategory_delete]).
Proof.
  intros Hp Hc.
  unfold run, deleteProductCategory, try_catch, bind, prisma_write.
  rewrite Hp. simpl. unfold Prisma.productCategory_delete. rewrite Hc.
  reflexivity.
Qed.

Lemma deleteProductCategory_missing_witness :
  run (deleteProductCategory (Scenario.category_delete_req "c9"))
      (Sample.runtime Sample.resolving) Sample.catalogue
  = (Normal (mkResponse 500 (Message "Error deleting product category")),
     mkWorld Sample.catalogue [] [productCategory_delete]).
Proof.
  apply (deleteProductCategory_missing
           (Sample.runtime Sample.resolving) Sample.catalogue
           (Scenario.category_delete_req "c9") "c9");
    reflexivity.
Defined.




(** ** addProductToCategory *)

Lemma addProductToCategory_success (rt : Runtime) (d : Db) (req : Request)
      (resp : Response) (w : World) :
  run (addProductToCategory req) rt d = (Normal resp, w) ->
  status resp = 200 ->
  exists (pid cid : string),
    Body.productId (body req) = Some pid
    /\ Body.categoryId (body req) = Some cid
    /\ has_product d pid = true
    /\ has_category d cid = true
    /\ links (db w) = (if linked d cid pid then links d
                       else links d ++ [(cid, pid)])%list
    /\ productCategory (db w) = productCategory d
    /\ map Products.productId (products (db w))
       = map Products.productId (products d).
Proof.
  intros H Hs.
  unfold run, addProductToCategory, try_catch, bind, ask, prisma_write,
    json_ok, json, ret in H. simpl in H.
  unfold Prisma.products_connect in H.
  destruct (Body.productId (body req)) as [pid|]; simpl in H;
    [|injection H as <- <-; discriminate].
  destruct (Body.categoryId (body req)) as [cid|]; simpl in H;
    [|injection H as <- <-; discriminate].
  destruct (Prisma.products_findUnique d pid) as [old|] eqn:Hf; simpl in H;
    [|injection H as <- <-; discriminate].
  destruct (has_category d cid) eqn:Hc; simpl in H;
    injection H as <- <-; [|discriminate].
  exists pid, cid. simpl. repeat split; auto.
  - now apply findUnique_Some in Hf.
  - now apply replace_product_ids.
Qed.

(** X14. An add-to-category request answered 200 links the product to the
    category and keeps every link there was, those of the product included
    (an update request would have reset them); the only link it can add is
    the one asked for. *)
Theorem addProductToCategory_keeps_links
        (rt : Runtime) (d : Db) (req : Request) (resp : Response) (w : World) :
  run (addProductToCategory req) rt d = (Normal resp, w) ->
  status resp = 200 ->
  exists (pid cid : string),
    Body.productId (body req) = Some pid
    /\ Body.categoryId (body req) = Some cid
    /\ has_product d pid = true
    /\ has_category d cid = true
    /\ linked (db w) cid pid = true
    /\ (forall c q : string, linked d c q = true -> linked (db w) c q = true)
    /\ (forall c q : string,
          linked (db w) c q = true ->
          linked d c q = true \/ (c = cid /\ q = pid)).
Proof.
  intros H Hs.
  destruct (addProductToCategory_success rt d req resp w H Hs)
    as [pid [cid [Hp [Hc [Hhp [Hhc [Hl _]]]]]]].
  exists pid, cid. unfold linked in *. rewrite Hl.
  repeat split; auto.
  - destruct (existsb (is_link cid pid) (links d)) eqn:E; [exact E|].
    rewrite existsb_app. simpl. unfold is_link at 2. simpl.
    now rewrite !String.eqb_refl, orb_true_r.
  - intros c q Hcq.
    destruct (existsb (is_link cid pid) (links d)); [exact Hcq|].
    rewrite existsb_app, Hcq. reflexivity.
  - intros c q Hcq.
    destruct (existsb (is_link cid pid) (links d)); [left; exact Hcq|].
    rewrite existsb_app in Hcq. apply orb_true_iff in Hcq.
    destruct Hcq as [Hcq|Hcq]; [left; exact Hcq|right].
    simpl in Hcq. rewrite orb_false_r in Hcq. unfold is_link in Hcq.
    simpl in Hcq. apply andb_prop in Hcq. destruct Hcq as [H1 H2].
    apply String.eqb_eq in H1. apply String.eqb_eq in H2. auto.
Qed.

Lemma addProductToCategory_keeps_links_witness :
  let r := run (addProductToCategory (Scenario.add_req "p2" "c1"))
               (Sample.runtime Sample.resolving) Sample.catalogue in
  linked Sample.catalogue "c1" "p2" = false
  /\ linked (db_after r) "c1" "p2" = true
  /\ linked (db_after r) "c2" "p2" = true.
Proof.
  cbv zeta. split; [reflexivity|].
  let v := eval vm_compute in
             (run (addProductToCategory (Scenario.add_req "p2" "c1"))
                  (Sample.runtime Sample.resolving) Sample.catalogue) in
  match v with
  | (Normal ?resp, ?w) =>
      destruct (addProductToCategory_keeps_links
                  (Sample.runtime Sample.resolving) Sample.catalogue
                  (Scenario.add_req "p2" "c1") resp w)
        as [pid [cid [Hp [Hc [_ [_ [Hnew [Hkept _]]]]]]]];
      [ vm_compute; reflexivity | reflexivity | ]
  end.
  injection Hp as <-. injection Hc as <-.
  split; [exact Hnew|]. exact (Hkept "c2" "p2" eq_refl).
Defined.

(** X15. Adding a product to a category twice is adding it once: after a
    request answered 200 the same request is answered 200 again, whenever
    it comes, and leaves the links as the first one left them. *)
Theorem addProductToCategory_twice
        (rt rt' : Runtime) (d : Db) (req : Request) (resp : Response)
        (w : World) :
  run (addProductToCategory req) rt d = (Normal resp, w) ->
  status resp = 200 ->
  exists resp' : Response,
    response_of (run (addProductToCategory req) rt' (db w)) = Some resp'
    /\ status resp' = 200
    /\ links (db_after (run (addProductToCategory req) rt' (db w)))
       = links (db w).
Proof.
  intros H Hs.
  destruct (addProductToCategory_success rt d req resp w H Hs)
    as [pid [cid [Hp [Hc [Hhp [Hhc [Hl [Hcats Hids]]]]]]]].
  assert (Hlinked : linked (db w) cid pid = true).
  { unfold linked. rewrite Hl.
    destruct (linked d cid pid) eqn:E; [exact E|].
    rewrite existsb_app. simpl. unfold is_link at 2. simpl.
    now rewrite !String.eqb_refl, orb_true_r. }
  assert (Hhp' : has_product (db w) pid = true).
  { apply has_product_In. rewrite Hids. now apply has_product_In. }
  assert (Hhc' : has_category (db w) cid = true).
  { unfold has_category. rewrite Hcats. exact Hhc. }
  destruct (has_product_findUnique _ _ Hhp') as [p Hf].
  unfold response_of, db_after, run, addProductToCategory, try_catch, bind,
    ask, prisma_write. simpl. unfold Prisma.products_connect.
  rewrite Hp, Hc, Hf, Hhc'. simpl. rewrite Hlinked.
  eexists. repeat split.
Qed.

Lemma addProductToCategory_twice_witness :
  let r := run (addProductToCategory (Scenario.add_req "p2" "c1"))
               (Sample.runtime Sample.resolving) Sample.catalogue in
  let r' := run (addProductToCategory (Scenario.add_req "p2" "c1"))
                (Sample.runtime Sample.rejecting) (db_after r) in
  exists resp' : Response,
    response_of r' = Some resp'
    /\ status resp' = 200
    /\ links (db_after r') = links (db_after r).
Proof.
  cbv zeta.
  let v := eval vm_compute in
             (run (addProductToCategory (Scenario.add_req "p2" "c1"))
                  (Sample.runtime Sample.resolving) Sample.catalogue) in
  match v with
  | (Normal ?resp, ?w) =>
      apply (addProductToCategory_twice
               (Sample.runtime Sample.resolving)
               (Sample.runtime Sample.rejecting) Sample.catalogue
               (Scenario.add_req "p2" "c1") resp w);
      [ vm_compute; reflexivity | reflexivity ]
  end.
Defined.

(** ** getProductsByCategory and getProducts *)

(** X16. A request for the products of a category that is not in the
    database is answered 404 "Category not found". *)
Theorem getProductsByCategory_not_found
        (rt : Runtime) (d : Db) (req : Request) (cid : string) :
  params_categoryId req = Some cid ->
  has_category d cid = false ->
  run (getProductsByCategory req) rt d =
  (Normal (mkResponse 404 (Message "Category not found")),
   mkWorld d [] [productCategory_findUnique]).
Proof.
  intros Hp Hc.
  unfold run, getProductsByCategory, try_catch, bind, prisma_read.
  rewrite Hp. simpl. unfold Prisma.productCategory_findUnique.
  assert (Hnone : find (fun c => (ProductCategory.categoryId c =? cid)%string)
                       (productCategory d) = None).
  { unfold has_category in Hc.
    induction (productCategory d) as [|c tl IH]; simpl in *; [reflexivity|].
    apply orb_false_iff in Hc. destruct Hc as [Hc Htl].
    rewrite Hc. apply IH, Htl. }
  rewrite Hnone. reflexivity.
Qed.

Lemma getProductsByCategory_not_found_witness :
  run (getProductsByCategory (Scenario.category_delete_req "c9"))
      (Sample.runtime Sample.resolving) Sample.catalogue
  = (Normal (mkResponse 404 (Message "Category not found")),
     mkWorld Sample.catalogue [] [productCategory_findUnique]).
Proof.
  apply (getProductsByCategory_not_found
           (Sample.runtime Sample.resolving) Sample.catalogue
           (Scenario.category_delete_req "c9") "c9");
    reflexivity.
Defined.

(** *** The pattern of [contains] *)








(** ** The storage key of a hosted image *)

Lemma pop_split_app (sep : ascii) (base rest : string) :
  free_of sep rest ->
  Js.pop (Js.split sep (base ++ String sep rest)) = Some rest.
Proof.
  intros Hfree. induction base as [|c base IH]; simpl.
  - rewrite Ascii.eqb_refl, (split_free _ _ Hfree). reflexivity.
  - destruct (Js.split sep (base ++ String sep rest)) as [|hd tl] eqn:Es;
      [now apply split_nonempty in Es|].
    pose proof (split_app_length sep base rest) as Hlen.
    rewrite Es in Hlen. destruct tl as [|hd' tl']; [simpl in Hlen; lia|].
    destruct (Ascii.eqb c sep); exact IH.
Qed.

Lemma first_split_free (sep : ascii) (piece rest : string) :
  free_of sep piece ->
  Js.first (Js.split sep (piece ++ String sep rest)) = Some piece.
Proof.
  intros Hfree. unfold Js.first.
  induction piece as [|c piece IH]; simpl.
  - rewrite Ascii.eqb_refl. reflexivity.
  - destruct Hfree as [Hc Hfree]. apply Ascii.eqb_neq in Hc. rewrite Hc.
    specialize (IH Hfree).
    destruct (Js.split sep (piece ++ String sep rest)) as [|hd tl];
      [discriminate|].
    simpl in *. now injection IH as ->.
Qed.

(** X18. For a stored URL of the shape the media host gives, anything, then
    a slash, a name with no slash and no dot in it, and possibly a dot and
    an extension, the key the handlers ask the host to destroy is
    "products/" followed by that name. *)
Theorem destroy_target_of_hosted_url (base name rest : string) :
  name <> "" ->
  free_of "/" name ->
  free_of "." name ->
  free_of "/" rest ->
  rest = "" \/ (exists ext : string, rest = String "." ext) ->
  destroy_target (Some (base ++ "/" ++ name ++ rest))
  = Some ("products/" ++ name).
Proof.
  intros Hne Hslash Hdot Hrest Hshape.
  assert (Hfree : free_of "/" (name ++ rest)).
  { clear - Hslash Hrest. induction name as [|c name IH]; simpl; [exact Hrest|].
    destruct Hslash. split; auto. }
  assert (Hurl : Js.truthy (Some (base ++ "/" ++ name ++ rest)) = true).
  { simpl. destruct base; reflexivity. }
  assert (Hname : Js.truthy (Some name) = true).
  { simpl. destruct name; [contradiction|reflexivity]. }
  unfold destroy_target, publicId. rewrite Hurl.
  change (base ++ "/" ++ name ++ rest)
    with (base ++ String "/" (name ++ rest)).
  rewrite (pop_split_app _ _ _ Hfree).
  assert (Hfirst : Js.first (Js.split "." (name ++ rest)) = Some name).
  { destruct Hshape as [->|[ext ->]].
    - assert (Hnil : name ++ "" = name)
        by (clear; induction name as [|c name IH]; simpl; congruence).
      rewrite Hnil, (split_free _ _ Hdot). reflexivity.
    - apply first_split_free. exact Hdot. }
  rewrite Hfirst, Hname. reflexivity.
Qed.

Lemma destroy_target_of_hosted_url_witness :
  destroy_target (Some Sample.boot_url) = Some "products/abc123".
Proof.
  apply (destroy_target_of_hosted_url
           "https://res.cloudinary.com/demo/image/upload/v1735732800/products"
           "abc123" ".jpg").
  - discriminate.
  - simpl. repeat split; discriminate.
  - simpl. repeat split; discriminate.
  - simpl. repeat split; discriminate.
  - right. exists "jpg". reflexivity.
Defined.

(** ** Every request, through the router *)

(** Opens a handler up to the queries and the remote calls it makes. *)
Ltac open_handler :=
  unfold getProducts, createProduct, updateProduct, deleteProduct,
    createProductCategory, deleteProductCategory, getProductCategories,
    getProductsByCategory, addProductToCategory, getNewArrivals,
    create_row, update_product, delete_product, findUnique_product,
    destroy_stored_image, attempt, try_catch, bind, ask, prisma_read, prisma_write, prisma_invalid,
    cloudinary_upload, cloudinary_destroy, json_ok, json, ret, throw, logged.

(** Splits on the innermost scrutinee the goal still matches on. *)
Ltac split_run :=
  repeat (simpl;
          match goal with
          | |- context [match ?x with _ => _ end] =>
              lazymatch x with
              | context [match _ with _ => _ end] => fail
              | _ => destruct x eqn:?
              end
          end);
  simpl.

(** X19. The router answers every request: whatever the request, the
    database, the media host and the clock, no exception leaves a handler,
    and the status of the response is 200, 201, 400, 404 or 500. *)
Theorem router_always_answers (r : HttpRequest) (rt : Runtime) (d : Db) :
  exists resp : Response,
    fst (run (router r) rt d) = Normal resp
    /\ In (status resp) [200; 201; 400; 404; 500].
Proof.
  unfold run, router. destruct (route r) as [h req|err|].
  - destruct h; simpl; open_handler; split_run;
      eexists; (split; [reflexivity|simpl; tauto]).
  - eexists. split; [reflexivity|simpl; tauto].
  - eexists. split; [reflexivity|simpl; tauto].
Qed.

Lemma handler_failure_unchanged (h : Handler) (req : Request) (rt : Runtime)
      (w : World) (resp : Response) :
  fst (handler h req rt w) = Normal resp ->
  status resp <> 200 ->
  status resp <> 201 ->
  db (snd (handler h req rt w)) = db w.
Proof.
  destruct h; simpl; open_handler; split_run; simpl; intros Hresp H200 H201;
    try reflexivity;
    injection Hresp as <-; simpl in *; congruence.
Qed.

(** X20. A request that is not answered 200 or 201 has changed nothing in
    the database, whichever route it took and wherever it failed. *)
Theorem router_failure_changes_nothing
        (r : HttpRequest) (rt : Runtime) (d : Db) (resp : Response) :
  response_of (run (router r) rt d) = Some resp ->
  status resp <> 200 ->
  status resp <> 201 ->
  db_after (run (router r) rt d) = d.
Proof.
  unfold response_of, db_after, run, router. intros Hresp H200 H201.
  destruct (route r) as [h req|err|]; [|reflexivity|reflexivity].
  destruct (fst (handler h req rt (mkWorld d [] []))) as [resp'|e] eqn:E;
    [|discriminate].
  injection Hresp as ->.
  exact (handler_failure_unchanged h req rt _ resp E H200 H201).
Qed.

Lemma router_failure_changes_nothing_witness :
  db_after (run (router Scenario.missing_put)
                (Sample.runtime Sample.resolving) Sample.catalogue)
  = Sample.catalogue.
Proof.
  apply (router_failure_changes_nothing
           Scenario.missing_put (Sample.runtime Sample.resolving)
           Sample.catalogue (mkResponse 404 (Message "Product not found")));
    [ reflexivity | discriminate | discriminate ].
Defined.

Lemma strip_slash_nil (path : list string) :
  strip_slash path = [] -> path = [].
Proof.
  destruct path as [|a [|b tl]]; intros H.
  - reflexivity.
  - discriminate H.
  - unfold strip_slash in H.
    destruct (last (a :: b :: tl) "" =? "")%string; [|discriminate H].
    simpl in H. discriminate H.
Qed.

(** Where each handler is mounted. *)
Lemma route_sound (r : HttpRequest) (h : Handler) (req : Request) :
  route r = Dispatch h req ->
  match h with
  | h_getProducts => http_method r = GET /\ http_path r = []
  | h_createProduct => http_method r = POST /\ http_path r = []
  | h_updateProduct =>
      http_method r = PUT
      /\ exists a pid, strip_slash (http_path r) = [a; pid]
                       /\ segment_is "products" a = true
  | h_deleteProduct =>
      http_method r = DELETE
      /\ exists a pid, strip_slash (http_path r) = [a; pid]
                       /\ segment_is "products" a = true
  | h_createProductCategory =>
      http_method r = POST
      /\ exists a, strip_slash (http_path r) = [a]
                   /\ segment_is "categories" a = true
  | h_deleteProductCategory =>
      http_method r = DELETE
      /\ exists a cid, strip_slash (http_path r) = [a; cid]
                       /\ segment_is "categories" a = true
  | h_getProductCategories =>
      http_method r = GET
      /\ exists a, strip_slash (http_path r) = [a]
                   /\ segment_is "categories" a = true
  | h_getProductsByCategory =>
      http_method r = GET
      /\ exists a cid b, strip_slash (http_path r) = [a; cid; b]
                         /\ segment_is "categories" a = true
                         /\ segment_is "products" b = true
  | h_addProductToCategory =>
      http_method r = POST
      /\ exists a b, strip_slash (http_path r) = [a; b]
                     /\ segment_is "categories" a = true
                     /\ segment_is "add-product" b = true
  | h_getNewArrivals =>
      http_method r = GET
      /\ exists a, strip_slash (http_path r) = [a]
                   /\ segment_is "newArrivals" a = true
  end
  /\ (h <> h_createProduct -> file req = None).
Proof.
  unfold route. intros H.
  destruct (http_method r);
    destruct (strip_slash (http_path r)) as [|a [|b [|c [|x tl]]]] eqn:Hpath;
    try discriminate;
    repeat match type of H with
           | (if ?b then _ else _) = _ => destruct b eqn:?
           | match ?x with _ => _ end = _ => destruct x
           end;
    try discriminate;
    injection H as <- <-;
    repeat match goal with
           | E : (_ && _)%bool = true |- _ =>
               apply andb_prop in E; destruct E
           end;
    try apply strip_slash_nil in Hpath;
    (split; [split; eauto 8|]); try (intros _; reflexivity);
    intros Hne; contradiction.
Qed.

Lemma createProduct_calls_shape (req : Request) (rt : Runtime) (d : Db) :
  calls_of (run (createProduct req) rt d) = []
  \/ exists file : Js.value, calls_of (run (createProduct req) rt d) = [Upload file].
Proof.
  unfold calls_of, run. open_handler. split_run; eauto.
Qed.

Lemma deleteProduct_calls_shape (req : Request) (rt : Runtime) (d : Db) :
  calls_of (run (deleteProduct req) rt d) = []
  \/ exists key : string, calls_of (run (deleteProduct req) rt d) = [Destroy key].
Proof.
  unfold calls_of, run. open_handler. split_run; eauto.
Qed.

Lemma other_handlers_no_calls (h : Handler) (req : Request) (rt : Runtime)
      (d : Db) :
  h <> h_createProduct -> h <> h_deleteProduct -> h <> h_updateProduct ->
  calls_of (run (handler h req) rt d) = [].
Proof.
  intros H1 H2 H3. unfold calls_of, run.
  destruct h; try contradiction; simpl; open_handler; split_run; reflexivity.
Qed.

(** X21. Over HTTP the media host is called at most once per request, and
    only by two routes: an upload by [POST /], a removal by
    [DELETE /products/:productId], a path the router matches without regard
    to the case of [products] or to a slash at the end.  No other request
    reaches the host. *)
Theorem router_media_calls (r : HttpRequest) (rt : Runtime) (d : Db) :
  calls_of (run (router r) rt d) = []
  \/ (exists file : Js.value,
        calls_of (run (router r) rt d) = [Upload file]
        /\ http_method r = POST /\ http_path r = [])
  \/ (exists key a pid : string,
        calls_of (run (router r) rt d) = [Destroy key]
        /\ http_method r = DELETE
        /\ strip_slash (http_path r) = [a; pid]
        /\ segment_is "products" a = true).
Proof.
  unfold router. destruct (route r) as [h req|err|] eqn:Hroute;
    [|left; reflexivity|left; reflexivity].
  destruct (route_sound r h req Hroute) as [Hwhere Hfile].
  destruct h;
    try (left; apply other_handlers_no_calls; discriminate).
  - destruct (createProduct_calls_shape req rt d) as [H|[file H]];
      [left; exact H|right; left].
    exists file. destruct Hwhere. auto.
  - left. apply updateProduct_no_file_no_calls. apply Hfile. discriminate.
  - destruct (deleteProduct_calls_shape req rt d) as [H|[key H]];
      [left; exact H|right; right].
    destruct Hwhere as [Hm [a [pid [Hp Ha]]]]. exists key, a, pid. auto.
Qed.

(** X22. A GET request changes nothing and reaches nobody: whatever its
    path, the database after it is the database before it and the media
    host is not called. *)
Theorem get_requests_read_only (r : HttpRequest) (rt : Runtime) (d : Db) :
  http_method r = GET ->
  db_after (run (router r) rt d) = d /\ calls_of (run (router r) rt d) = [].
Proof.
  intros Hm. unfold db_after, calls_of, run, router.
  destruct (route r) as [h req|err|] eqn:Hroute; [|auto|auto].
  destruct (route_sound r h req Hroute) as [Hwhere _].
  destruct h; destruct Hwhere as [Hm' _]; try congruence;
    simpl; open_handler; split_run; auto.
Qed.

Lemma get_requests_read_only_witness :
  db_after (run (router Scenario.get_newArrivals)
                (Sample.runtime Sample.resolving) Sample.catalogue)
  = Sample.catalogue
  /\ calls_of (run (router Scenario.get_newArrivals)
                   (Sample.runtime Sample.resolving) Sample.catalogue) = [].
Proof.
  apply (get_requests_read_only
           Scenario.get_newArrivals (Sample.runtime Sample.resolving)
           Sample.catalogue).
  reflexivity.
Defined.

(** X23. A part that is not an image, or one of five megabytes or more,
    stops at the upload middleware of [POST /]: the answer is the
    framework's 500, the create handler is not run, no query is issued, the
    media host is not called. *)
Theorem upload_rejected_before_handler
        (r : HttpRequest) (f : File) (rt : Runtime) (d : Db) :
  http_method r = POST ->
  http_path r = [] ->
  http_image r = Some f ->
  Js.startsWith (mimetype f) "image/" = false
  \/ fileSize_limit <= Z.of_nat (List.length (buffer f)) ->
  exists message : string,
    route r = MiddlewareError message
    /\ run (router r) rt d =
       (Normal (mkResponse 500 (ErrorPage message)), mkWorld d [] []).
Proof.
  intros Hm Hp Hi Hbad. unfold run, router, route. rewrite Hm, Hp, Hi.
  unfold upload_single.
  destruct (Js.startsWith (mimetype f) "image/") eqn:Et; simpl.
  - destruct Hbad as [Hbad|Hbad]; [discriminate|].
    apply Z.leb_le in Hbad. rewrite Hbad. eauto.
  - eauto.
Qed.

Lemma upload_rejected_before_handler_witness :
  exists message : string,
    route Scenario.post_notes = MiddlewareError message
    /\ run (router Scenario.post_notes)
           (Sample.runtime Sample.resolving) Sample.catalogue
       = (Normal (mkResponse 500 (ErrorPage message)),
          mkWorld Sample.catalogue [] []).
Proof.
  apply (upload_rejected_before_handler
           Scenario.post_notes Scenario.notes
           (Sample.runtime Sample.resolving) Sample.catalogue);
    [ reflexivity | reflexivity | reflexivity | left; reflexivity ].
Defined.

(** ** The pages against the router *)

(** The image the dialog holds has passed its two checks. *)
Lemma reachable_checked (st : Modal.State) :
  Modal.reachable st -> checked (Modal.formData st).
Proof.
  induction 1 as [uuid|field value st _ IH|picked st _ IH|js st _ IH
                  |uuid st _ IH].
  - exact I.
  - destruct field; exact IH.
  - unfold Modal.handleImageChange. destruct picked as [file|]; [|exact IH].
    destruct (Js.startsWith (Modal.type file) "image/") eqn:Et;
      cbn [negb]; [|exact IH].
    destruct (Z.gtb_spec (Modal.size file) (5 * 1024 * 1024)); [exact IH|].
    unfold checked. cbn [Modal.formData Modal.image].
    split; [exact Et|]. unfold fileSize_limit. assumption.
  - unfold Modal.handleSubmit.
    destruct (Modal.validateForm js (Modal.formData st)); exact IH.
  - exact I.
Qed.

(** The middleware lets a part of an image type through when it is under
    the limit, and only then. *)
Lemma upload_single_image (f : File) :
  Js.startsWith (mimetype f) "image/" = true ->
  upload_single (Some f)
  = if fileSize_limit <=? Z.of_nat (List.length (buffer f))
    then inl "File too large"
    else inr (Some (mkFile (mimetype f) (buffer f) None)).
Proof. intros H. unfold upload_single. rewrite H. reflexivity. Qed.

(** X26. Whatever the user does in the create-product dialog, the image the
    form holds, if it holds one, has an image media type and five megabytes
    at most; the upload middleware of the server accepts it unless it has
    exactly five megabytes, a size the dialog lets through and the server
    does not.  A pick the dialog refuses leaves the form, the image it held
    included, and the preview as they were; a pick it does not refuse is
    the image the form holds from then on. *)
Theorem modal_image_checked (st : Modal.State) :
  Modal.reachable st ->
  (forall file : Modal.BrowserFile,
      Modal.image (Modal.formData st) = Some file ->
      Js.startsWith (Modal.type file) "image/" = true
      /\ Modal.size file <= fileSize_limit
      /\ (upload_single
            (Some (mkFile (Modal.type file) (Modal.bytes file) None))
          = inr (Some (mkFile (Modal.type file) (Modal.bytes file) None))
          <-> Modal.size file <> fileSize_limit))
  /\ (forall picked : Modal.BrowserFile,
        Js.startsWith (Modal.type picked) "image/" = false
        \/ fileSize_limit < Modal.size picked ->
        Modal.formData (Modal.handleImageChange (Some picked) st)
        = Modal.formData st
        /\ Modal.imagePreview (Modal.handleImageChange (Some picked) st)
           = Modal.imagePreview st)
  /\ (forall picked : Modal.BrowserFile,
        Js.startsWith (Modal.type picked) "image/" = true ->
        Modal.size picked <= fileSize_limit ->
        Modal.image (Modal.formData (Modal.handleImageChange (Some picked) st))
        = Some picked).
Proof.
  intros Hreach. split; [|split].
  - intros file Hi. pose proof (reachable_checked st Hreach) as Hc.
    unfold checked in Hc. rewrite Hi in Hc. destruct Hc as [Ht Hs].
    split; [exact Ht|]. split; [exact Hs|].
    rewrite upload_single_image by exact Ht. cbn [mimetype buffer].
    fold (Modal.size file).
    destruct (Z.leb_spec fileSize_limit (Modal.size file)) as [Hle|Hlt].
    + split; [discriminate|]. intros Hne. lia.
    + split; [intros _; lia|reflexivity].
  - intros picked Hbad. unfold Modal.handleImageChange.
    destruct (Js.startsWith (Modal.type picked) "image/") eqn:Et;
      cbn [negb]; [|split; reflexivity].
    destruct Hbad as [Hbad|Hbad]; [discriminate|].
    unfold fileSize_limit in Hbad.
    destruct (Z.gtb_spec (Modal.size picked) (5 * 1024 * 1024));
      [split; reflexivity|lia].
  - intros picked Ht Hs. unfold Modal.handleImageChange.
    rewrite Ht. cbn [negb]. unfold fileSize_limit in Hs.
    destruct (Z.gtb_spec (Modal.size picked) (5 * 1024 * 1024));
      [lia|reflexivity].
Qed.

Lemma modal_image_checked_witness :
  Js.startsWith (Modal.type Scenario.photo) "image/" = true
  /\ Modal.size Scenario.photo <= fileSize_limit
  /\ upload_single (Some Sample.png) = inr (Some Sample.png).
Proof.
  destruct (modal_image_checked Scenario.filled_with_photo) as [Hheld _];
    [ unfold Scenario.filled_with_photo, Scenario.filled; repeat constructor
    | ].
  destruct (Hheld Scenario.photo eq_refl) as [Ht [Hs Hup]].
  split; [exact Ht|]. split; [exact Hs|].
  apply Hup. discriminate.
Defined.

Lemma validateForm_fields (js : Modal.Builtins) (fd : Modal.ProductFormData) :
  Modal.validateForm js fd = None ->
  Js.truthy (Some (Modal.trim js (Modal.name fd))) = true
  /\ Js.truthy (Some (Modal.price fd)) = true
  /\ Js.truthy (Some (Modal.stockQuantity fd)) = true
  /\ Js.truthy (Some (Modal.categoryId fd)) = true.
Proof.
  unfold Modal.validateForm. intros H.
  destruct (Js.truthy (Some (Modal.trim js (Modal.name fd))));
    [|discriminate].
  destruct (Js.truthy (Some (Modal.price fd))); [|discriminate].
  destruct (Js.truthy (Some (Modal.stockQuantity fd)));
    [|simpl in H; destruct (PrimFloat.leb _ _); discriminate].
  destruct (Js.truthy (Some (Modal.categoryId fd))); [auto|].
  simpl in H. destruct (PrimFloat.leb _ _); [discriminate|].
  destruct (Modal.parseInt js (Modal.stockQuantity fd)) as [n|];
    [destruct (n <? 0)|]; discriminate.
Qed.

Lemma modal_missingFields
      (js : Modal.Builtins) (fd : Modal.ProductFormData) (f : option File) :
  Modal.validateForm js fd = None ->
  missingFields (to_request (Modal.submitFormData js fd) None None f)
  = match f with None => ["image"] | Some _ => [] end.
Proof.
  intros Hv. destruct (validateForm_fields js _ Hv) as [Hn [Hp [Hs Hc]]].
  unfold missingFields, to_request, Modal.submitFormData.
  cbn [body file http_fields Body.name Body.price Body.stockQuantity
       Body.categoryId].
  rewrite Hn, Hp, Hs, Hc. reflexivity.
Qed.

(** X27. The dialog does not ask for an image and the server does: a form
    that passes the dialog's validation with no image picked is posted, and
    answered 400 with "image" as the one missing field; nothing is created
    and nothing uploaded. *)
Theorem modal_submit_without_image
        (js : Modal.Builtins) (st : Modal.State) (rt : Runtime) (d : Db) :
  Modal.validateForm js (Modal.formData st) = None ->
  Modal.image (Modal.formData st) = None ->
  exists r : HttpRequest,
    snd (Modal.handleSubmit js st) = Some r
    /\ run (router r) rt d =
       (Normal (mkResponse 400
                  (MissingFields "Missing required fields" ["image"])),
        mkWorld d [] []).
Proof.
  intros Hv Hi.
  pose proof (modal_missingFields js _ None Hv) as Hm.
  set (r := Modal.submitFormData js (Modal.formData st)) in *.
  assert (Hroute : route r = Dispatch h_createProduct
                                      (to_request r None None None)).
  { unfold route, r, Modal.submitFormData. rewrite Hi. reflexivity. }
  exists r. unfold Modal.handleSubmit. rewrite Hv. split; [reflexivity|].
  unfold router. rewrite Hroute.
  unfold handler, run, createProduct, try_catch, bind. rewrite Hm.
  reflexivity.
Qed.

Lemma modal_submit_without_image_witness :
  exists r : HttpRequest,
    snd (Modal.handleSubmit Scenario.builtins Scenario.filled) = Some r
    /\ run (router r) (Sample.runtime Sample.resolving) Sample.catalogue =
       (Normal (mkResponse 400
                  (MissingFields "Missing required fields" ["image"])),
        mkWorld Sample.catalogue [] []).
Proof.
  apply (modal_submit_without_image
           Scenario.builtins Scenario.filled
           (Sample.runtime Sample.resolving) Sample.catalogue);
    reflexivity.
Defined.

(** X28. A form that passes the dialog's validation with an image picked in
    the dialog is posted.  When the image is under five megabytes the request
    goes through the upload middleware and through the validation of the
    create handler: it is not answered 400, and the image is uploaded, as the
    data URI of the picked file, whatever comes after.  When the image has
    exactly five megabytes, the only other size the dialog lets through, the
    middleware refuses it: the answer is the framework's 500, nothing is
    uploaded and nothing created. *)
Theorem modal_submit_with_image
        (js : Modal.Builtins) (st : Modal.State) (file : Modal.BrowserFile)
        (rt : Runtime) (d : Db) :
  Modal.reachable st ->
  Modal.validateForm js (Modal.formData st) = None ->
  Modal.image (Modal.formData st) = Some file ->
  exists r : HttpRequest,
    snd (Modal.handleSubmit js st) = Some r
    /\ Modal.size file <= fileSize_limit
    /\ (Modal.size file < fileSize_limit ->
        exists req : Request,
          route r = Dispatch h_createProduct req
          /\ missingFields req = []
          /\ calls_of (run (router r) rt d)
             = [Upload (Some (dataURI (mkFile (Modal.type file)
                                              (Modal.bytes file) None)))])
    /\ (Modal.size file = fileSize_limit ->
        run (router r) rt d =
        (Normal (mkResponse 500 (ErrorPage "File too large")),
         mkWorld d [] [])).
Proof.
  intros Hreach Hv Hi.
  pose proof (reachable_checked st Hreach) as Hc.
  unfold checked in Hc. rewrite Hi in Hc. destruct Hc as [Ht Hs].
  set (part := mkFile (Modal.type file) (Modal.bytes file) None) in *.
  set (r := Modal.submitFormData js (Modal.formData st)).
  assert (Hup : upload_single (http_image r)
                = if fileSize_limit <=? Modal.size file
                  then inl "File too large" else inr (Some part)).
  { unfold r, Modal.submitFormData. rewrite Hi. cbn [http_image]. fold part.
    rewrite upload_single_image by exact Ht. reflexivity. }
  assert (Hroute : route r
                   = match upload_single (http_image r) with
                     | inl err => MiddlewareError err
                     | inr f => Dispatch h_createProduct
                                         (to_request r None None f)
                     end) by reflexivity.
  exists r. unfold Modal.handleSubmit. rewrite Hv.
  split; [reflexivity|]. split; [exact Hs|]. split.
  - intros Hlt. rewrite Hup in Hroute.
    destruct (Z.leb_spec fileSize_limit (Modal.size file)); [lia|].
    pose proof (modal_missingFields js _ (Some part) Hv) as Hmissing.
    fold r in Hmissing.
    exists (to_request r None None (Some part)).
    split; [exact Hroute|]. split; [exact Hmissing|].
    unfold router. rewrite Hroute. simpl.
    unfold calls_of, run, createProduct, try_catch, attempt, try_catch, bind,
      cloudinary_upload, create_row, bind, ask, prisma_write.
    rewrite Hmissing. simpl.
    destruct (host_upload (host rt) (Some (dataURI part))); simpl;
      [|reflexivity].
    destruct (Prisma.products_create _ _ _) as [e|[d' pc]]; reflexivity.
  - intros Heq. rewrite Hup in Hroute.
    destruct (Z.leb_spec fileSize_limit (Modal.size file)); [|lia].
    unfold router. rewrite Hroute. reflexivity.
Qed.

Lemma modal_submit_with_image_witness :
  exists (r : HttpRequest) (req : Request),
    snd (Modal.handleSubmit Scenario.builtins Scenario.filled_with_photo)
    = Some r
    /\ route r = Dispatch h_createProduct req
    /\ missingFields req = []
    /\ calls_of (run (router r) (Sample.runtime Sample.resolving)
                     Sample.catalogue)
       = [Upload (Some (dataURI Sample.png))].
Proof.
  destruct (modal_submit_with_image
              Scenario.builtins Scenario.filled_with_photo Scenario.photo
              (Sample.runtime Sample.resolving) Sample.catalogue)
    as [r [Hr [_ [Hunder _]]]];
    [ unfold Scenario.filled_with_photo, Scenario.filled; repeat constructor
    | reflexivity
    | reflexivity
    | ].
  destruct Hunder as [req H]; [reflexivity|].
  exists r, req. split; [exact Hr|exact H].
Defined.


(** X30. A category saved as new from the category page, under an identifier
    no category has, is created and answered 201 whatever was typed: the
    server checks nothing of the name, and the description is stored as the
    text of the form, the empty text when nothing was typed, never as an
    absent value. *)
Theorem category_page_create
        (uuid : string) (fd : CategoryPage.FormData) (rt : Runtime) (d : Db) :
  has_category d uuid = false ->
  run (router (CategoryPage.handleSubmit None uuid fd)) rt d =
  (Normal (mkResponse 201
             (CategoryJson
                (ProductCategory.mk uuid (CategoryPage.form_name fd)
                                    (Some (CategoryPage.form_description fd))
                                    (now rt) (now rt)))),
   mkWorld (mkDb (products d)
                 (productCategory d
                  ++ [ProductCategory.mk uuid (CategoryPage.form_name fd)
                        (Some (CategoryPage.form_description fd))
                        (now rt) (now rt)])
                 (links d) (sales d) (purchases d))
           [] [productCategory_create]).
Proof.
  intros Hnew.
  unfold run, router, route, CategoryPage.handleSubmit. simpl.
  unfold createProductCategory, try_catch, bind, ask, prisma_write,
    Prisma.productCategory_create. simpl.
  rewrite Hnew. reflexivity.
Qed.

Lemma category_page_create_witness :
  let r := run (router (CategoryPage.handleSubmit
                          None "c3" (CategoryPage.mkForm "Bags" "")))
               (Sample.runtime Sample.resolving) Sample.catalogue in
  response_of r
  = Some (mkResponse 201
            (CategoryJson (ProductCategory.mk "c3" "Bags" (Some "")
                                              Sample.t_apr30 Sample.t_apr30)))
  /\ has_category (db_after r) "c3" = true.
Proof.
  cbv zeta.
  rewrite (category_page_create
             "c3" (CategoryPage.mkForm "Bags" "")
             (Sample.runtime Sample.resolving) Sample.catalogue);
    [ split; reflexivity | reflexivity ].
Defined.
